(** * Faculty feedback calculator: rating scale, subject keys, column
    classification, row filter, aggregation and score distribution.

    The repository holds successive revisions of one Streamlit tool
    (app.py, app3.py, ..., app7.py).  The development follows the last
    revisions: [calculate_average_scores] and [convert_rating_to_score] as
    in app6.py / app7.py, [normalize_subject_name] as in app4.py..app7.py,
    the row mask both as in app6.py ([mask]) and as in app7.py
    ([mask_fillna]), and the response table and score distribution as in
    the [main] of app5.py..app7.py.

    Conventions.
    - A header or label is a [string]: a finite sequence of Unicode code
      points ([char]), as a Python [str].  Whitespace is the set of code
      points that [str.isspace], [str.strip] and [str.split] go by, and
      [str.upper] maps one character to one, two or three characters, by
      the case table of CPython 3.11 (Unicode 14.0).  A literal between
      double quotes stands for a string of ASCII characters; any other
      character is written by its code point, [Chr 233].
    - A pandas cell is a [cell]: missing ([NaN]), text or a number.
    - A Python [dict] is an association list in insertion order with
      pairwise distinct keys ([dict_set] keeps the position of a key that
      is already there).
    - The mean of a subject is kept as the exact rational [sum / len].
      Where the program rounds, the value is a Python float: [double]
      rounds a rational to binary64 (to nearest, ties to even), [round] is
      Python's [round] of a float and [np_round] is numpy's, each on the
      value of the float as a rational. *)

From Stdlib Require Import List ZArith NArith QArith Qround Qabs Qpower Lia Bool Arith.
From Stdlib Require Import Sorted Permutation Lqa.
From Stdlib Require Strings.Byte.
Import ListNotations.

(** ** Python strings *)

(** One character: a Unicode code point. *)
Module UChar.

Inductive char : Set := Chr (code : N).

Definition code (c : char) : N := match c with Chr n => n end.

Definition eqb (a b : char) : bool := N.eqb (code a) (code b).

Definition compare (a b : char) : comparison := N.compare (code a) (code b).

(** Reading and printing of the ASCII literals. *)
Definition of_byte (b : Byte.byte) : option char :=
  let n := Byte.to_N b in if (n <? 128)%N then Some (Chr n) else None.

Definition to_byte (c : char) : option Byte.byte :=
  if (code c <? 128)%N then Byte.of_N (code c) else None.

Definition parse (l : list Byte.byte) : option char :=
  match l with [b] => of_byte b | _ => None end.

Definition print (c : char) : option (list Byte.byte) :=
  option_map (fun b => [b]) (to_byte c).

End UChar.
Export UChar.

Declare Scope uchar_scope.
Delimit Scope uchar_scope with chr.
Bind Scope uchar_scope with char.
String Notation char UChar.parse UChar.print : uchar_scope.

(** A string: the sequence of its characters. *)
Module UString.

Inductive string : Set :=
| EmptyString : string
| String (c : char) (s : string).

Fixpoint parse (l : list Byte.byte) : option string :=
  match l with
  | [] => Some EmptyString
  | b :: l' =>
      match UChar.of_byte b, parse l' with
      | Some c, Some s => Some (String c s)
      | _, _ => None
      end
  end.

Fixpoint print (s : string) : option (list Byte.byte) :=
  match s with
  | EmptyString => Some []
  | String c s' =>
      match UChar.to_byte c, print s' with
      | Some b, Some l => Some (b :: l)
      | _, _ => None
      end
  end.

(** [s1 + s2] *)
Fixpoint append (s1 s2 : string) : string :=
  match s1 with
  | EmptyString => s2
  | String c s1' => String c (append s1' s2)
  end.

(** [len(s)] *)
Fixpoint length (s : string) : nat :=
  match s with
  | EmptyString => 0
  | String _ s' => S (length s')
  end.

(** [s[n:]] *)
Fixpoint skip (n : nat) (s : string) : string :=
  match n with
  | O => s
  | S n' =>
      match s with
      | EmptyString => EmptyString
      | String _ s' => skip n' s'
      end
  end.

(** [s[:m]] *)
Fixpoint take (m : nat) (s : string) : string :=
  match m with
  | O => EmptyString
  | S m' =>
      match s with
      | EmptyString => EmptyString
      | String c s' => String c (take m' s')
      end
  end.

(** The [m] characters of [s] from position [n] on, or as many as there
    are: [s[n:n+m]]. *)
Definition substring (n m : nat) (s : string) : string := take m (skip n s).

(** [s1 == s2] *)
Fixpoint eqb (s1 s2 : string) : bool :=
  match s1, s2 with
  | EmptyString, EmptyString => true
  | String c1 s1', String c2 s2' => UChar.eqb c1 c2 && eqb s1' s2'
  | _, _ => false
  end.

(** The order of [str]: lexicographic, by code point. *)
Fixpoint compare (s1 s2 : string) : comparison :=
  match s1, s2 with
  | EmptyString, EmptyString => Eq
  | EmptyString, String _ _ => Lt
  | String _ _, EmptyString => Gt
  | String c1 s1', String c2 s2' =>
      match UChar.compare c1 c2 with
      | Eq => compare s1' s2'
      | ne => ne
      end
  end.

(** [s1 < s2] *)
Definition ltb (s1 s2 : string) : bool :=
  match compare s1 s2 with Lt => true | _ => false end.

(** The string of the given code points. *)
Fixpoint of_codes (l : list N) : string :=
  match l with
  | [] => EmptyString
  | n :: l' => String (Chr n) (of_codes l')
  end.

End UString.
Export UString.

Declare Scope ustring_scope.
Delimit Scope ustring_scope with str.
Bind Scope ustring_scope with string.
String Notation string UString.parse UString.print : ustring_scope.
Infix "++" := append (right associativity, at level 60) : ustring_scope.

Local Open Scope ustring_scope.
Local Open Scope list_scope.
Local Open Scope Z_scope.

(** The characters outside ASCII that [str.upper] changes, each with the
    code points it becomes (CPython 3.11, Unicode 14.0); one character
    becomes up to three. *)
Definition uppercase_table : list (N * list N) :=
  [
    (181, [924]); (223, [83; 83]); (224, [192]); (225, [193]); (226, [194]);
    (227, [195]); (228, [196]); (229, [197]); (230, [198]); (231, [199]);
    (232, [200]); (233, [201]); (234, [202]); (235, [203]); (236, [204]);
    (237, [205]); (238, [206]); (239, [207]); (240, [208]); (241, [209]);
    (242, [210]); (243, [211]); (244, [212]); (245, [213]); (246, [214]);
    (248, [216]); (249, [217]); (250, [218]); (251, [219]); (252, [220]);
    (253, [221]); (254, [222]); (255, [376]); (257, [256]); (259, [258]);
    (261, [260]); (263, [262]); (265, [264]); (267, [266]); (269, [268]);
    (271, [270]); (273, [272]); (275, [274]); (277, [276]); (279, [278]);
    (281, [280]); (283, [282]); (285, [284]); (287, [286]); (289, [288]);
    (291, [290]); (293, [292]); (295, [294]); (297, [296]); (299, [298]);
    (301, [300]); (303, [302]); (305, [73]); (307, [306]); (309, [308]);
    (311, [310]); (314, [313]); (316, [315]); (318, [317]); (320, [319]);
    (322, [321]); (324, [323]); (326, [325]); (328, [327]); (329, [700; 78]);
    (331, [330]); (333, [332]); (335, [334]); (337, [336]); (339, [338]);
    (341, [340]); (343, [342]); (345, [344]); (347, [346]); (349, [348]);
    (351, [350]); (353, [352]); (355, [354]); (357, [356]); (359, [358]);
    (361, [360]); (363, [362]); (365, [364]); (367, [366]); (369, [368]);
    (371, [370]); (373, [372]); (375, [374]); (378, [377]); (380, [379]);
    (382, [381]); (383, [83]); (384, [579]); (387, [386]); (389, [388]);
    (392, [391]); (396, [395]); (402, [401]); (405, [502]); (409, [408]);
    (410, [573]); (414, [544]); (417, [416]); (419, [418]); (421, [420]);
    (424, [423]); (429, [428]); (432, [431]); (436, [435]); (438, [437]);
    (441, [440]); (445, [444]); (447, [503]); (453, [452]); (454, [452]);
    (456, [455]); (457, [455]); (459, [458]); (460, [458]); (462, [461]);
    (464, [463]); (466, [465]); (468, [467]); (470, [469]); (472, [471]);
    (474, [473]); (476, [475]); (477, [398]); (479, [478]); (481, [480]);
    (483, [482]); (485, [484]); (487, [486]); (489, [488]); (491, [490]);
    (493, [492]); (495, [494]); (496, [74; 780]); (498, [497]); (499, [497]);
    (501, [500]); (505, [504]); (507, [506]); (509, [508]); (511, [510]);
    (513, [512]); (515, [514]); (517, [516]); (519, [518]); (521, [520]);
    (523, [522]); (525, [524]); (527, [526]); (529, [528]); (531, [530]);
    (533, [532]); (535, [534]); (537, [536]); (539, [538]); (541, [540]);
    (543, [542]); (547, [546]); (549, [548]); (551, [550]); (553, [552]);
    (555, [554]); (557, [556]); (559, [558]); (561, [560]); (563, [562]);
    (572, [571]); (575, [11390]); (576, [11391]); (578, [577]); (583, [582]);
    (585, [584]); (587, [586]); (589, [588]); (591, [590]); (592, [11375]);
    (593, [11373]); (594, [11376]); (595, [385]); (596, [390]); (598, [393]);
    (599, [394]); (601, [399]); (603, [400]); (604, [42923]); (608, [403]);
    (609, [42924]); (611, [404]); (613, [42893]); (614, [42922]);
    (616, [407]); (617, [406]); (618, [42926]); (619, [11362]);
    (620, [42925]); (623, [412]); (625, [11374]); (626, [413]); (629, [415]);
    (637, [11364]); (640, [422]); (642, [42949]); (643, [425]);
    (647, [42929]); (648, [430]); (649, [580]); (650, [433]); (651, [434]);
    (652, [581]); (658, [439]); (669, [42930]); (670, [42928]); (837, [921]);
    (881, [880]); (883, [882]); (887, [886]); (891, [1021]); (892, [1022]);
    (893, [1023]); (912, [921; 776; 769]); (940, [902]); (941, [904]);
    (942, [905]); (943, [906]); (944, [933; 776; 769]); (945, [913]);
    (946, [914]); (947, [915]); (948, [916]); (949, [917]); (950, [918]);
    (951, [919]); (952, [920]); (953, [921]); (954, [922]); (955, [923]);
    (956, [924]); (957, [925]); (958, [926]); (959, [927]); (960, [928]);
    (961, [929]); (962, [931]); (963, [931]); (964, [932]); (965, [933]);
    (966, [934]); (967, [935]); (968, [936]); (969, [937]); (970, [938]);
    (971, [939]); (972, [908]); (973, [910]); (974, [911]); (976, [914]);
    (977, [920]); (981, [934]); (982, [928]); (983, [975]); (985, [984]);
    (987, [986]); (989, [988]); (991, [990]); (993, [992]); (995, [994]);
    (997, [996]); (999, [998]); (1001, [1000]); (1003, [1002]);
    (1005, [1004]); (1007, [1006]); (1008, [922]); (1009, [929]);
    (1010, [1017]); (1011, [895]); (1013, [917]); (1016, [1015]);
    (1019, [1018]); (1072, [1040]); (1073, [1041]); (1074, [1042]);
    (1075, [1043]); (1076, [1044]); (1077, [1045]); (1078, [1046]);
    (1079, [1047]); (1080, [1048]); (1081, [1049]); (1082, [1050]);
    (1083, [1051]); (1084, [1052]); (1085, [1053]); (1086, [1054]);
    (1087, [1055]); (1088, [1056]); (1089, [1057]); (1090, [1058]);
    (1091, [1059]); (1092, [1060]); (1093, [1061]); (1094, [1062]);
    (1095, [1063]); (1096, [1064]); (1097, [1065]); (1098, [1066]);
    (1099, [1067]); (1100, [1068]); (1101, [1069]); (1102, [1070]);
    (1103, [1071]); (1104, [1024]); (1105, [1025]); (1106, [1026]);
    (1107, [1027]); (1108, [1028]); (1109, [1029]); (1110, [1030]);
    (1111, [1031]); (1112, [1032]); (1113, [1033]); (1114, [1034]);
    (1115, [1035]); (1116, [1036]); (1117, [1037]); (1118, [1038]);
    (1119, [1039]); (1121, [1120]); (1123, [1122]); (1125, [1124]);
    (1127, [1126]); (1129, [1128]); (1131, [1130]); (1133, [1132]);
    (1135, [1134]); (1137, [1136]); (1139, [1138]); (1141, [1140]);
    (1143, [1142]); (1145, [1144]); (1147, [1146]); (1149, [1148]);
    (1151, [1150]); (1153, [1152]); (1163, [1162]); (1165, [1164]);
    (1167, [1166]); (1169, [1168]); (1171, [1170]); (1173, [1172]);
    (1175, [1174]); (1177, [1176]); (1179, [1178]); (1181, [1180]);
    (1183, [1182]); (1185, [1184]); (1187, [1186]); (1189, [1188]);
    (1191, [1190]); (1193, [1192]); (1195, [1194]); (1197, [1196]);
    (1199, [1198]); (1201, [1200]); (1203, [1202]); (1205, [1204]);
    (1207, [1206]); (1209, [1208]); (1211, [1210]); (1213, [1212]);
    (1215, [1214]); (1218, [1217]); (1220, [1219]); (1222, [1221]);
    (1224, [1223]); (1226, [1225]); (1228, [1227]); (1230, [1229]);
    (1231, [1216]); (1233, [1232]); (1235, [1234]); (1237, [1236]);
    (1239, [1238]); (1241, [1240]); (1243, [1242]); (1245, [1244]);
    (1247, [1246]); (1249, [1248]); (1251, [1250]); (1253, [1252]);
    (1255, [1254]); (1257, [1256]); (1259, [1258]); (1261, [1260]);
    (1263, [1262]); (1265, [1264]); (1267, [1266]); (1269, [1268]);
    (1271, [1270]); (1273, [1272]); (1275, [1274]); (1277, [1276]);
    (1279, [1278]); (1281, [1280]); (1283, [1282]); (1285, [1284]);
    (1287, [1286]); (1289, [1288]); (1291, [1290]); (1293, [1292]);
    (1295, [1294]); (1297, [1296]); (1299, [1298]); (1301, [1300]);
    (1303, [1302]); (1305, [1304]); (1307, [1306]); (1309, [1308]);
    (1311, [1310]); (1313, [1312]); (1315, [1314]); (1317, [1316]);
    (1319, [1318]); (1321, [1320]); (1323, [1322]); (1325, [1324]);
    (1327, [1326]); (1377, [1329]); (1378, [1330]); (1379, [1331]);
    (1380, [1332]); (1381, [1333]); (1382, [1334]); (1383, [1335]);
    (1384, [1336]); (1385, [1337]); (1386, [1338]); (1387, [1339]);
    (1388, [1340]); (1389, [1341]); (1390, [1342]); (1391, [1343]);
    (1392, [1344]); (1393, [1345]); (1394, [1346]); (1395, [1347]);
    (1396, [1348]); (1397, [1349]); (1398, [1350]); (1399, [1351]);
    (1400, [1352]); (1401, [1353]); (1402, [1354]); (1403, [1355]);
    (1404, [1356]); (1405, [1357]); (1406, [1358]); (1407, [1359]);
    (1408, [1360]); (1409, [1361]); (1410, [1362]); (1411, [1363]);
    (1412, [1364]); (1413, [1365]); (1414, [1366]); (1415, [1333; 1362]);
    (4304, [7312]); (4305, [7313]); (4306, [7314]); (4307, [7315]);
    (4308, [7316]); (4309, [7317]); (4310, [7318]); (4311, [7319]);
    (4312, [7320]); (4313, [7321]); (4314, [7322]); (4315, [7323]);
    (4316, [7324]); (4317, [7325]); (4318, [7326]); (4319, [7327]);
    (4320, [7328]); (4321, [7329]); (4322, [7330]); (4323, [7331]);
    (4324, [7332]); (4325, [7333]); (4326, [7334]); (4327, [7335]);
    (4328, [7336]); (4329, [7337]); (4330, [7338]); (4331, [7339]);
    (4332, [7340]); (4333, [7341]); (4334, [7342]); (4335, [7343]);
    (4336, [7344]); (4337, [7345]); (4338, [7346]); (4339, [7347]);
    (4340, [7348]); (4341, [7349]); (4342, [7350]); (4343, [7351]);
    (4344, [7352]); (4345, [7353]); (4346, [7354]); (4349, [7357]);
    (4350, [7358]); (4351, [7359]); (5112, [5104]); (5113, [5105]);
    (5114, [5106]); (5115, [5107]); (5116, [5108]); (5117, [5109]);
    (7296, [1042]); (7297, [1044]); (7298, [1054]); (7299, [1057]);
    (7300, [1058]); (7301, [1058]); (7302, [1066]); (7303, [1122]);
    (7304, [42570]); (7545, [42877]); (7549, [11363]); (7566, [42950]);
    (7681, [7680]); (7683, [7682]); (7685, [7684]); (7687, [7686]);
    (7689, [7688]); (7691, [7690]); (7693, [7692]); (7695, [7694]);
    (7697, [7696]); (7699, [7698]); (7701, [7700]); (7703, [7702]);
    (7705, [7704]); (7707, [7706]); (7709, [7708]); (7711, [7710]);
    (7713, [7712]); (7715, [7714]); (7717, [7716]); (7719, [7718]);
    (7721, [7720]); (7723, [7722]); (7725, [7724]); (7727, [7726]);
    (7729, [7728]); (7731, [7730]); (7733, [7732]); (7735, [7734]);
    (7737, [7736]); (7739, [7738]); (7741, [7740]); (7743, [7742]);
    (7745, [7744]); (7747, [7746]); (7749, [7748]); (7751, [7750]);
    (7753, [7752]); (7755, [7754]); (7757, [7756]); (7759, [7758]);
    (7761, [7760]); (7763, [7762]); (7765, [7764]); (7767, [7766]);
    (7769, [7768]); (7771, [7770]); (7773, [7772]); (7775, [7774]);
    (7777, [7776]); (7779, [7778]); (7781, [7780]); (7783, [7782]);
    (7785, [7784]); (7787, [7786]); (7789, [7788]); (7791, [7790]);
    (7793, [7792]); (7795, [7794]); (7797, [7796]); (7799, [7798]);
    (7801, [7800]); (7803, [7802]); (7805, [7804]); (7807, [7806]);
    (7809, [7808]); (7811, [7810]); (7813, [7812]); (7815, [7814]);
    (7817, [7816]); (7819, [7818]); (7821, [7820]); (7823, [7822]);
    (7825, [7824]); (7827, [7826]); (7829, [7828]); (7830, [72; 817]);
    (7831, [84; 776]); (7832, [87; 778]); (7833, [89; 778]);
    (7834, [65; 702]); (7835, [7776]); (7841, [7840]); (7843, [7842]);
    (7845, [7844]); (7847, [7846]); (7849, [7848]); (7851, [7850]);
    (7853, [7852]); (7855, [7854]); (7857, [7856]); (7859, [7858]);
    (7861, [7860]); (7863, [7862]); (7865, [7864]); (7867, [7866]);
    (7869, [7868]); (7871, [7870]); (7873, [7872]); (7875, [7874]);
    (7877, [7876]); (7879, [7878]); (7881, [7880]); (7883, [7882]);
    (7885, [7884]); (7887, [7886]); (7889, [7888]); (7891, [7890]);
    (7893, [7892]); (7895, [7894]); (7897, [7896]); (7899, [7898]);
    (7901, [7900]); (7903, [7902]); (7905, [7904]); (7907, [7906]);
    (7909, [7908]); (7911, [7910]); (7913, [7912]); (7915, [7914]);
    (7917, [7916]); (7919, [7918]); (7921, [7920]); (7923, [7922]);
    (7925, [7924]); (7927, [7926]); (7929, [7928]); (7931, [7930]);
    (7933, [7932]); (7935, [7934]); (7936, [7944]); (7937, [7945]);
    (7938, [7946]); (7939, [7947]); (7940, [7948]); (7941, [7949]);
    (7942, [7950]); (7943, [7951]); (7952, [7960]); (7953, [7961]);
    (7954, [7962]); (7955, [7963]); (7956, [7964]); (7957, [7965]);
    (7968, [7976]); (7969, [7977]); (7970, [7978]); (7971, [7979]);
    (7972, [7980]); (7973, [7981]); (7974, [7982]); (7975, [7983]);
    (7984, [7992]); (7985, [7993]); (7986, [7994]); (7987, [7995]);
    (7988, [7996]); (7989, [7997]); (7990, [7998]); (7991, [7999]);
    (8000, [8008]); (8001, [8009]); (8002, [8010]); (8003, [8011]);
    (8004, [8012]); (8005, [8013]); (8016, [933; 787]); (8017, [8025]);
    (8018, [933; 787; 768]); (8019, [8027]); (8020, [933; 787; 769]);
    (8021, [8029]); (8022, [933; 787; 834]); (8023, [8031]); (8032, [8040]);
    (8033, [8041]); (8034, [8042]); (8035, [8043]); (8036, [8044]);
    (8037, [8045]); (8038, [8046]); (8039, [8047]); (8048, [8122]);
    (8049, [8123]); (8050, [8136]); (8051, [8137]); (8052, [8138]);
    (8053, [8139]); (8054, [8154]); (8055, [8155]); (8056, [8184]);
    (8057, [8185]); (8058, [8170]); (8059, [8171]); (8060, [8186]);
    (8061, [8187]); (8064, [7944; 921]); (8065, [7945; 921]);
    (8066, [7946; 921]); (8067, [7947; 921]); (8068, [7948; 921]);
    (8069, [7949; 921]); (8070, [7950; 921]); (8071, [7951; 921]);
    (8072, [7944; 921]); (8073, [7945; 921]); (8074, [7946; 921]);
    (8075, [7947; 921]); (8076, [7948; 921]); (8077, [7949; 921]);
    (8078, [7950; 921]); (8079, [7951; 921]); (8080, [7976; 921]);
    (8081, [7977; 921]); (8082, [7978; 921]); (8083, [7979; 921]);
    (8084, [7980; 921]); (8085, [7981; 921]); (8086, [7982; 921]);
    (8087, [7983; 921]); (8088, [7976; 921]); (8089, [7977; 921]);
    (8090, [7978; 921]); (8091, [7979; 921]); (8092, [7980; 921]);
    (8093, [7981; 921]); (8094, [7982; 921]); (8095, [7983; 921]);
    (8096, [8040; 921]); (8097, [8041; 921]); (8098, [8042; 921]);
    (8099, [8043; 921]); (8100, [8044; 921]); (8101, [8045; 921]);
    (8102, [8046; 921]); (8103, [8047; 921]); (8104, [8040; 921]);
    (8105, [8041; 921]); (8106, [8042; 921]); (8107, [8043; 921]);
    (8108, [8044; 921]); (8109, [8045; 921]); (8110, [8046; 921]);
    (8111, [8047; 921]); (8112, [8120]); (8113, [8121]); (8114, [8122; 921]);
    (8115, [913; 921]); (8116, [902; 921]); (8118, [913; 834]);
    (8119, [913; 834; 921]); (8124, [913; 921]); (8126, [921]);
    (8130, [8138; 921]); (8131, [919; 921]); (8132, [905; 921]);
    (8134, [919; 834]); (8135, [919; 834; 921]); (8140, [919; 921]);
    (8144, [8152]); (8145, [8153]); (8146, [921; 776; 768]);
    (8147, [921; 776; 769]); (8150, [921; 834]); (8151, [921; 776; 834]);
    (8160, [8168]); (8161, [8169]); (8162, [933; 776; 768]);
    (8163, [933; 776; 769]); (8164, [929; 787]); (8165, [8172]);
    (8166, [933; 834]); (8167, [933; 776; 834]); (8178, [8186; 921]);
    (8179, [937; 921]); (8180, [911; 921]); (8182, [937; 834]);
    (8183, [937; 834; 921]); (8188, [937; 921]); (8526, [8498]);
    (8560, [8544]); (8561, [8545]); (8562, [8546]); (8563, [8547]);
    (8564, [8548]); (8565, [8549]); (8566, [8550]); (8567, [8551]);
    (8568, [8552]); (8569, [8553]); (8570, [8554]); (8571, [8555]);
    (8572, [8556]); (8573, [8557]); (8574, [8558]); (8575, [8559]);
    (8580, [8579]); (9424, [9398]); (9425, [9399]); (9426, [9400]);
    (9427, [9401]); (9428, [9402]); (9429, [9403]); (9430, [9404]);
    (9431, [9405]); (9432, [9406]); (9433, [9407]); (9434, [9408]);
    (9435, [9409]); (9436, [9410]); (9437, [9411]); (9438, [9412]);
    (9439, [9413]); (9440, [9414]); (9441, [9415]); (9442, [9416]);
    (9443, [9417]); (9444, [9418]); (9445, [9419]); (9446, [9420]);
    (9447, [9421]); (9448, [9422]); (9449, [9423]); (11312, [11264]);
    (11313, [11265]); (11314, [11266]); (11315, [11267]); (11316, [11268]);
    (11317, [11269]); (11318, [11270]); (11319, [11271]); (11320, [11272]);
    (11321, [11273]); (11322, [11274]); (11323, [11275]); (11324, [11276]);
    (11325, [11277]); (11326, [11278]); (11327, [11279]); (11328, [11280]);
    (11329, [11281]); (11330, [11282]); (11331, [11283]); (11332, [11284]);
    (11333, [11285]); (11334, [11286]); (11335, [11287]); (11336, [11288]);
    (11337, [11289]); (11338, [11290]); (11339, [11291]); (11340, [11292]);
    (11341, [11293]); (11342, [11294]); (11343, [11295]); (11344, [11296]);
    (11345, [11297]); (11346, [11298]); (11347, [11299]); (11348, [11300]);
    (11349, [11301]); (11350, [11302]); (11351, [11303]); (11352, [11304]);
    (11353, [11305]); (11354, [11306]); (11355, [11307]); (11356, [11308]);
    (11357, [11309]); (11358, [11310]); (11359, [11311]); (11361, [11360]);
    (11365, [570]); (11366, [574]); (11368, [11367]); (11370, [11369]);
    (11372, [11371]); (11379, [11378]); (11382, [11381]); (11393, [11392]);
    (11395, [11394]); (11397, [11396]); (11399, [11398]); (11401, [11400]);
    (11403, [11402]); (11405, [11404]); (11407, [11406]); (11409, [11408]);
    (11411, [11410]); (11413, [11412]); (11415, [11414]); (11417, [11416]);
    (11419, [11418]); (11421, [11420]); (11423, [11422]); (11425, [11424]);
    (11427, [11426]); (11429, [11428]); (11431, [11430]); (11433, [11432]);
    (11435, [11434]); (11437, [11436]); (11439, [11438]); (11441, [11440]);
    (11443, [11442]); (11445, [11444]); (11447, [11446]); (11449, [11448]);
    (11451, [11450]); (11453, [11452]); (11455, [11454]); (11457, [11456]);
    (11459, [11458]); (11461, [11460]); (11463, [11462]); (11465, [11464]);
    (11467, [11466]); (11469, [11468]); (11471, [11470]); (11473, [11472]);
    (11475, [11474]); (11477, [11476]); (11479, [11478]); (11481, [11480]);
    (11483, [11482]); (11485, [11484]); (11487, [11486]); (11489, [11488]);
    (11491, [11490]); (11500, [11499]); (11502, [11501]); (11507, [11506]);
    (11520, [4256]); (11521, [4257]); (11522, [4258]); (11523, [4259]);
    (11524, [4260]); (11525, [4261]); (11526, [4262]); (11527, [4263]);
    (11528, [4264]); (11529, [4265]); (11530, [4266]); (11531, [4267]);
    (11532, [4268]); (11533, [4269]); (11534, [4270]); (11535, [4271]);
    (11536, [4272]); (11537, [4273]); (11538, [4274]); (11539, [4275]);
    (11540, [4276]); (11541, [4277]); (11542, [4278]); (11543, [4279]);
    (11544, [4280]); (11545, [4281]); (11546, [4282]); (11547, [4283]);
    (11548, [4284]); (11549, [4285]); (11550, [4286]); (11551, [4287]);
    (11552, [4288]); (11553, [4289]); (11554, [4290]); (11555, [4291]);
    (11556, [4292]); (11557, [4293]); (11559, [4295]); (11565, [4301]);
    (42561, [42560]); (42563, [42562]); (42565, [42564]); (42567, [42566]);
    (42569, [42568]); (42571, [42570]); (42573, [42572]); (42575, [42574]);
    (42577, [42576]); (42579, [42578]); (42581, [42580]); (42583, [42582]);
    (42585, [42584]); (42587, [42586]); (42589, [42588]); (42591, [42590]);
    (42593, [42592]); (42595, [42594]); (42597, [42596]); (42599, [42598]);
    (42601, [42600]); (42603, [42602]); (42605, [42604]); (42625, [42624]);
    (42627, [42626]); (42629, [42628]); (42631, [42630]); (42633, [42632]);
    (42635, [42634]); (42637, [42636]); (42639, [42638]); (42641, [42640]);
    (42643, [42642]); (42645, [42644]); (42647, [42646]); (42649, [42648]);
    (42651, [42650]); (42787, [42786]); (42789, [42788]); (42791, [42790]);
    (42793, [42792]); (42795, [42794]); (42797, [42796]); (42799, [42798]);
    (42803, [42802]); (42805, [42804]); (42807, [42806]); (42809, [42808]);
    (42811, [42810]); (42813, [42812]); (42815, [42814]); (42817, [42816]);
    (42819, [42818]); (42821, [42820]); (42823, [42822]); (42825, [42824]);
    (42827, [42826]); (42829, [42828]); (42831, [42830]); (42833, [42832]);
    (42835, [42834]); (42837, [42836]); (42839, [42838]); (42841, [42840]);
    (42843, [42842]); (42845, [42844]); (42847, [42846]); (42849, [42848]);
    (42851, [42850]); (42853, [42852]); (42855, [42854]); (42857, [42856]);
    (42859, [42858]); (42861, [42860]); (42863, [42862]); (42874, [42873]);
    (42876, [42875]); (42879, [42878]); (42881, [42880]); (42883, [42882]);
    (42885, [42884]); (42887, [42886]); (42892, [42891]); (42897, [42896]);
    (42899, [42898]); (42900, [42948]); (42903, [42902]); (42905, [42904]);
    (42907, [42906]); (42909, [42908]); (42911, [42910]); (42913, [42912]);
    (42915, [42914]); (42917, [42916]); (42919, [42918]); (42921, [42920]);
    (42933, [42932]); (42935, [42934]); (42937, [42936]); (42939, [42938]);
    (42941, [42940]); (42943, [42942]); (42945, [42944]); (42947, [42946]);
    (42952, [42951]); (42954, [42953]); (42961, [42960]); (42967, [42966]);
    (42969, [42968]); (42998, [42997]); (43859, [42931]); (43888, [5024]);
    (43889, [5025]); (43890, [5026]); (43891, [5027]); (43892, [5028]);
    (43893, [5029]); (43894, [5030]); (43895, [5031]); (43896, [5032]);
    (43897, [5033]); (43898, [5034]); (43899, [5035]); (43900, [5036]);
    (43901, [5037]); (43902, [5038]); (43903, [5039]); (43904, [5040]);
    (43905, [5041]); (43906, [5042]); (43907, [5043]); (43908, [5044]);
    (43909, [5045]); (43910, [5046]); (43911, [5047]); (43912, [5048]);
    (43913, [5049]); (43914, [5050]); (43915, [5051]); (43916, [5052]);
    (43917, [5053]); (43918, [5054]); (43919, [5055]); (43920, [5056]);
    (43921, [5057]); (43922, [5058]); (43923, [5059]); (43924, [5060]);
    (43925, [5061]); (43926, [5062]); (43927, [5063]); (43928, [5064]);
    (43929, [5065]); (43930, [5066]); (43931, [5067]); (43932, [5068]);
    (43933, [5069]); (43934, [5070]); (43935, [5071]); (43936, [5072]);
    (43937, [5073]); (43938, [5074]); (43939, [5075]); (43940, [5076]);
    (43941, [5077]); (43942, [5078]); (43943, [5079]); (43944, [5080]);
    (43945, [5081]); (43946, [5082]); (43947, [5083]); (43948, [5084]);
    (43949, [5085]); (43950, [5086]); (43951, [5087]); (43952, [5088]);
    (43953, [5089]); (43954, [5090]); (43955, [5091]); (43956, [5092]);
    (43957, [5093]); (43958, [5094]); (43959, [5095]); (43960, [5096]);
    (43961, [5097]); (43962, [5098]); (43963, [5099]); (43964, [5100]);
    (43965, [5101]); (43966, [5102]); (43967, [5103]); (64256, [70; 70]);
    (64257, [70; 73]); (64258, [70; 76]); (64259, [70; 70; 73]);
    (64260, [70; 70; 76]); (64261, [83; 84]); (64262, [83; 84]);
    (64275, [1348; 1350]); (64276, [1348; 1333]); (64277, [1348; 1339]);
    (64278, [1358; 1350]); (64279, [1348; 1341]); (65345, [65313]);
    (65346, [65314]); (65347, [65315]); (65348, [65316]); (65349, [65317]);
    (65350, [65318]); (65351, [65319]); (65352, [65320]); (65353, [65321]);
    (65354, [65322]); (65355, [65323]); (65356, [65324]); (65357, [65325]);
    (65358, [65326]); (65359, [65327]); (65360, [65328]); (65361, [65329]);
    (65362, [65330]); (65363, [65331]); (65364, [65332]); (65365, [65333]);
    (65366, [65334]); (65367, [65335]); (65368, [65336]); (65369, [65337]);
    (65370, [65338]); (66600, [66560]); (66601, [66561]); (66602, [66562]);
    (66603, [66563]); (66604, [66564]); (66605, [66565]); (66606, [66566]);
    (66607, [66567]); (66608, [66568]); (66609, [66569]); (66610, [66570]);
    (66611, [66571]); (66612, [66572]); (66613, [66573]); (66614, [66574]);
    (66615, [66575]); (66616, [66576]); (66617, [66577]); (66618, [66578]);
    (66619, [66579]); (66620, [66580]); (66621, [66581]); (66622, [66582]);
    (66623, [66583]); (66624, [66584]); (66625, [66585]); (66626, [66586]);
    (66627, [66587]); (66628, [66588]); (66629, [66589]); (66630, [66590]);
    (66631, [66591]); (66632, [66592]); (66633, [66593]); (66634, [66594]);
    (66635, [66595]); (66636, [66596]); (66637, [66597]); (66638, [66598]);
    (66639, [66599]); (66776, [66736]); (66777, [66737]); (66778, [66738]);
    (66779, [66739]); (66780, [66740]); (66781, [66741]); (66782, [66742]);
    (66783, [66743]); (66784, [66744]); (66785, [66745]); (66786, [66746]);
    (66787, [66747]); (66788, [66748]); (66789, [66749]); (66790, [66750]);
    (66791, [66751]); (66792, [66752]); (66793, [66753]); (66794, [66754]);
    (66795, [66755]); (66796, [66756]); (66797, [66757]); (66798, [66758]);
    (66799, [66759]); (66800, [66760]); (66801, [66761]); (66802, [66762]);
    (66803, [66763]); (66804, [66764]); (66805, [66765]); (66806, [66766]);
    (66807, [66767]); (66808, [66768]); (66809, [66769]); (66810, [66770]);
    (66811, [66771]); (66967, [66928]); (66968, [66929]); (66969, [66930]);
    (66970, [66931]); (66971, [66932]); (66972, [66933]); (66973, [66934]);
    (66974, [66935]); (66975, [66936]); (66976, [66937]); (66977, [66938]);
    (66979, [66940]); (66980, [66941]); (66981, [66942]); (66982, [66943]);
    (66983, [66944]); (66984, [66945]); (66985, [66946]); (66986, [66947]);
    (66987, [66948]); (66988, [66949]); (66989, [66950]); (66990, [66951]);
    (66991, [66952]); (66992, [66953]); (66993, [66954]); (66995, [66956]);
    (66996, [66957]); (66997, [66958]); (66998, [66959]); (66999, [66960]);
    (67000, [66961]); (67001, [66962]); (67003, [66964]); (67004, [66965]);
    (68800, [68736]); (68801, [68737]); (68802, [68738]); (68803, [68739]);
    (68804, [68740]); (68805, [68741]); (68806, [68742]); (68807, [68743]);
    (68808, [68744]); (68809, [68745]); (68810, [68746]); (68811, [68747]);
    (68812, [68748]); (68813, [68749]); (68814, [68750]); (68815, [68751]);
    (68816, [68752]); (68817, [68753]); (68818, [68754]); (68819, [68755]);
    (68820, [68756]); (68821, [68757]); (68822, [68758]); (68823, [68759]);
    (68824, [68760]); (68825, [68761]); (68826, [68762]); (68827, [68763]);
    (68828, [68764]); (68829, [68765]); (68830, [68766]); (68831, [68767]);
    (68832, [68768]); (68833, [68769]); (68834, [68770]); (68835, [68771]);
    (68836, [68772]); (68837, [68773]); (68838, [68774]); (68839, [68775]);
    (68840, [68776]); (68841, [68777]); (68842, [68778]); (68843, [68779]);
    (68844, [68780]); (68845, [68781]); (68846, [68782]); (68847, [68783]);
    (68848, [68784]); (68849, [68785]); (68850, [68786]); (71872, [71840]);
    (71873, [71841]); (71874, [71842]); (71875, [71843]); (71876, [71844]);
    (71877, [71845]); (71878, [71846]); (71879, [71847]); (71880, [71848]);
    (71881, [71849]); (71882, [71850]); (71883, [71851]); (71884, [71852]);
    (71885, [71853]); (71886, [71854]); (71887, [71855]); (71888, [71856]);
    (71889, [71857]); (71890, [71858]); (71891, [71859]); (71892, [71860]);
    (71893, [71861]); (71894, [71862]); (71895, [71863]); (71896, [71864]);
    (71897, [71865]); (71898, [71866]); (71899, [71867]); (71900, [71868]);
    (71901, [71869]); (71902, [71870]); (71903, [71871]); (93792, [93760]);
    (93793, [93761]); (93794, [93762]); (93795, [93763]); (93796, [93764]);
    (93797, [93765]); (93798, [93766]); (93799, [93767]); (93800, [93768]);
    (93801, [93769]); (93802, [93770]); (93803, [93771]); (93804, [93772]);
    (93805, [93773]); (93806, [93774]); (93807, [93775]); (93808, [93776]);
    (93809, [93777]); (93810, [93778]); (93811, [93779]); (93812, [93780]);
    (93813, [93781]); (93814, [93782]); (93815, [93783]); (93816, [93784]);
    (93817, [93785]); (93818, [93786]); (93819, [93787]); (93820, [93788]);
    (93821, [93789]); (93822, [93790]); (93823, [93791]); (125218, [125184]);
    (125219, [125185]); (125220, [125186]); (125221, [125187]);
    (125222, [125188]); (125223, [125189]); (125224, [125190]);
    (125225, [125191]); (125226, [125192]); (125227, [125193]);
    (125228, [125194]); (125229, [125195]); (125230, [125196]);
    (125231, [125197]); (125232, [125198]); (125233, [125199]);
    (125234, [125200]); (125235, [125201]); (125236, [125202]);
    (125237, [125203]); (125238, [125204]); (125239, [125205]);
    (125240, [125206]); (125241, [125207]); (125242, [125208]);
    (125243, [125209]); (125244, [125210]); (125245, [125211]);
    (125246, [125212]); (125247, [125213]); (125248, [125214]);
    (125249, [125215]); (125250, [125216]); (125251, [125217])
  ]%N.

(** ** Python string primitives *)

Module PyStr.

(** [str.isspace] for one character: the code points that Python takes as
    whitespace (9-13, 28-32, U+0085, U+00A0, U+1680, U+2000-U+200A,
    U+2028, U+2029, U+202F, U+205F, U+3000), which are the ones that
    [str.strip] removes and at which [str.split] separates. *)
Definition isspace (c : char) : bool :=
  let n := code c in
  (((9 <=? n) && (n <=? 13)) || ((28 <=? n) && (n <=? 32))
   || (n =? 133) || (n =? 160) || (n =? 5760)
   || ((8192 <=? n) && (n <=? 8202))
   || (n =? 8232) || (n =? 8233) || (n =? 8239) || (n =? 8287)
   || (n =? 12288))%N.

(** The entry of [uppercase_table] for a code point. *)
Fixpoint assoc (n : N) (t : list (N * list N)) : option (list N) :=
  match t with
  | [] => None
  | (k, l) :: t' => if (k =? n)%N then Some l else assoc n t'
  end.

(** [str.upper] for one character outside ASCII. *)
Definition upper_non_ascii (c : char) : string :=
  match assoc (code c) uppercase_table with
  | Some l => of_codes l
  | None => String c EmptyString
  end.

(** [str.upper] for one character: the letters a-z become A-Z, no other
    ASCII character changes, and the other characters go by the table. *)
Definition upper_char (c : char) : string :=
  let n := code c in
  if (n <? 128)%N then
    if ((97 <=? n) && (n <=? 122))%N then String (Chr (n - 32)) EmptyString
    else String c EmptyString
  else upper_non_ascii c.

(** [s.upper()] *)
Fixpoint upper (s : string) : string :=
  match s with
  | EmptyString => EmptyString
  | String c s' => upper_char c ++ upper s'
  end.
(** [s.lstrip()] *)
Fixpoint lstrip (s : string) : string :=
  match s with
  | EmptyString => EmptyString
  | String c s' => if isspace c then lstrip s' else s
  end.

(** [s.rstrip()] *)
Fixpoint rstrip (s : string) : string :=
  match s with
  | EmptyString => EmptyString
  | String c s' =>
      match rstrip s' with
      | EmptyString => if isspace c then EmptyString else String c EmptyString
      | r => String c r
      end
  end.

(** [s.strip()] *)
Definition strip (s : string) : string := rstrip (lstrip s).

(** [s.split()]: the maximal runs of characters that are not whitespace. *)
Fixpoint split (s : string) : list string :=
  match s with
  | EmptyString => []
  | String c s' =>
      if isspace c then split s'
      else match s' with
           | EmptyString => [String c EmptyString]
           | String c' _ =>
               if isspace c' then String c EmptyString :: split s'
               else match split s' with
                    | w :: ws => String c w :: ws
                    | [] => [String c EmptyString]
                    end
           end
  end.

(** [sep.join(ws)] *)
Fixpoint join (sep : string) (ws : list string) : string :=
  match ws with
  | [] => EmptyString
  | [w] => w
  | w :: ws' => w ++ sep ++ join sep ws'
  end.

(** [s.startswith(p)] *)
Fixpoint startswith (p s : string) : bool :=
  match p, s with
  | EmptyString, _ => true
  | String _ _, EmptyString => false
  | String a p', String b s' => UChar.eqb a b && startswith p' s'
  end.

(** [p in s] *)
Fixpoint contains (p s : string) : bool :=
  startswith p s ||
  match s with
  | EmptyString => false
  | String _ s' => contains p s'
  end.

(** [s.find(c)] for a one-character [c]: the first index, or -1. *)
Fixpoint find (c : char) (s : string) : Z :=
  match s with
  | EmptyString => -1
  | String x s' =>
      if UChar.eqb x c then 0
      else let r := find c s' in if r <? 0 then -1 else r + 1
  end.

(** [s[a:b]] for indices [0 <= a <= b]; the only slice of the program is
    taken under the guard [start_idx > 0 and end_idx > start_idx]. *)
Definition slice (s : string) (a b : Z) : string :=
  substring (Z.to_nat a) (Z.to_nat (b - a)) s.

(** Truth value of a string: [bool(s)]. *)
Definition truthy (s : string) : bool :=
  match s with EmptyString => false | _ => true end.

End PyStr.

Arguments PyStr.upper_non_ascii : simpl never.

(** ** Rating scale *)

(** A cell of the uploaded sheet. *)
Inductive cell : Type :=
| NaN : cell
| Str : string -> cell
| Num : Z -> cell.

Definition cell_eqb (a b : cell) : bool :=
  match a, b with
  | NaN, NaN => true
  | Str s, Str t => UString.eqb s t
  | Num x, Num y => Z.eqb x y
  | _, _ => false
  end.

(** [pd.isna] *)
Definition isna (c : cell) : bool :=
  match c with NaN => true | _ => false end.

(** A dictionary with string keys, in insertion order. *)
Definition dict (V : Type) : Type := list (string * V).

Fixpoint dict_get {V : Type} (k : string) (d : dict V) : option V :=
  match d with
  | [] => None
  | (k', v) :: d' => if UString.eqb k' k then Some v else dict_get k d'
  end.

(** [d[k] = v] *)
Fixpoint dict_set {V : Type} (k : string) (v : V) (d : dict V) : dict V :=
  match d with
  | [] => [(k, v)]
  | (k', v') :: d' =>
      if UString.eqb k' k then (k, v) :: d' else (k', v') :: dict_set k v d'
  end.

Definition keys {V : Type} (d : dict V) : list string := map fst d.

(** The literal of [convert_rating_to_score]. *)
Definition rating_to_score : dict Z :=
  [ ("Excellent", 5); ("Very Good", 4); ("Good", 3); ("Fair", 2); ("Poor", 1) ].

(** [convert_rating_to_score] (app6.py): a missing cell gives [None]; any
    other cell is looked up in the literal, whose keys are all text, so a
    cell that is not text finds nothing. *)
Definition convert_rating_to_score (rating : cell) : option Z :=
  if isna rating then None
  else match rating with
       | Str s => dict_get s rating_to_score
       | _ => None
       end.

(** ** Subject key normalizer *)

(** [normalize_subject_name] (app6.py); [None] is a missing name. *)
Definition normalize_subject_name (name : option string) : option string :=
  match name with
  | None => None
  | Some s => Some (PyStr.join " " (PyStr.split (PyStr.upper (PyStr.strip s))))
  end.

(** ** Tables *)

(** One respondent.  [Timestamp] is the value after [pd.to_datetime], in
    nanoseconds since the epoch ([None] is [NaT]); the four categorical
    columns are named as the filters name them; [answers] holds the cells of
    all remaining columns, in column order. *)
Record Row : Type := mkRow {
  Timestamp : option Z;
  Year_Semester : cell;
  Gender : cell;
  Branch : cell;
  Section_Type : cell;
  answers : list cell
}.

(** The sheet: the headers of the remaining columns and the rows.  Headers
    are pairwise distinct as [pd.read_excel] delivers them, so a column is
    addressed by its position. *)
Record DataFrame : Type := mkDF {
  columns : list string;
  rows : list Row
}.

(** The five columns with fixed names, which [Row] holds as fields. *)
Definition fixed_columns : list string :=
  [ "Timestamp"; "Choose your Current/Last Academic Year and Semester";
    "Gender"; "Select Branch/Discipline"; "Section Type" ].

(** [df[column]] for the column at position [i]. *)
Definition column_values (df : DataFrame) (i : nat) : list cell :=
  map (fun r => nth i (answers r) NaN) (rows df).

(** [len(df)] *)
Definition len_df (df : DataFrame) : Z := Z.of_nat (List.length (rows df)).

(** [df.loc[mask]] *)
Definition loc (df : DataFrame) (mask : Row -> bool) : DataFrame :=
  mkDF (columns df) (filter mask (rows df)).

(** ** Aggregation *)

(** [df[column].apply(convert_rating_to_score)] *)
Definition apply_convert (cells : list cell) : list (option Z) :=
  map convert_rating_to_score cells.

(** [scores.dropna().tolist()] *)
Fixpoint dropna (scores : list (option Z)) : list Z :=
  match scores with
  | [] => []
  | Some s :: rest => s :: dropna rest
  | None :: rest => dropna rest
  end.

Definition valid_scores_of (cells : list cell) : list Z :=
  dropna (apply_convert cells).

Definition sum (scores : list Z) : Z := fold_right Z.add 0 scores.

Definition len (scores : list Z) : Z := Z.of_nat (List.length scores).

(** [sum(scores) / len(scores)] *)
Definition average (scores : list Z) : Q :=
  (inject_Z (sum scores) / inject_Z (len scores))%Q.

(** The guards of the column loop of [calculate_average_scores] (app6.py,
    lines 64-69): the subject name under which a header is accumulated, or
    [None] when the header is passed over. *)
Definition subject_of_column (column : string) : option string :=
  if PyStr.contains "Subjects [" column || PyStr.contains "Subject [" column then
    let start_idx := PyStr.find "[" column + 1 in
    let end_idx := PyStr.find "]" column in
    if (start_idx >? 0) && (end_idx >? start_idx) then
      match normalize_subject_name (Some (PyStr.slice column start_idx end_idx)) with
      | Some subject_name =>
          if PyStr.truthy subject_name then Some subject_name else None
      | None => None
      end
    else None
  else None.

(** [if k not in acc: acc[k] = []] then [acc[k].extend(valid)] *)
Definition dict_extend (k : string) (valid : list Z) (acc : dict (list Z))
  : dict (list Z) :=
  match dict_get k acc with
  | Some old => dict_set k (old ++ valid) acc
  | None => dict_set k ([] ++ valid) acc
  end.

(** One turn of the column loop. *)
Definition accumulate (df : DataFrame) (acc : dict (list Z))
  (ic : nat * string) : dict (list Z) :=
  let (i, column) := ic in
  match subject_of_column column with
  | Some subject_name =>
      match valid_scores_of (column_values df i) with
      | [] => acc
      | valid => dict_extend subject_name valid acc
      end
  | None => acc
  end.

Definition enumerate {A : Type} (l : list A) : list (nat * A) :=
  combine (seq 0 (List.length l)) l.

Definition accumulated_scores (df : DataFrame) : dict (list Z) :=
  fold_left (accumulate df) (enumerate (columns df)) [].

(** One turn of the second loop. *)
Definition finish (out : dict Q * dict (list Z)) (item : string * list Z)
  : dict Q * dict (list Z) :=
  let (subject_name, scores) := item in
  match scores with
  | [] => out
  | _ => (dict_set subject_name (average scores) (fst out),
          dict_set subject_name scores (snd out))
  end.

(** [calculate_average_scores]: the pair (average_scores, subject_scores). *)
Definition calculate_average_scores (df : DataFrame)
  : dict Q * dict (list Z) :=
  fold_left finish (accumulated_scores df) ([], []).

(** ** Rounding *)

(** Round half to even, to an integer. *)
Definition round_half_even (q : Q) : Z :=
  let f := Qfloor q in
  match Qcompare (q - inject_Z f) (1 # 2) with
  | Lt => f
  | Gt => f + 1
  | Eq => if Z.even f then f else f + 1
  end.

(** [2^e] *)
Definition pow2 (e : Z) : Q := (2 ^ e)%Q.

(** The exponent of the last binary place of the float nearest to a
    positive [q]: the [e] with [2^52 <= q / 2^e < 2^53], found from the
    binary orders of numerator and denominator, and -1074, the last place
    of the smallest floats, for a [q] below [2^-1022]. *)
Definition ulp_exponent (q : Q) : Z :=
  let s := Z.log2 (Qnum q) - Z.log2 (Zpos (Qden q)) in
  let e := if Qle_bool (pow2 s) q then s - 52 else s - 53 in
  Z.max e (-1074).

(** The Python float (IEEE 754 binary64) that an arithmetic operation
    returns for the exact result [q]: the multiple of [2^e] nearest to [q],
    a tie going to the even multiple.  No value of the program comes near
    [2^1024], where a float overflows; that limit is left out. *)
Definition double (q : Q) : Q :=
  match Qnum q with
  | Z0 => 0%Q
  | Zpos _ =>
      let e := ulp_exponent q in
      (inject_Z (round_half_even (q / pow2 e)) * pow2 e)%Q
  | Zneg _ =>
      let e := ulp_exponent (- q) in
      (- (inject_Z (round_half_even (- q / pow2 e)) * pow2 e))%Q
  end.

(** [round(x, ndigits)] of a float [x]: the decimal with [ndigits] places
    nearest to the exact value of [x], a tie going to the even last digit,
    and of that decimal the nearest float. *)
Definition round (x : Q) (ndigits : nat) : Q :=
  let p := inject_Z (10 ^ Z.of_nat ndigits) in
  double (inject_Z (round_half_even (x * p)) / p).

(** [series.round(decimals)] of pandas, which is [numpy.round]: the float
    [x * 10^decimals], rounded to an integer (a tie to the even one) and
    divided by [10^decimals], each step in float arithmetic. *)
Definition np_round (x : Q) (decimals : nat) : Q :=
  let p := inject_Z (10 ^ Z.of_nat decimals) in
  double (inject_Z (round_half_even (double (x * p))) / p).

(** ** Response table of [main] *)

Inductive error : Type := KeyError | ZeroDivisionError.

Inductive result (A : Type) : Type :=
| Ok : A -> result A
| Raise : error -> result A.
Arguments Ok {A} _.
Arguments Raise {A} _.

Record ScoreRow : Type := mkScoreRow {
  Subject : string;
  Average_Score : Q;
  Number_of_Responses : Z;
  Response_Rate_pct : Q
}.

(** [num_responses / total_responses] *)
Definition response_rate (num_responses total_responses : Z) : Q :=
  (inject_Z num_responses / inject_Z total_responses)%Q.

(** The body of the loop that fills [scores_data].  [avg_score] is the
    float of the mean (the scores are whole numbers, whose sum is exact up
    to 2^53, so the only rounding is that of the division), and the rate is
    a float quotient times 100. *)
Definition score_row (subject_scores : dict (list Z)) (total_responses : Z)
  (item : string * Q) : result ScoreRow :=
  let (subject, avg_score) := item in
  match dict_get subject subject_scores with
  | None => Raise KeyError
  | Some scores =>
      let num_responses := len scores in
      if total_responses =? 0 then Raise ZeroDivisionError
      else Ok (mkScoreRow subject (round (double avg_score) 2) num_responses
                 (round (double (double (response_rate num_responses
                                           total_responses) * 100)) 1))
  end.

Fixpoint collect {A B : Type} (f : A -> result B) (l : list A)
  : result (list B) :=
  match l with
  | [] => Ok []
  | a :: l' =>
      match f a with
      | Raise e => Raise e
      | Ok b => match collect f l' with
                | Raise e => Raise e
                | Ok bs => Ok (b :: bs)
                end
      end
  end.

(** [scores_data] for a filtered table (before [sort_values]). *)
Definition scores_data (filtered_df : DataFrame) : result (list ScoreRow) :=
  let (average_scores, subject_scores) := calculate_average_scores filtered_df in
  let total_responses := len_df filtered_df in
  collect (score_row subject_scores total_responses) average_scores.

(** ** Row filter *)

(** Calendar dates are day numbers, time stamps nanoseconds, both counted
    from 1970-01-01T00:00:00. *)
Definition ns_per_second : Z := 1000000000.
Definition ns_per_day : Z := 86400 * ns_per_second.

(** Day number of the civil date [y]-[m]-[d] (proleptic Gregorian). *)
Definition days_from_civil (y m d : Z) : Z :=
  let y' := if m <=? 2 then y - 1 else y in
  let era := y' / 400 in
  let yoe := y' - era * 400 in
  let mp := if m >? 2 then m - 3 else m + 9 in
  let doy := (153 * mp + 2) / 5 + d - 1 in
  let doe := yoe * 365 + yoe / 4 - yoe / 100 + doy in
  era * 146097 + doe - 719468.

(** The time stamp [y]-[m]-[d]T[hh]:[mm]:[ss] plus [frac] nanoseconds. *)
Definition timestamp_of (y m d hh mm ss frac : Z) : Z :=
  days_from_civil y m d * ns_per_day
  + ((hh * 60 + mm) * 60 + ss) * ns_per_second + frac.

(** [pd.to_datetime(date)]: midnight of that day. *)
Definition to_datetime (date : Z) : Z := date * ns_per_day.

(** [pd.Timedelta(days=n)] and [pd.Timedelta(seconds=n)] *)
Definition Timedelta_days (n : Z) : Z := n * ns_per_day.
Definition Timedelta_seconds (n : Z) : Z := n * ns_per_second.

(** What the widgets hand over: the two dates as picked and one list of
    accepted values per categorical column. *)
Record Criteria : Type := mkCriteria {
  from_date : Z;
  to_date : Z;
  selected_year_semesters : list cell;
  selected_genders : list cell;
  selected_branches : list cell;
  selected_section_types : list cell
}.

(** [from_date = pd.to_datetime(from_date)] *)
Definition from_bound (cr : Criteria) : Z := to_datetime (from_date cr).

(** [to_date = pd.to_datetime(to_date) + pd.Timedelta(days=1)
               - pd.Timedelta(seconds=1)] *)
Definition to_bound (cr : Criteria) : Z :=
  to_datetime (to_date cr) + Timedelta_days 1 - Timedelta_seconds 1.

(** [df['Timestamp'] >= b] and [df['Timestamp'] <= b] on one row; a
    comparison with [NaT] is false. *)
Definition ts_ge (t : option Z) (b : Z) : bool :=
  match t with Some x => b <=? x | None => false end.

Definition ts_le (t : option Z) (b : Z) : bool :=
  match t with Some x => x <=? b | None => false end.

(** [series.isin(values)] on one cell. *)
Definition isin (c : cell) (values : list cell) : bool :=
  existsb (cell_eqb c) values.

(** [series.fillna(v)] on one cell. *)
Definition fillna (v : cell) (c : cell) : cell :=
  if isna c then v else c.

(** The mask of app6.py (and of app.py..app5.py, up to the order of the
    conjuncts). *)
Definition mask (cr : Criteria) (r : Row) : bool :=
  ts_ge (Timestamp r) (from_bound cr) &&
  ts_le (Timestamp r) (to_bound cr) &&
  isin (Year_Semester r) (selected_year_semesters cr) &&
  isin (Gender r) (selected_genders cr) &&
  isin (Branch r) (selected_branches cr) &&
  isin (Section_Type r) (selected_section_types cr).

(** The mask of app7.py: every categorical column goes through
    [fillna("nan")] first. *)
Definition mask_fillna (cr : Criteria) (r : Row) : bool :=
  ts_ge (Timestamp r) (from_bound cr) &&
  ts_le (Timestamp r) (to_bound cr) &&
  isin (fillna (Str "nan") (Year_Semester r)) (selected_year_semesters cr) &&
  isin (fillna (Str "nan") (Gender r)) (selected_genders cr) &&
  isin (fillna (Str "nan") (Branch r)) (selected_branches cr) &&
  isin (fillna (Str "nan") (Section_Type r)) (selected_section_types cr).

(** [filtered_df = df.loc[mask]] *)
Definition filtered_df (df : DataFrame) (cr : Criteria) : DataFrame :=
  loc df (mask cr).

Definition filtered_df_fillna (df : DataFrame) (cr : Criteria) : DataFrame :=
  loc df (mask_fillna cr).

(** pandas holds a time stamp as a signed 64-bit count of nanoseconds, the
    least value standing for [NaT]: [pd.Timestamp.min] and
    [pd.Timestamp.max]. *)
Definition Timestamp_min : Z := - 2 ^ 63 + 1.
Definition Timestamp_max : Z := 2 ^ 63 - 1.

(** A time stamp that pandas can hold; [None] is the OutOfBoundsDatetime or
    OverflowError that [pd.to_datetime] and the arithmetic of time stamps
    raise for any other value. *)
Definition checked (t : Z) : option Z :=
  if (Timestamp_min <=? t) && (t <=? Timestamp_max) then Some t else None.

(** The two conversions of [main] (app6.py, lines 170-171) with their
    exceptions: [pd.to_datetime(from_date)], then [pd.to_datetime(to_date)],
    [+ pd.Timedelta(days=1)] and [- pd.Timedelta(seconds=1)], each of which
    must stay in range.  [from_bound] and [to_bound] are the two results
    when nothing is raised. *)
Definition date_bounds (cr : Criteria) : option (Z * Z) :=
  match checked (to_datetime (from_date cr)) with
  | None => None
  | Some from =>
      match checked (to_datetime (to_date cr)) with
      | None => None
      | Some midnight =>
          match checked (midnight + Timedelta_days 1) with
          | None => None
          | Some next_day =>
              match checked (next_day - Timedelta_seconds 1) with
              | None => None
              | Some to => Some (from, to)
              end
          end
      end
  end.

(** [main] from the conversions of the dates to [filtered_df]: [None] when
    a conversion raises, which ends the run in the handler of [main]. *)
Definition main_filtered_df (df : DataFrame) (cr : Criteria)
  : option DataFrame :=
  match date_bounds cr with
  | Some _ => Some (filtered_df df cr)
  | None => None
  end.

(** The same in app7.py. *)
Definition main_filtered_df_fillna (df : DataFrame) (cr : Criteria)
  : option DataFrame :=
  match date_bounds cr with
  | Some _ => Some (filtered_df_fillna df cr)
  | None => None
  end.

(** ** Score distribution *)

(** One more occurrence of [v] in a table of counts. *)
Fixpoint count_add (v : Z) (d : list (Z * Z)) : list (Z * Z) :=
  match d with
  | [] => [(v, 1)]
  | (k, c) :: d' =>
      if k =? v then (k, c + 1) :: d' else (k, c) :: count_add v d'
  end.

(** [pd.Series(scores).value_counts()]: one entry per distinct value with
    the number of its occurrences.  The entries are listed here by first
    occurrence; the program sorts them by index right away. *)
Definition value_counts (scores : list Z) : list (Z * Z) :=
  fold_left (fun d v => count_add v d) scores [].

(** Sorted insertion by a key, after the entries with an equal key. *)
Fixpoint insert_by {A : Type} (key : A -> Z) (x : A) (l : list A) : list A :=
  match l with
  | [] => [x]
  | y :: l' => if key x <? key y then x :: l else y :: insert_by key x l'
  end.

Definition sort_by {A : Type} (key : A -> Z) (l : list A) : list A :=
  fold_right (insert_by key) [] l.

(** [.sort_index()] *)
Definition sort_index (d : list (Z * Z)) : list (Z * Z) := sort_by fst d.

Record DistRow : Type := mkDistRow {
  Score : Z;
  Count : Z;
  Percentage : Q
}.

(** [dist_df] of [main]: [score_dist], [total], [score_percentages], the
    frame of the three columns and its [sort_values('Score')].  The
    percentages are floats: a count divided by the total, times 100,
    rounded by pandas. *)
Definition dist_df (scores : list Z) : list DistRow :=
  let score_dist := sort_index (value_counts scores) in
  let total := sum (map snd score_dist) in
  let score_percentages :=
    map (fun kc => np_round (double (double (inject_Z (snd kc) / inject_Z total)
                                      * 100)) 1) score_dist in
  sort_by Score
    (map (fun kcp => mkDistRow (fst (fst kcp)) (snd (fst kcp)) (snd kcp))
         (combine score_dist score_percentages)).

(** ** Earlier revisions of the column loop *)

(** [s.endswith(p)] *)
Definition endswith (p s : string) : bool :=
  let n := UString.length s in
  let m := UString.length p in
  (m <=? n)%nat && UString.eqb (substring (n - m) m s) p.

(** [s.split(c)] for a one-character separator [c]; the result is never
    empty. *)
Fixpoint split_on (c : char) (s : string) : list string :=
  match s with
  | EmptyString => [EmptyString]
  | String x s' =>
      if UChar.eqb x c then EmptyString :: split_on c s'
      else match split_on c s' with
           | w :: ws => String x w :: ws
           | [] => [String x EmptyString]
           end
  end.

(** [column.split('[')[1].split(']')[0]] (app.py, app3.py); [None] is the
    IndexError of an index out of range. *)
Definition bracket_name (column : string) : option string :=
  match nth_error (split_on "[" column) 1 with
  | None => None
  | Some part => nth_error (split_on "]" part) 0
  end.

(** [convert_rating_to_score] of app.py..app5.py: the lookup alone, without
    the test for a missing cell; a key that is not text equals no key of
    the literal. *)
Definition convert_rating_to_score_get (rating : cell) : option Z :=
  match rating with
  | Str s => dict_get s rating_to_score
  | _ => None
  end.

(** [normalize_subject_name] of app4.py and app5.py, on a string. *)
Definition normalize_subject_name_str (name : string) : string :=
  PyStr.join " " (PyStr.split (PyStr.upper (PyStr.strip name))).

(** The column loop and the second loop shared by app3.py..app7.py, for a
    given conversion and a given treatment of a header: [None] when the
    header raises, [Some None] when it is passed over, [Some (Some name)]
    when its scores go under [name].  [None] as a result is an exception
    that leaves the function. *)
Section Revisions.

Variable convert : cell -> option Z.
Variable classify : string -> option (option string).

Definition valid_scores_by (cells : list cell) : list Z :=
  dropna (map convert cells).

Definition accumulate_by (df : DataFrame) (acc : option (dict (list Z)))
  (ic : nat * string) : option (dict (list Z)) :=
  match acc with
  | None => None
  | Some acc =>
      match classify (snd ic) with
      | None => None
      | Some None => Some acc
      | Some (Some subject_name) =>
          match valid_scores_by (column_values df (fst ic)) with
          | [] => Some acc
          | valid => Some (dict_extend subject_name valid acc)
          end
      end
  end.

Definition calculate_average_scores_by (df : DataFrame)
  : option (dict Q * dict (list Z)) :=
  match fold_left (accumulate_by df) (enumerate (columns df)) (Some []) with
  | None => None
  | Some accumulated => Some (fold_left finish accumulated ([], []))
  end.

End Revisions.

(** The header tests of app3.py (lines 27-29). *)
Definition classify_app3 (column : string) : option (option string) :=
  if (PyStr.startswith "Subjects [" column || PyStr.startswith "Subject [" column)
     && endswith "]" column
  then match bracket_name column with
       | None => None
       | Some subject_name => Some (Some subject_name)
       end
  else Some None.

(** The header tests of app4.py (lines 37-42). *)
Definition classify_app4 (column : string) : option (option string) :=
  if (PyStr.contains "Subjects [" column || PyStr.contains "Subject [" column)
     && PyStr.contains "]" column
  then
    let start_idx := PyStr.find "[" column + 1 in
    let end_idx := PyStr.find "]" column in
    if (start_idx >? 0) && (end_idx >? start_idx)
    then Some (Some (normalize_subject_name_str (PyStr.slice column start_idx end_idx)))
    else Some None
  else Some None.

(** The header tests of app5.py (lines 53-57). *)
Definition classify_app5 (column : string) : option (option string) :=
  if PyStr.contains "Subjects [" column || PyStr.contains "Subject [" column
  then
    let start_idx := PyStr.find "[" column + 1 in
    let end_idx := PyStr.find "]" column in
    if (start_idx >? 0) && (end_idx >? start_idx)
    then Some (Some (normalize_subject_name_str (PyStr.slice column start_idx end_idx)))
    else Some None
  else Some None.

Definition calculate_average_scores_app3 : DataFrame -> option (dict Q * dict (list Z)) :=
  calculate_average_scores_by convert_rating_to_score_get classify_app3.

Definition calculate_average_scores_app4 : DataFrame -> option (dict Q * dict (list Z)) :=
  calculate_average_scores_by convert_rating_to_score_get classify_app4.

Definition calculate_average_scores_app5 : DataFrame -> option (dict Q * dict (list Z)) :=
  calculate_average_scores_by convert_rating_to_score_get classify_app5.

(** One turn of the single loop of app.py: a later column with the same
    name replaces the scores and the average of an earlier one. *)
Definition step_app (df : DataFrame) (out : option (dict Q * dict (list Z)))
  (ic : nat * string) : option (dict Q * dict (list Z)) :=
  match out with
  | None => None
  | Some (average_scores, subject_scores) =>
      if PyStr.startswith "Subjects [" (snd ic) && endswith "]" (snd ic) then
        match bracket_name (snd ic) with
        | None => None
        | Some subject_name =>
            match valid_scores_by convert_rating_to_score_get
                    (column_values df (fst ic)) with
            | [] => Some (average_scores, subject_scores)
            | valid_scores =>
                Some (dict_set subject_name (average valid_scores) average_scores,
                      dict_set subject_name valid_scores subject_scores)
            end
        end
      else Some (average_scores, subject_scores)
  end.

(** [calculate_average_scores] of app.py. *)
Definition calculate_average_scores_app (df : DataFrame)
  : option (dict Q * dict (list Z)) :=
  fold_left (step_app df) (enumerate (columns df)) (Some ([], [])).

(** ** The options and defaults of the widgets *)

(** [series.dropna()] on the cells of a column. *)
Definition dropna_cells (cells : list cell) : list cell :=
  filter (fun c => negb (isna c)) cells.

(** [series.unique()]: the distinct values, by first occurrence. *)
Fixpoint unique (cells : list cell) : list cell :=
  match cells with
  | [] => []
  | c :: rest => c :: filter (fun x => negb (cell_eqb c x)) (unique rest)
  end.

(** Cells that Python's [<] compares: text with text, numbers with
    numbers. *)
Definition comparable (a b : cell) : bool :=
  match a, b with
  | Str _, Str _ => true
  | Num _, Num _ => true
  | _, _ => false
  end.

(** [a < b] on comparable cells. *)
Definition cell_ltb (a b : cell) : bool :=
  match a, b with
  | Str s, Str t => UString.ltb s t
  | Num x, Num y => x <? y
  | _, _ => false
  end.

Fixpoint insert_cell (x : cell) (l : list cell) : list cell :=
  match l with
  | [] => [x]
  | y :: l' => if cell_ltb y x then y :: insert_cell x l' else x :: l
  end.

(** [sorted(values)]: [None] is the TypeError that a comparison of text
    with a number raises, which any list holding both meets. *)
Definition sorted (values : list cell) : option (list cell) :=
  match values with
  | [] => Some []
  | x :: rest =>
      if forallb (comparable x) rest
      then Some (fold_right insert_cell [] values)
      else None
  end.

(** [get_sorted_unique_values] of app4.py..app6.py, on the cells of the
    column. *)
Definition get_sorted_unique_values (column : list cell) : option (list cell) :=
  let unique_values := unique (dropna_cells column) in
  match unique_values with
  | [] => Some []
  | _ => sorted unique_values
  end.

(** [get_sorted_unique_values] of app7.py, with the option "nan". *)
Definition get_sorted_unique_values_nan (column : list cell) : option (list cell) :=
  let unique_values := unique (dropna_cells column) in
  sorted (unique_values ++ [Str "nan"]).

(** The time stamps of the table that are not [NaT]. *)
Definition valid_timestamps (df : DataFrame) : list Z :=
  flat_map (fun r => match Timestamp r with Some t => [t] | None => [] end)
           (rows df).

(** [series.min()] and [series.max()], which skip [NaT]; [None] is [NaT]. *)
Definition series_min (l : list Z) : option Z :=
  match l with
  | [] => None
  | x :: rest => Some (fold_left Z.min rest x)
  end.

Definition series_max (l : list Z) : option Z :=
  match l with
  | [] => None
  | x :: rest => Some (fold_left Z.max rest x)
  end.

(** [timestamp.date()]: the day number of a time stamp. *)
Definition date_of (t : Z) : Z := t / ns_per_day.

(** [min_date] and [max_date] of [main], the values the two date widgets
    start with. *)
Definition min_date (df : DataFrame) : option Z :=
  option_map date_of (series_min (valid_timestamps df)).

Definition max_date (df : DataFrame) : option Z :=
  option_map date_of (series_max (valid_timestamps df)).

(** ** The sorted response table *)

(** Insertion for [sort_values('Average Score', ascending=False)].  pandas
    does not fix the order of rows with equal averages; this sort keeps
    their order. *)
Fixpoint insert_desc (x : ScoreRow) (l : list ScoreRow) : list ScoreRow :=
  match l with
  | [] => [x]
  | y :: l' =>
      if Qle_bool (Average_Score y) (Average_Score x) then x :: l
      else y :: insert_desc x l'
  end.

Definition sort_values_desc (table : list ScoreRow) : list ScoreRow :=
  fold_right insert_desc [] table.

(** [scores_df] of [main]. *)
Definition scores_df (filtered_df : DataFrame) : result (list ScoreRow) :=
  match scores_data filtered_df with
  | Ok table => Ok (sort_values_desc table)
  | Raise e => Raise e
  end.

(** [dist_df] of the first tab of app7.py, which leaves out the final
    [sort_values('Score')]. *)
Definition dist_df_unsorted (scores : list Z) : list DistRow :=
  let score_dist := sort_index (value_counts scores) in
  let total := sum (map snd score_dist) in
  let score_percentages :=
    map (fun kc => np_round (double (double (inject_Z (snd kc) / inject_Z total)
                                      * 100)) 1) score_dist in
  map (fun kcp => mkDistRow (fst (fst kcp)) (snd (fst kcp)) (snd kcp))
      (combine score_dist score_percentages).

(** ** Vocabulary of the statements *)

(** A string made of whitespace only (the empty string included). *)
Fixpoint blank (s : string) : bool :=
  match s with
  | EmptyString => true
  | String c s' => PyStr.isspace c && blank s'
  end.

(** A string in which the character [c] does not occur. *)
Fixpoint free_of (c : char) (s : string) : bool :=
  match s with
  | EmptyString => true
  | String x s' => negb (UChar.eqb x c) && free_of c s'
  end.

(** A string without whitespace. *)
Fixpoint spaceless (s : string) : bool :=
  match s with
  | EmptyString => true
  | String c s' => negb (PyStr.isspace c) && spaceless s'
  end.

(** A word: not empty and without whitespace. *)
Definition word (s : string) : Prop := s <> EmptyString /\ spaceless s = true.

(** The test of one character that the facts about [str.upper] rest on:
    a whitespace character is its own upper case, the upper case of any
    other character is not empty and holds no whitespace, and upper-casing
    it once more changes nothing. *)
Definition upper_char_ok (c : char) : bool :=
  (if PyStr.isspace c
   then UString.eqb (PyStr.upper_char c) (String c EmptyString)
   else PyStr.truthy (PyStr.upper_char c) && spaceless (PyStr.upper_char c))
  && UString.eqb (PyStr.upper (PyStr.upper_char c)) (PyStr.upper_char c).

(** What one column contributes to the subject [k]: its scores when the
    header is classified under [k], nothing otherwise. *)
Definition contribution (df : DataFrame) (k : string) (ic : nat * string)
  : list Z :=
  match subject_of_column (snd ic) with
  | Some k' =>
      if UString.eqb k' k then valid_scores_of (column_values df (fst ic)) else []
  | None => []
  end.

(** The pool of the specification for the subject [k]: the cells of all
    columns of [k] over all rows, converted, the cells without a score
    dropped, column after column. *)
Definition spec_pooled_scores (df : DataFrame) (k : string) : list Z :=
  flat_map (contribution df k) (enumerate (columns df)).

Definition is_column_of (k : string) (column : string) : bool :=
  match subject_of_column column with
  | Some k' => UString.eqb k' k
  | None => false
  end.

Definition is_rating_column (column : string) : bool :=
  match subject_of_column column with
  | Some _ => true
  | None => false
  end.

(** The number of columns classified under the subject [k]. *)
Definition columns_of_subject (df : DataFrame) (k : string) : Z :=
  Z.of_nat (List.length (filter (is_column_of k) (columns df))).

(** The number of columns classified as rating columns. *)
Definition rating_columns (df : DataFrame) : Z :=
  Z.of_nat (List.length (filter is_rating_column (columns df))).

(** The sum over all subjects of the number of scores kept. *)
Definition total_count (d : dict (list Z)) : Z :=
  sum (map (fun kv => len (snd kv)) d).

(** What the column loop keeps under a key: a list of scores that is not
    empty and holds scores of the scale only. *)
Definition kept (kv : string * list Z) : Prop :=
  snd kv <> [] /\ Forall (fun s => 1 <= s <= 5) (snd kv).

(** The number of occurrences of the score [v] in a list of scores. *)
Definition occurrences (v : Z) (scores : list Z) : Z :=
  Z.of_nat (count_occ Z.eq_dec scores v).

(** The count a table of counts holds for [v]; 0 when [v] has no entry. *)
Fixpoint count_of (v : Z) (d : list (Z * Z)) : Z :=
  match d with
  | [] => 0
  | (k, c) :: d' => if k =? v then c else count_of v d'
  end.

(** Any outcome of sorting a table by descending average, whatever the
    order of rows with equal averages. *)
Definition sorted_desc_of (table sorted_table : list ScoreRow) : Prop :=
  Permutation table sorted_table /\
  StronglySorted (fun a b => (Average_Score b <= Average_Score a)%Q) sorted_table.

(** Order of cells of one kind: [a <= b]. *)
Definition cell_le (a b : cell) : Prop := cell_ltb b a = false.

Definition qsum (l : list Q) : Q := fold_right Qplus 0%Q l.

(** What every revision of [calculate_average_scores] returns: the same
    keys in both mappings, each once, under each key a list that is not
    empty and holds scores of the scale, and its mean, within [1, 5], as
    the average. *)
Definition well_aggregated (out : dict Q * dict (list Z)) : Prop :=
  fst out = map (fun kv => (fst kv, average (snd kv))) (snd out) /\
  keys (fst out) = keys (snd out) /\
  NoDup (keys (snd out)) /\
  Forall kept (snd out) /\
  Forall (fun ka => (1 <= snd ka <= 5)%Q) (fst out).

(** The header tests of app.py (lines 22-23), in the form of the later
    revisions. *)
Definition classify_app (column : string) : option (option string) :=
  if PyStr.startswith "Subjects [" column && endswith "]" column
  then match bracket_name column with
       | None => None
       | Some subject_name => Some (Some subject_name)
       end
  else Some None.

(** What one column contributes to the name [k] in a revision. *)
Definition contribution_by (convert : cell -> option Z)
  (classify : string -> option (option string))
  (df : DataFrame) (k : string) (ic : nat * string) : list Z :=
  match classify (snd ic) with
  | Some (Some name) =>
      if UString.eqb name k
      then valid_scores_by convert (column_values df (fst ic))
      else []
  | _ => []
  end.

(** The scores of the last column, in column order, that contributes to the
    name [k] in app.py. *)
Definition last_scores (df : DataFrame) (k : string) : option (list Z) :=
  fold_left
    (fun cur ic =>
       match contribution_by convert_rating_to_score_get classify_app df k ic with
       | [] => cur
       | valid => Some valid
       end)
    (enumerate (columns df)) None.

(** The scores of all columns, in column order, that contribute to the name
    [k] in a revision that pools. *)
Definition pooled_scores_by (convert : cell -> option Z)
  (classify : string -> option (option string))
  (df : DataFrame) (k : string) : list Z :=
  flat_map (contribution_by convert classify df k) (enumerate (columns df)).

(** * Properties *)

(** ** Characters and whitespace *)

Lemma char_eqb_spec (a b : char) : reflect (a = b) (UChar.eqb a b).
Proof.
  destruct a as [m], b as [n]. unfold UChar.eqb. cbn [code].
  destruct (N.eqb_spec m n) as [->|Hne]; constructor; congruence.
Qed.

Lemma char_eqb_refl (a : char) : UChar.eqb a a = true.
Proof. unfold UChar.eqb. apply N.eqb_refl. Qed.

Lemma char_eqb_sym (a b : char) : UChar.eqb a b = UChar.eqb b a.
Proof. unfold UChar.eqb. apply N.eqb_sym. Qed.

Lemma char_eqb_eq (a b : char) : UChar.eqb a b = true <-> a = b.
Proof. destruct (char_eqb_spec a b); split; congruence. Qed.

Lemma char_eqb_neq (a b : char) : UChar.eqb a b = false <-> a <> b.
Proof. destruct (char_eqb_spec a b); split; congruence. Qed.

Lemma string_eqb_spec (s t : string) : reflect (s = t) (UString.eqb s t).
Proof.
  revert t. induction s as [|c s IH]; intros [|d t]; simpl;
    try (constructor; congruence).
  destruct (char_eqb_spec c d) as [->|Hne]; simpl.
  - destruct (IH t) as [->|Hne]; constructor; congruence.
  - constructor. congruence.
Qed.

Lemma string_eqb_refl (s : string) : UString.eqb s s = true.
Proof. now destruct (string_eqb_spec s s). Qed.

Lemma string_eqb_eq (s t : string) : UString.eqb s t = true <-> s = t.
Proof. destruct (string_eqb_spec s t); split; congruence. Qed.

Lemma string_compare_antisym (s t : string) :
  UString.compare s t = CompOpp (UString.compare t s).
Proof.
  revert t. induction s as [|c s IH]; intros [|d t]; simpl; try reflexivity.
  unfold UChar.compare. rewrite (N.compare_antisym (code c) (code d)).
  destruct (N.compare (code c) (code d)); simpl; [apply IH | reflexivity | reflexivity].
Qed.

Lemma append_assoc (a b c : string) :
  ((a ++ b) ++ c)%str = (a ++ b ++ c)%str.
Proof. induction a as [|x a IH]; simpl; [reflexivity | now rewrite IH]. Qed.

Lemma append_nil_r (a : string) : (a ++ "")%str = a.
Proof. induction a as [|x a IH]; simpl; [reflexivity | now rewrite IH]. Qed.

Lemma spaceless_app (s t : string) :
  spaceless (s ++ t)%str = spaceless s && spaceless t.
Proof.
  induction s as [|c s IH]; simpl; [reflexivity|].
  now rewrite IH, andb_assoc.
Qed.

(** *** Upper-casing one character *)

Lemma assoc_In (n : N) (t : list (N * list N)) (l : list N) :
  PyStr.assoc n t = Some l -> In (n, l) t.
Proof.
  induction t as [|[k l'] t IH]; simpl; [discriminate|].
  destruct (N.eqb_spec k n) as [->|_].
  - intros [= ->]. now left.
  - intros H. right. now apply IH.
Qed.

Lemma upper_char_ok_ascii :
  forallb (fun n => upper_char_ok (Chr n)) (map N.of_nat (seq 0 128)) = true.
Proof. vm_compute. reflexivity. Qed.

Lemma upper_char_ok_table :
  forallb (fun kl => upper_char_ok (Chr (fst kl))) uppercase_table = true.
Proof. vm_compute. reflexivity. Qed.

Lemma upper_cons (c : char) (s : string) :
  PyStr.upper (String c s) = (PyStr.upper_char c ++ PyStr.upper s)%str.
Proof. reflexivity. Qed.

(** Every character passes the test: the ASCII characters and the entries
    of the table by evaluation, and a character outside both is its own
    upper case. *)
Lemma upper_char_ok_all (c : char) : upper_char_ok c = true.
Proof.
  destruct c as [n]. destruct (N.ltb_spec n 128) as [Hlt|Hge].
  - pose proof upper_char_ok_ascii as H. rewrite forallb_forall in H.
    apply H. apply in_map_iff. exists (N.to_nat n).
    split; [apply N2Nat.id | apply in_seq; lia].
  - destruct (PyStr.assoc n uppercase_table) as [l|] eqn:E.
    + pose proof upper_char_ok_table as H. rewrite forallb_forall in H.
      apply (H (n, l)). now apply assoc_In.
    + assert (Eu : PyStr.upper_char (Chr n) = String (Chr n) EmptyString).
      { unfold PyStr.upper_char, PyStr.upper_non_ascii. cbn [code].
        destruct (N.ltb_spec n 128); [lia|]. now rewrite E. }
      unfold upper_char_ok. rewrite Eu, upper_cons, Eu.
      cbn [PyStr.upper append spaceless PyStr.truthy].
      rewrite string_eqb_refl.
      destruct (PyStr.isspace (Chr n)); reflexivity.
Qed.

(** A whitespace character is its own upper case. *)
Lemma upper_char_space (c : char) :
  PyStr.isspace c = true -> PyStr.upper_char c = String c EmptyString.
Proof.
  intros Hc. pose proof (upper_char_ok_all c) as H. unfold upper_char_ok in H.
  rewrite Hc in H. apply andb_true_iff in H as [H _].
  now apply string_eqb_eq.
Qed.

(** The upper case of any other character is not empty and holds no
    whitespace. *)
Lemma upper_char_word (c : char) :
  PyStr.isspace c = false -> word (PyStr.upper_char c).
Proof.
  intros Hc. pose proof (upper_char_ok_all c) as H. unfold upper_char_ok in H.
  rewrite Hc in H. apply andb_true_iff in H as [H _].
  apply andb_true_iff in H as [Ht Hs]. split; [|assumption].
  intros E. rewrite E in Ht. discriminate.
Qed.

(** Upper-casing the upper case of a character changes nothing. *)
Lemma upper_upper_char (c : char) :
  PyStr.upper (PyStr.upper_char c) = PyStr.upper_char c.
Proof.
  pose proof (upper_char_ok_all c) as H. unfold upper_char_ok in H.
  apply andb_true_iff in H as [_ H]. now apply string_eqb_eq.
Qed.

Lemma upper_app (s t : string) :
  PyStr.upper (s ++ t)%str = (PyStr.upper s ++ PyStr.upper t)%str.
Proof.
  induction s as [|c s IH]; [reflexivity|].
  change (String c s ++ t)%str with (String c (s ++ t)%str).
  now rewrite !upper_cons, IH, append_assoc.
Qed.

Lemma upper_idem (s : string) : PyStr.upper (PyStr.upper s) = PyStr.upper s.
Proof.
  induction s as [|c s IH]; [reflexivity|].
  now rewrite upper_cons, upper_app, upper_upper_char, IH.
Qed.

Lemma spaceless_upper (s : string) : spaceless (PyStr.upper s) = spaceless s.
Proof.
  induction s as [|c s IH]; [reflexivity|].
  rewrite upper_cons, spaceless_app, IH. cbn [spaceless].
  destruct (PyStr.isspace c) eqn:Hc.
  - rewrite (upper_char_space c Hc). cbn [spaceless]. now rewrite Hc.
  - destruct (upper_char_word c Hc) as [_ ->]. reflexivity.
Qed.

Lemma upper_not_empty (s : string) :
  s <> EmptyString -> PyStr.upper s <> EmptyString.
Proof.
  destruct s as [|c s]; [congruence|]. intros _. rewrite upper_cons.
  destruct (PyStr.isspace c) eqn:Hc.
  - rewrite (upper_char_space c Hc). discriminate.
  - destruct (upper_char_word c Hc) as [Hne _].
    destruct (PyStr.upper_char c); [congruence | discriminate].
Qed.

Lemma word_upper (w : string) : word w -> word (PyStr.upper w).
Proof.
  intros [Hne Hs]. split.
  - now apply upper_not_empty.
  - now rewrite spaceless_upper.
Qed.


Lemma blank_app (s t : string) :
  blank (s ++ t)%str = blank s && blank t.
Proof.
  induction s as [|c s IH]; simpl; [reflexivity|].
  now rewrite IH, andb_assoc.
Qed.

(** ** [split] *)

Lemma split_blank_l (w s : string) :
  blank w = true -> PyStr.split (w ++ s)%str = PyStr.split s.
Proof.
  induction w as [|c w IH]; simpl; intros H; [reflexivity|].
  apply andb_true_iff in H as [Hc Hw]. rewrite Hc. now apply IH.
Qed.

Lemma split_blank (w : string) : blank w = true -> PyStr.split w = [].
Proof.
  induction w as [|c w IH]; simpl; intros H; [reflexivity|].
  apply andb_true_iff in H as [Hc Hw]. rewrite Hc. now apply IH.
Qed.

(** The unfolding of [split] at a character that is not whitespace. *)
Lemma split_cons_nonspace (c : char) (s : string) :
  PyStr.isspace c = false ->
  PyStr.split (String c s) =
  match s with
  | EmptyString => [String c EmptyString]
  | String c' _ =>
      if PyStr.isspace c' then String c EmptyString :: PyStr.split s
      else match PyStr.split s with
           | w :: ws => String c w :: ws
           | [] => [String c EmptyString]
           end
  end.
Proof. intros H. cbn [PyStr.split]. now rewrite H. Qed.

Lemma split_blank_r (a w : string) :
  blank w = true -> PyStr.split (a ++ w)%str = PyStr.split a.
Proof.
  intros Hw. induction a as [|c a IH].
  - simpl. now apply split_blank.
  - change (String c a ++ w)%str with (String c (a ++ w)%str).
    destruct (PyStr.isspace c) eqn:Hc.
    + cbn [PyStr.split]. now rewrite Hc.
    + rewrite !split_cons_nonspace by assumption.
      destruct a as [|c' a].
      * simpl. destruct w as [|x w]; [reflexivity|].
        simpl in Hw. apply andb_true_iff in Hw as [Hx Hw'].
        rewrite Hx. change (String x w) with (String x EmptyString ++ w)%str.
        rewrite split_blank_l by (simpl; now rewrite Hx).
        now rewrite split_blank.
      * change (String c' a ++ w)%str with (String c' (a ++ w)%str) in *.
        rewrite IH. reflexivity.
Qed.


(** A word in front of a string joins the first word of the string, or
    stands alone when the string starts with whitespace. *)
Lemma split_app_word (w s : string) :
  word w ->
  PyStr.split (w ++ s)%str =
  match s with
  | EmptyString => [w]
  | String c _ =>
      if PyStr.isspace c then w :: PyStr.split s
      else match PyStr.split s with
           | h :: t => (w ++ h)%str :: t
           | [] => [w]
           end
  end.
Proof.
  intros [Hne Hs]. induction w as [|c w IH]; [congruence|].
  simpl in Hs. apply andb_true_iff in Hs as [Hc Hs].
  apply negb_true_iff in Hc.
  change (String c w ++ s)%str with (String c (w ++ s)%str).
  rewrite split_cons_nonspace by assumption.
  destruct w as [|c' w].
  - cbn [append]. destruct s as [|x s]; [reflexivity|].
    destruct (PyStr.isspace x); [reflexivity|].
    now destruct (PyStr.split (String x s)).
  - change (String c' w ++ s)%str with (String c' (w ++ s)%str) in *.
    assert (Hc' : PyStr.isspace c' = false).
    { simpl in Hs. apply andb_true_iff in Hs as [H _]. now apply negb_true_iff. }
    cbv beta iota. rewrite Hc'.
    rewrite IH by (discriminate || assumption).
    destruct s as [|x s]; [reflexivity|].
    destruct (PyStr.isspace x); [reflexivity|].
    now destruct (PyStr.split (String x s)).
Qed.

Lemma split_upper (s : string) :
  PyStr.split (PyStr.upper s) = map PyStr.upper (PyStr.split s).
Proof.
  induction s as [|c s IH]; [reflexivity|].
  rewrite upper_cons.
  destruct (PyStr.isspace c) eqn:Hc.
  - rewrite (upper_char_space c Hc).
    change (String c "" ++ PyStr.upper s)%str with (String c (PyStr.upper s)).
    cbn [PyStr.split]. now rewrite Hc.
  - rewrite (split_app_word _ _ (upper_char_word c Hc)).
    rewrite (split_cons_nonspace c s Hc).
    destruct s as [|c' s].
    + cbn [PyStr.upper map]. now rewrite append_nil_r.
    + rewrite upper_cons in *.
      destruct (PyStr.isspace c') eqn:Hc'.
      * rewrite (upper_char_space c' Hc') in *.
        change (String c' "" ++ PyStr.upper s)%str
          with (String c' (PyStr.upper s)) in *.
        cbv beta iota. rewrite Hc', IH.
        cbn [map PyStr.upper]. now rewrite append_nil_r.
      * destruct (upper_char_word c' Hc') as [Hne Hsp].
        destruct (PyStr.upper_char c') as [|x u]; [congruence|].
        simpl in Hsp. apply andb_true_iff in Hsp as [Hx _].
        apply negb_true_iff in Hx.
        change (String x u ++ PyStr.upper s)%str
          with (String x (u ++ PyStr.upper s)%str) in *.
        cbv beta iota. rewrite Hx, IH.
        destruct (PyStr.split (String c' s)) as [|h t];
          cbn [map PyStr.upper]; now rewrite ?append_nil_r.
Qed.


Lemma split_words (s : string) : Forall word (PyStr.split s).
Proof.
  induction s as [|c s IH]; [constructor|].
  destruct (PyStr.isspace c) eqn:Hc.
  - cbn [PyStr.split]. now rewrite Hc.
  - rewrite split_cons_nonspace by assumption.
    assert (Hone : word (String c EmptyString)).
    { split; [discriminate | simpl; now rewrite Hc]. }
    destruct s as [|c' s]; [now constructor|].
    destruct (PyStr.isspace c'); [now constructor|].
    destruct (PyStr.split (String c' s)) as [|w ws]; [now constructor|].
    inversion IH as [|? ? [Hw1 Hw2] Hws]; subst.
    constructor; [|assumption].
    split; [discriminate | simpl; now rewrite Hc, Hw2].
Qed.

Lemma split_word_sep (w s : string) :
  word w -> PyStr.split (w ++ " " ++ s)%str = w :: PyStr.split s.
Proof.
  intros [Hne Hs]. induction w as [|c w IH]; [congruence|].
  simpl in Hs. apply andb_true_iff in Hs as [Hc Hs].
  apply negb_true_iff in Hc.
  change (String c w ++ ?x)%str with (String c (w ++ x)%str).
  rewrite split_cons_nonspace by assumption.
  destruct w as [|c' w].
  - reflexivity.
  - change (String c' w ++ ?x)%str with (String c' (w ++ x)%str) in *.
    assert (Hc' : PyStr.isspace c' = false).
    { simpl in Hs. apply andb_true_iff in Hs as [H _]. now apply negb_true_iff. }
    cbv beta iota. rewrite Hc'. rewrite IH; [reflexivity | discriminate | assumption].
Qed.

Lemma split_word (w : string) : word w -> PyStr.split w = [w].
Proof.
  intros Hw. pose proof (split_word_sep w EmptyString Hw) as H.
  change (" " ++ "")%str with " " in H.
  rewrite split_blank_r in H by reflexivity. exact H.
Qed.

Lemma split_join (ws : list string) :
  Forall word ws -> PyStr.split (PyStr.join " " ws) = ws.
Proof.
  induction 1 as [|w ws Hw Hws IH]; [reflexivity|].
  destruct ws as [|w' ws'].
  - simpl. now apply split_word.
  - change (PyStr.join " " (w :: w' :: ws'))
      with (w ++ " " ++ PyStr.join " " (w' :: ws'))%str.
    rewrite split_word_sep by assumption. now rewrite IH.
Qed.

(** ** [strip] *)

Lemma lstrip_decompose (s : string) :
  exists w, blank w = true /\ s = (w ++ PyStr.lstrip s)%str.
Proof.
  induction s as [|c s [w [Hw Hs]]].
  - now exists EmptyString.
  - simpl. destruct (PyStr.isspace c) eqn:Hc.
    + exists (String c w). simpl. rewrite Hc, Hw. split; [reflexivity|].
      now rewrite <- Hs.
    + now exists EmptyString.
Qed.

Lemma rstrip_decompose (s : string) :
  exists w, blank w = true /\ s = (PyStr.rstrip s ++ w)%str.
Proof.
  induction s as [|c s [w [Hw Hs]]].
  - now exists EmptyString.
  - simpl. destruct (PyStr.rstrip s) as [|x r] eqn:Hr.
    + simpl in Hs. subst w. destruct (PyStr.isspace c) eqn:Hc.
      * exists (String c s). simpl. now rewrite Hc, Hw.
      * exists s. now split.
    + exists w. split; [assumption|]. simpl. now rewrite Hs at 1.
Qed.

Lemma split_strip (s : string) : PyStr.split (PyStr.strip s) = PyStr.split s.
Proof.
  unfold PyStr.strip.
  destruct (rstrip_decompose (PyStr.lstrip s)) as [w [Hw Hr]].
  destruct (lstrip_decompose s) as [v [Hv Hl]].
  rewrite Hl at 2. rewrite split_blank_l by assumption.
  rewrite Hr at 2. now rewrite split_blank_r.
Qed.

(** ** [normalize_subject_name] *)

(** The key is the upper-cased words of the label, one space apart. *)
Lemma normalize_words (s : string) :
  normalize_subject_name (Some s) =
  Some (PyStr.join " " (map PyStr.upper (PyStr.split s))).
Proof.
  unfold normalize_subject_name.
  now rewrite split_upper, split_strip.
Qed.



(** ** Rating scale *)

(** The five canonical labels with their scores. *)
Lemma convert_rating_to_score_Some (rating : cell) (score : Z) :
  convert_rating_to_score rating = Some score <->
  In (rating, score)
     [ (Str "Excellent", 5); (Str "Very Good", 4); (Str "Good", 3);
       (Str "Fair", 2); (Str "Poor", 1) ].
Proof.
  split.
  - destruct rating as [|s|z]; try discriminate.
    unfold convert_rating_to_score, rating_to_score.
    cbn [isna dict_get].
    repeat match goal with
           | |- context [UString.eqb ?a s] =>
               destruct (string_eqb_spec a s) as [<-|_];
               [intros [= <-]; simpl; tauto|]
           end.
    discriminate.
  - simpl. intros H.
    repeat (destruct H as [[= <- <-]|H]; [reflexivity|]).
    contradiction.
Qed.

Lemma convert_rating_to_score_range (rating : cell) (score : Z) :
  convert_rating_to_score rating = Some score -> 1 <= score <= 5.
Proof.
  intros H. apply convert_rating_to_score_Some in H. simpl in H.
  repeat (destruct H as [[= <- <-]|H]; [lia|]). contradiction.
Qed.

Lemma valid_scores_of_app (a b : list cell) :
  valid_scores_of (a ++ b) = valid_scores_of a ++ valid_scores_of b.
Proof.
  unfold valid_scores_of, apply_convert.
  induction a as [|c a IH]; simpl; [reflexivity|].
  destruct (convert_rating_to_score c); simpl; now rewrite IH.
Qed.

Lemma valid_scores_of_cons (c : cell) (l : list cell) :
  valid_scores_of (c :: l) =
  match convert_rating_to_score c with
  | Some s => s :: valid_scores_of l
  | None => valid_scores_of l
  end.
Proof. reflexivity. Qed.

Lemma valid_scores_of_range (cells : list cell) :
  Forall (fun s => 1 <= s <= 5) (valid_scores_of cells).
Proof.
  induction cells as [|c l IH]; [constructor|].
  rewrite valid_scores_of_cons.
  destruct (convert_rating_to_score c) eqn:E; [|assumption].
  constructor; [now apply (convert_rating_to_score_range c) | assumption].
Qed.

Lemma valid_scores_of_length (cells : list cell) :
  (List.length (valid_scores_of cells) <= List.length cells)%nat.
Proof.
  induction cells as [|c l IH]; [apply Nat.le_refl|].
  rewrite valid_scores_of_cons.
  destruct (convert_rating_to_score c); simpl; lia.
Qed.

(** C8. Exactly the five canonical labels have a score, 5 down to 1; every
    other cell (the empty text, other text, a missing cell, a number) has
    none, and a cell without a score leaves no trace in the scores of its
    column: it is not turned into 0 (every score kept lies in 1..5) and it
    adds nothing to the sum or to the count that a mean divides by. *)
Theorem C8_rating_scale :
  (convert_rating_to_score (Str "Excellent") = Some 5 /\
   convert_rating_to_score (Str "Very Good") = Some 4 /\
   convert_rating_to_score (Str "Good") = Some 3 /\
   convert_rating_to_score (Str "Fair") = Some 2 /\
   convert_rating_to_score (Str "Poor") = Some 1) /\
  (forall rating score,
      convert_rating_to_score rating = Some score <->
      In (rating, score)
         [ (Str "Excellent", 5); (Str "Very Good", 4); (Str "Good", 3);
           (Str "Fair", 2); (Str "Poor", 1) ]) /\
  (convert_rating_to_score NaN = None /\
   convert_rating_to_score (Str "") = None /\
   convert_rating_to_score (Str "N/A") = None /\
   forall z, convert_rating_to_score (Num z) = None) /\
  (forall cells, Forall (fun s => 1 <= s <= 5) (valid_scores_of cells)) /\
  (forall before rating after,
      convert_rating_to_score rating = None ->
      valid_scores_of (before ++ rating :: after)
      = valid_scores_of (before ++ after) /\
      sum (valid_scores_of (before ++ rating :: after))
      = sum (valid_scores_of (before ++ after)) /\
      len (valid_scores_of (before ++ rating :: after))
      = len (valid_scores_of (before ++ after)) /\
      average (valid_scores_of (before ++ rating :: after))
      = average (valid_scores_of (before ++ after))).
Proof.
  split; [repeat split; reflexivity|].
  split; [exact convert_rating_to_score_Some|].
  split; [repeat split; reflexivity|].
  split; [exact valid_scores_of_range|].
  intros before rating after H.
  assert (E : valid_scores_of (before ++ rating :: after)
              = valid_scores_of (before ++ after)).
  { rewrite !valid_scores_of_app, valid_scores_of_cons. now rewrite H. }
  now rewrite E.
Qed.

(** C8 at a column with a missing cell and an unknown label. *)
Lemma C8_witness :
  valid_scores_of ([Str "Good"] ++ Str "N/A" :: [NaN; Str "Poor"])
  = valid_scores_of ([Str "Good"] ++ [NaN; Str "Poor"]).
Proof.
  destruct C8_rating_scale as (_ & _ & _ & _ & H).
  apply (H [Str "Good"] (Str "N/A") [NaN; Str "Poor"]). reflexivity.
Defined.

(** ** Dictionaries *)

Lemma dict_get_set {V : Type} (k k' : string) (v : V) (d : dict V) :
  dict_get k (dict_set k' v d)
  = if UString.eqb k' k then Some v else dict_get k d.
Proof.
  induction d as [|[k0 v0] d IH]; simpl.
  - reflexivity.
  - destruct (string_eqb_spec k0 k') as [->|Hne]; simpl.
    + destruct (UString.eqb k' k); reflexivity.
    + rewrite IH. destruct (string_eqb_spec k0 k) as [->|Hk]; [|reflexivity].
      destruct (string_eqb_spec k' k) as [->|_]; [congruence | reflexivity].
Qed.

Lemma dict_get_None {V : Type} (k : string) (d : dict V) :
  dict_get k d = None <-> ~ In k (keys d).
Proof.
  induction d as [|[k0 v0] d IH]; simpl.
  - tauto.
  - destruct (string_eqb_spec k0 k) as [->|Hne].
    + split; [discriminate | intros H; exfalso; apply H; now left].
    + rewrite IH. tauto.
Qed.

Lemma dict_get_In {V : Type} (k : string) (v : V) (d : dict V) :
  dict_get k d = Some v -> In (k, v) d.
Proof.
  induction d as [|[k0 v0] d IH]; simpl; [discriminate|].
  destruct (string_eqb_spec k0 k) as [->|Hne].
  - intros [= ->]. now left.
  - intros H. right. now apply IH.
Qed.

Lemma In_dict_get {V : Type} (k : string) (v : V) (d : dict V) :
  NoDup (keys d) -> In (k, v) d -> dict_get k d = Some v.
Proof.
  induction d as [|[k0 v0] d IH]; simpl; [contradiction|].
  intros Hnd [[= -> ->]|Hin].
  - now rewrite string_eqb_refl.
  - inversion Hnd as [|? ? Hnotin Hnd']; subst.
    destruct (string_eqb_spec k0 k) as [->|Hne].
    + exfalso. apply Hnotin. change k with (fst (k, v)). now apply in_map.
    + now apply IH.
Qed.

Lemma dict_set_fresh {V : Type} (k : string) (v : V) (d : dict V) :
  ~ In k (keys d) -> dict_set k v d = d ++ [(k, v)].
Proof.
  induction d as [|[k0 v0] d IH]; simpl; intros H; [reflexivity|].
  destruct (string_eqb_spec k0 k) as [->|Hne]; [tauto|].
  rewrite IH; tauto.
Qed.

Lemma keys_dict_set {V : Type} (k : string) (v : V) (d : dict V) (x : string) :
  In x (keys (dict_set k v d)) <-> x = k \/ In x (keys d).
Proof.
  induction d as [|[k0 v0] d IH]; simpl.
  - intuition congruence.
  - destruct (string_eqb_spec k0 k) as [->|Hne]; simpl.
    + intuition congruence.
    + rewrite IH. intuition congruence.
Qed.

Lemma NoDup_keys_dict_set {V : Type} (k : string) (v : V) (d : dict V) :
  NoDup (keys d) -> NoDup (keys (dict_set k v d)).
Proof.
  induction d as [|[k0 v0] d IH]; simpl; intros H.
  - constructor; [tauto | constructor].
  - inversion H as [|? ? Hnotin Hnd]; subst.
    destruct (string_eqb_spec k0 k) as [->|Hne]; simpl.
    + now constructor.
    + constructor; [|now apply IH].
      fold (keys (dict_set k v d)). rewrite keys_dict_set.
      intros [->|Hin]; [congruence | contradiction].
Qed.

Lemma Forall_dict_set {V : Type} (P : string * V -> Prop)
  (k : string) (v : V) (d : dict V) :
  P (k, v) -> Forall P d -> Forall P (dict_set k v d).
Proof.
  intros Hkv. induction 1 as [|[k0 v0] d H0 Hd IH]; simpl.
  - now constructor.
  - destruct (UString.eqb k0 k); constructor; assumption.
Qed.

Lemma dict_get_map {V W : Type} (f : V -> W) (k : string) (d : dict V) :
  dict_get k (map (fun kv => (fst kv, f (snd kv))) d)
  = option_map f (dict_get k d).
Proof.
  induction d as [|[k0 v0] d IH]; simpl; [reflexivity|].
  destruct (UString.eqb k0 k); [reflexivity | assumption].
Qed.

(** ** Sums and counts *)

Lemma sum_app (a b : list Z) : sum (a ++ b) = sum a + sum b.
Proof. unfold sum. induction a as [|x a IH]; simpl; lia. Qed.

Lemma len_app (a b : list Z) : len (a ++ b) = len a + len b.
Proof. unfold len. rewrite length_app. lia. Qed.

Lemma len_nonneg (l : list Z) : 0 <= len l.
Proof. unfold len. lia. Qed.

Lemma len_pos (l : list Z) : l <> [] -> 0 < len l.
Proof. destruct l; [congruence | unfold len; simpl; lia]. Qed.

Lemma sum_bounds (l : list Z) :
  Forall (fun s => 1 <= s <= 5) l -> len l <= sum l <= 5 * len l.
Proof.
  unfold len, sum. induction 1 as [|x l Hx Hl IH].
  - simpl. lia.
  - cbn [List.length fold_right]. rewrite Nat2Z.inj_succ. lia.
Qed.

Lemma average_bounds (l : list Z) :
  l <> [] -> Forall (fun s => 1 <= s <= 5) l ->
  (1 <= average l <= 5)%Q.
Proof.
  intros Hne Hl. pose proof (sum_bounds l Hl) as [Hlo Hhi].
  pose proof (len_pos l Hne) as Hpos.
  assert (HposQ : (0 < inject_Z (len l))%Q).
  { change 0%Q with (inject_Z 0). now rewrite <- Zlt_Qlt. }
  unfold average. split.
  - apply Qle_shift_div_l; [assumption|].
    rewrite Qmult_1_l. now rewrite <- Zle_Qle.
  - apply Qle_shift_div_r; [assumption|].
    change 5%Q with (inject_Z 5). rewrite <- inject_Z_mult.
    now rewrite <- Zle_Qle.
Qed.

(** ** The column loop of [calculate_average_scores] *)

Lemma accumulate_get (df : DataFrame) (k : string)
  (acc : dict (list Z)) (ic : nat * string) :
  dict_get k (accumulate df acc ic) =
  match dict_get k acc, contribution df k ic with
  | None, [] => None
  | None, l => Some l
  | Some old, l => Some (old ++ l)
  end.
Proof.
  destruct ic as [i column]. unfold accumulate, contribution. simpl.
  destruct (subject_of_column column) as [k'|].
  - destruct (valid_scores_of (column_values df i)) as [|z l] eqn:Ev.
    + destruct (UString.eqb k' k), (dict_get k acc);
        rewrite ?app_nil_r; reflexivity.
    + unfold dict_extend.
      destruct (dict_get k' acc) as [old|] eqn:Eold;
        rewrite dict_get_set;
        destruct (string_eqb_spec k' k) as [->|Hne];
        rewrite ?Eold; try reflexivity;
        destruct (dict_get k acc); rewrite ?app_nil_r; reflexivity.
  - destruct (dict_get k acc); rewrite ?app_nil_r; reflexivity.
Qed.

Lemma fold_accumulate_get (df : DataFrame) (k : string)
  (cols : list (nat * string)) :
  forall acc,
    dict_get k (fold_left (accumulate df) cols acc) =
    match dict_get k acc, flat_map (contribution df k) cols with
    | None, [] => None
    | None, l => Some l
    | Some old, l => Some (old ++ l)
    end.
Proof.
  induction cols as [|ic cols IH]; intros acc.
  - simpl. destruct (dict_get k acc); rewrite ?app_nil_r; reflexivity.
  - cbn [fold_left flat_map]. rewrite IH, accumulate_get.
    destruct (dict_get k acc) as [old|];
      destruct (contribution df k ic) as [|z l];
      destruct (flat_map (contribution df k) cols) as [|z' l'];
      cbn [app]; rewrite ?app_nil_r, <- ?app_assoc; reflexivity.
Qed.

(** Under each key the loop holds the pool of the specification, and a key
    whose pool is empty is not there. *)
Lemma accumulated_scores_get (df : DataFrame) (k : string) :
  dict_get k (accumulated_scores df) =
  match spec_pooled_scores df k with
  | [] => None
  | l => Some l
  end.
Proof.
  unfold accumulated_scores, spec_pooled_scores.
  now rewrite fold_accumulate_get.
Qed.

Lemma accumulate_kept (df : DataFrame) (acc : dict (list Z)) (ic : nat * string) :
  NoDup (keys acc) -> Forall kept acc ->
  NoDup (keys (accumulate df acc ic)) /\ Forall kept (accumulate df acc ic).
Proof.
  intros Hnd Hk. destruct ic as [i column]. unfold accumulate.
  destruct (subject_of_column column) as [k'|]; [|now split].
  pose proof (valid_scores_of_range (column_values df i)) as Hr.
  destruct (valid_scores_of (column_values df i)) as [|z l]; [now split|].
  unfold dict_extend.
  destruct (dict_get k' acc) as [old|] eqn:Eold.
  - split; [now apply NoDup_keys_dict_set|].
    apply Forall_dict_set; [|assumption].
    apply dict_get_In in Eold.
    rewrite Forall_forall in Hk. destruct (Hk _ Eold) as [_ Hold].
    split; simpl.
    + destruct old; discriminate.
    + apply Forall_app. now split.
  - split; [now apply NoDup_keys_dict_set|].
    apply Forall_dict_set; [|assumption].
    split; simpl; [discriminate | assumption].
Qed.

Lemma fold_accumulate_kept (df : DataFrame) (cols : list (nat * string)) :
  forall acc,
    NoDup (keys acc) -> Forall kept acc ->
    NoDup (keys (fold_left (accumulate df) cols acc)) /\
    Forall kept (fold_left (accumulate df) cols acc).
Proof.
  induction cols as [|ic cols IH]; intros acc Hnd Hk; [now split|].
  cbn [fold_left]. destruct (accumulate_kept df acc ic Hnd Hk) as [H1 H2].
  now apply IH.
Qed.

Lemma accumulated_scores_kept (df : DataFrame) :
  NoDup (keys (accumulated_scores df)) /\ Forall kept (accumulated_scores df).
Proof. apply fold_accumulate_kept; constructor. Qed.

(** ** The second loop *)

Lemma fold_finish (acc : dict (list Z)) :
  forall (A : dict Q) (S : dict (list Z)),
    NoDup (keys acc) ->
    (forall k, In k (keys acc) -> ~ In k (keys S)) ->
    keys A = keys S ->
    Forall kept acc ->
    fold_left finish acc (A, S)
    = (A ++ map (fun kv => (fst kv, average (snd kv))) acc, S ++ acc).
Proof.
  induction acc as [|[k scores] acc IH]; intros A S Hnd Hdisj Hkeys Hk.
  - simpl. now rewrite !app_nil_r.
  - inversion Hnd as [|? ? Hnotin Hnd']; subst.
    inversion Hk as [|? ? [Hne _] Hk']; subst.
    cbn [fold_left]. unfold finish at 2. cbn [fst snd] in *.
    destruct scores as [|z l]; [congruence|].
    assert (HS : ~ In k (keys S)) by (apply Hdisj; now left).
    assert (HA : ~ In k (keys A)) by now rewrite Hkeys.
    rewrite (dict_set_fresh k _ A HA), (dict_set_fresh k _ S HS).
    rewrite IH; try assumption.
    + cbn [map fst snd]. now rewrite <- !app_assoc.
    + intros x Hx. unfold keys. rewrite map_app, in_app_iff. simpl.
      intros [HxS|[<-|[]]].
      * apply (Hdisj x); [now right | assumption].
      * contradiction.
    + unfold keys. rewrite !map_app. simpl. f_equal. exact Hkeys.
Qed.

(** The result of [calculate_average_scores]: the score lists are those of
    the column loop and each average is taken over the list of its key. *)
Lemma calculate_average_scores_eq (df : DataFrame) :
  calculate_average_scores df
  = (map (fun kv => (fst kv, average (snd kv))) (accumulated_scores df),
     accumulated_scores df).
Proof.
  unfold calculate_average_scores.
  destruct (accumulated_scores_kept df) as [Hnd Hk].
  rewrite fold_finish; try assumption; try reflexivity.
  intros k _ [].
Qed.

(** ** Columns and their positions *)

Lemma in_combine_seq {A : Type} (l : list A) :
  forall (a i : nat) (x : A),
    In (i, x) (combine (seq a (List.length l)) l) ->
    (a <= i)%nat /\ nth_error l (i - a) = Some x.
Proof.
  induction l as [|y l IH]; intros a i x; simpl; [contradiction|].
  intros [[= <- <-]|Hin].
  - rewrite Nat.sub_diag. now split.
  - apply IH in Hin as [Hle Hnth]. split; [lia|].
    replace (i - a)%nat with (S (i - S a)) by lia. exact Hnth.
Qed.

Lemma in_enumerate {A : Type} (l : list A) (i : nat) (x : A) :
  In (i, x) (enumerate l) -> nth_error l i = Some x.
Proof.
  intros H. apply in_combine_seq in H as [_ H].
  now rewrite Nat.sub_0_r in H.
Qed.

Lemma filter_combine_seq {A : Type} (p : A -> bool) (l : list A) :
  forall a,
    map snd (filter (fun ic => p (snd ic)) (combine (seq a (List.length l)) l))
    = filter p l.
Proof.
  induction l as [|y l IH]; intros a; simpl; [reflexivity|].
  destruct (p y); simpl; now rewrite IH.
Qed.

Lemma length_filter_enumerate {A : Type} (p : A -> bool) (l : list A) :
  List.length (filter (fun ic => p (snd ic)) (enumerate l))
  = List.length (filter p l).
Proof.
  unfold enumerate. rewrite <- (filter_combine_seq p l 0).
  now rewrite length_map.
Qed.

Lemma len_valid_scores_of (df : DataFrame) (i : nat) :
  len (valid_scores_of (column_values df i)) <= len_df df.
Proof.
  unfold len, len_df.
  pose proof (valid_scores_of_length (column_values df i)) as H.
  unfold column_values in H at 2. rewrite length_map in H. lia.
Qed.

Lemma valid_scores_of_none (cells : list cell) :
  Forall (fun c => convert_rating_to_score c = None) cells ->
  valid_scores_of cells = [].
Proof.
  induction 1 as [|c l Hc Hl IH]; [reflexivity|].
  now rewrite valid_scores_of_cons, Hc.
Qed.

(** ** Counts against the number of rows *)

Lemma len_contribution (df : DataFrame) (k : string) (ic : nat * string) :
  len (contribution df k ic)
  <= if is_column_of k (snd ic) then len_df df else 0.
Proof.
  unfold contribution, is_column_of.
  destruct (subject_of_column (snd ic)) as [k'|]; [|reflexivity].
  destruct (UString.eqb k' k); [apply len_valid_scores_of | reflexivity].
Qed.

Lemma len_flat_map_contribution (df : DataFrame) (k : string)
  (cols : list (nat * string)) :
  len (flat_map (contribution df k) cols)
  <= len_df df
     * Z.of_nat (List.length (filter (fun ic => is_column_of k (snd ic)) cols)).
Proof.
  induction cols as [|ic cols IH]; simpl.
  - unfold len. simpl. lia.
  - rewrite len_app. pose proof (len_contribution df k ic) as H.
    destruct (is_column_of k (snd ic)); simpl List.length; lia.
Qed.

Lemma len_spec_pooled_scores (df : DataFrame) (k : string) :
  len (spec_pooled_scores df k) <= len_df df * columns_of_subject df k.
Proof.
  unfold spec_pooled_scores, columns_of_subject.
  rewrite <- (length_filter_enumerate (is_column_of k)).
  apply len_flat_map_contribution.
Qed.

Lemma total_count_set_Some (k : string) (old v : list Z) (d : dict (list Z)) :
  dict_get k d = Some old ->
  total_count (dict_set k v d) = total_count d - len old + len v.
Proof.
  unfold total_count, sum.
  induction d as [|[k0 v0] d IH]; simpl; [discriminate|].
  destruct (UString.eqb k0 k).
  - intros [= ->]. simpl. lia.
  - intros H. simpl. rewrite IH by assumption. lia.
Qed.

Lemma total_count_set_None (k : string) (v : list Z) (d : dict (list Z)) :
  dict_get k d = None ->
  total_count (dict_set k v d) = total_count d + len v.
Proof.
  unfold total_count, sum.
  induction d as [|[k0 v0] d IH]; simpl; [lia|].
  destruct (UString.eqb k0 k); [discriminate|].
  intros H. simpl. rewrite IH by assumption. lia.
Qed.

Lemma total_count_accumulate (df : DataFrame) (acc : dict (list Z))
  (ic : nat * string) :
  total_count (accumulate df acc ic)
  <= total_count acc + if is_rating_column (snd ic) then len_df df else 0.
Proof.
  destruct ic as [i column]. unfold accumulate, is_rating_column. simpl.
  destruct (subject_of_column column) as [k'|]; [|lia].
  pose proof (len_valid_scores_of df i) as Hlen.
  pose proof (len_nonneg (valid_scores_of (column_values df i))) as Hpos.
  destruct (valid_scores_of (column_values df i)) as [|z l]; [lia|].
  unfold dict_extend. destruct (dict_get k' acc) as [old|] eqn:Eold.
  - rewrite (total_count_set_Some k' old) by assumption.
    rewrite len_app. lia.
  - rewrite total_count_set_None by assumption. simpl app. lia.
Qed.

Lemma total_count_fold (df : DataFrame) (cols : list (nat * string)) :
  forall acc,
    total_count (fold_left (accumulate df) cols acc)
    <= total_count acc
       + len_df df
         * Z.of_nat (List.length (filter (fun ic => is_rating_column (snd ic)) cols)).
Proof.
  induction cols as [|ic cols IH]; intros acc; simpl; [lia|].
  specialize (IH (accumulate df acc ic)).
  pose proof (total_count_accumulate df acc ic) as H.
  destruct (is_rating_column (snd ic)); simpl List.length; lia.
Qed.

Lemma total_count_accumulated (df : DataFrame) :
  total_count (accumulated_scores df) <= len_df df * rating_columns df.
Proof.
  unfold accumulated_scores, rating_columns.
  rewrite <- (length_filter_enumerate is_rating_column).
  apply (total_count_fold df (enumerate (columns df)) []).
Qed.

(** A subject that is reported has a score, so the table has a row. *)
Lemma reported_has_rows (df : DataFrame) (k : string) (scores : list Z) :
  dict_get k (accumulated_scores df) = Some scores ->
  scores = spec_pooled_scores df k /\ scores <> [] /\ 0 < len_df df.
Proof.
  rewrite accumulated_scores_get. intros H.
  pose proof (len_spec_pooled_scores df k) as Hlen.
  destruct (spec_pooled_scores df k) as [|z l] eqn:E; [discriminate|].
  injection H as <-. split; [reflexivity|]. split; [discriminate|].
  assert (0 < len (z :: l)) by (apply len_pos; discriminate).
  assert (0 <= len_df df) by (unfold len_df; lia).
  assert (0 <= columns_of_subject df k) by (unfold columns_of_subject; lia).
  nia.
Qed.

(** ** The response table *)

Lemma collect_map {A B : Type} (f : A -> result B) (g : A -> B) (l : list A) :
  (forall a, In a l -> f a = Ok (g a)) -> collect f l = Ok (map g l).
Proof.
  induction l as [|a l IH]; intros H; [reflexivity|].
  simpl. rewrite (H a) by now left.
  rewrite IH; [reflexivity|]. intros b Hb. apply H. now right.
Qed.

(** [scores_data] never raises: every subject with an average has its
    score list, and a table with a reported subject has a row. *)
Lemma scores_data_eq (df : DataFrame) :
  scores_data df =
  Ok (map (fun kv =>
             mkScoreRow (fst kv) (round (double (average (snd kv))) 2) (len (snd kv))
               (round (double (double (response_rate (len (snd kv)) (len_df df)) * 100)) 1))
          (accumulated_scores df)).
Proof.
  unfold scores_data. rewrite calculate_average_scores_eq.
  destruct (accumulated_scores_kept df) as [Hnd _].
  rewrite (collect_map _
             (fun ka : string * Q =>
                match dict_get (fst ka) (accumulated_scores df) with
                | Some scores =>
                    mkScoreRow (fst ka) (round (double (snd ka)) 2) (len scores)
                      (round (double (double (response_rate (len scores) (len_df df)) * 100)) 1)
                | None => mkScoreRow (fst ka) 0 0 0
                end)).
  - f_equal. rewrite map_map. apply map_ext_in. intros [k scores] Hin.
    cbn [fst snd]. now rewrite (In_dict_get k scores _ Hnd Hin).
  - intros [k avg] Hin. apply in_map_iff in Hin as [[k' scores] [[= <- <-] Hin]].
    cbn [fst snd]. unfold score_row.
    pose proof (In_dict_get k' scores _ Hnd Hin) as Hget. rewrite Hget.
    destruct (reported_has_rows df k' scores Hget) as (_ & _ & Hpos).
    destruct (Z.eqb_spec (len_df df) 0) as [E|_]; [lia | reflexivity].
Qed.

(** C10. The two mappings of [calculate_average_scores] have the same keys
    (in the same order, and each key once); the average of a key is the sum
    of its score list divided by its length; every score kept is one of
    1..5, no list is empty, and every average lies in [1, 5]. *)
Theorem C10_averages_and_score_lists :
  forall df : DataFrame,
    let average_scores := fst (calculate_average_scores df) in
    let subject_scores := snd (calculate_average_scores df) in
    keys average_scores = keys subject_scores /\
    NoDup (keys subject_scores) /\
    (forall k,
        dict_get k average_scores =
        option_map (fun scores => (inject_Z (sum scores) / inject_Z (len scores))%Q)
                   (dict_get k subject_scores)) /\
    Forall (fun kv => snd kv <> [] /\
                      Forall (fun s => 1 <= s <= 5) (snd kv) /\
                      (1 <= average (snd kv) <= 5)%Q) subject_scores /\
    Forall (fun ka => (1 <= snd ka <= 5)%Q) average_scores.
Proof.
  intros df. rewrite calculate_average_scores_eq. cbn [fst snd].
  destruct (accumulated_scores_kept df) as [Hnd Hk].
  split; [|split; [|split; [|split]]].
  - unfold keys. rewrite map_map. reflexivity.
  - exact Hnd.
  - intros k. apply (dict_get_map average).
  - apply Forall_forall. intros kv Hin.
    rewrite Forall_forall in Hk. destruct (Hk kv Hin) as [Hne Hr].
    repeat split; try assumption; now apply average_bounds.
  - apply Forall_forall. intros ka Hin.
    apply in_map_iff in Hin as [kv [<- Hin]]. cbn [snd].
    rewrite Forall_forall in Hk. destruct (Hk kv Hin) as [Hne Hr].
    now apply average_bounds.
Qed.

Lemma flat_map_nil {A B : Type} (f : A -> list B) (l : list A) :
  (forall x, In x l -> f x = []) -> flat_map f l = [].
Proof.
  induction l as [|x l IH]; intros H; [reflexivity|].
  simpl. rewrite (H x) by now left. apply IH. intros y Hy. apply H. now right.
Qed.

Lemma subject_DBMS : subject_of_column "Subject [DBMS]" = Some "DBMS".
Proof. reflexivity. Qed.

Lemma subject_dbms_spaced : subject_of_column "Subjects [ dbms ]" = Some "DBMS".
Proof. reflexivity. Qed.

Lemma subject_Name : subject_of_column "Name" = None.
Proof. reflexivity. Qed.

(** The columns with fixed names are never taken for rating columns. *)
Lemma fixed_columns_not_rating :
  Forall (fun column => subject_of_column column = None) fixed_columns.
Proof. repeat constructor. Qed.

(** C3. With the headers "Subject [DBMS]", "Subjects [ dbms ]" and "Name",
    the first two columns fall under the one key "DBMS", their scores are
    pooled into one list (first column, then second), and "Name" is no
    rating column: the result has no other key and none of its cells. *)
Theorem C3_grouping_example :
  forall rows : list Row,
    let df := mkDF ["Subject [DBMS]"; "Subjects [ dbms ]"; "Name"] rows in
    let pooled := valid_scores_of (column_values df 0)
                  ++ valid_scores_of (column_values df 1) in
    subject_of_column "Subject [DBMS]" = Some "DBMS" /\
    subject_of_column "Subjects [ dbms ]" = Some "DBMS" /\
    subject_of_column "Name" = None /\
    columns_of_subject df "DBMS" = 2 /\
    rating_columns df = 2 /\
    calculate_average_scores df =
    match pooled with
    | [] => ([], [])
    | _ => ([("DBMS", average pooled)], [("DBMS", pooled)])
    end.
Proof.
  intros rows df pooled.
  split; [reflexivity|]. split; [reflexivity|]. split; [reflexivity|].
  split; [reflexivity|]. split; [reflexivity|].
  rewrite calculate_average_scores_eq.
  assert (E : accumulated_scores df =
              match pooled with [] => [] | _ => [("DBMS", pooled)] end).
  { unfold accumulated_scores, pooled.
    change (enumerate (columns df))
      with [(0%nat, "Subject [DBMS]"); (1%nat, "Subjects [ dbms ]"); (2%nat, "Name")].
    cbn [fold_left]. unfold accumulate.
    rewrite subject_DBMS, subject_dbms_spaced, subject_Name.
    destruct (valid_scores_of (column_values df 0)) as [|a l];
      destruct (valid_scores_of (column_values df 1)) as [|b m];
      rewrite ?app_nil_r; reflexivity. }
  rewrite E. destruct pooled; reflexivity.
Qed.

(** C6. Under every key the aggregation holds exactly the pool of the
    specification (the cells of the subject's columns over all rows,
    converted, those without a score dropped) and reports the mean
    sum / count of that pool; a subject whose pool is empty, in particular
    one whose cells are all missing or unrecognized, has no entry in either
    mapping.  Four rows rated "Excellent", "Good", missing, "Poor" in the
    one column of a subject give the scores 5, 3, 1, the mean 3, the count 3
    and the response rate 3/4 (shown as 75.0 per cent). *)
Theorem C6_aggregation :
  (forall (df : DataFrame) (k : string),
      dict_get k (snd (calculate_average_scores df)) =
      match spec_pooled_scores df k with
      | [] => None
      | pool => Some pool
      end /\
      dict_get k (fst (calculate_average_scores df)) =
      match spec_pooled_scores df k with
      | [] => None
      | pool => Some (inject_Z (sum pool) / inject_Z (len pool))%Q
      end) /\
  (forall (df : DataFrame) (k : string),
      (forall i column,
          nth_error (columns df) i = Some column ->
          subject_of_column column = Some k ->
          Forall (fun c => convert_rating_to_score c = None)
                 (column_values df i)) ->
      ~ In k (keys (fst (calculate_average_scores df))) /\
      ~ In k (keys (snd (calculate_average_scores df)))) /\
  (forall (column k : string) (r1 r2 r3 r4 : Row),
      subject_of_column column = Some k ->
      answers r1 = [Str "Excellent"] -> answers r2 = [Str "Good"] ->
      answers r3 = [NaN] -> answers r4 = [Str "Poor"] ->
      let df := mkDF [column] [r1; r2; r3; r4] in
      let scores := [5; 3; 1] in
      calculate_average_scores df = ([(k, average scores)], [(k, scores)]) /\
      (average scores == 3)%Q /\
      len scores = 3 /\
      (response_rate (len scores) (len_df df) == 75 # 100)%Q /\
      exists row,
        scores_data df = Ok [row] /\ Subject row = k /\
        (Average_Score row == 3)%Q /\ Number_of_Responses row = 3 /\
        (Response_Rate_pct row == 75)%Q).
Proof.
  split; [|split].
  - intros df k. rewrite calculate_average_scores_eq. cbn [fst snd].
    rewrite (dict_get_map average), accumulated_scores_get.
    split; [reflexivity|]. now destruct (spec_pooled_scores df k).
  - intros df k H. rewrite calculate_average_scores_eq. cbn [fst snd].
    assert (Hnone : dict_get k (accumulated_scores df) = None).
    { rewrite accumulated_scores_get.
      replace (spec_pooled_scores df k) with (@nil Z); [reflexivity|].
      symmetry. unfold spec_pooled_scores. apply flat_map_nil.
      intros [i column] Hin. apply in_enumerate in Hin.
      unfold contribution. cbn [fst snd].
      destruct (subject_of_column column) as [k'|] eqn:Es; [|reflexivity].
      destruct (string_eqb_spec k' k) as [->|_]; [|reflexivity].
      apply valid_scores_of_none. now apply (H i column). }
    apply dict_get_None in Hnone. split; [|assumption].
    unfold keys in *. now rewrite map_map.
  - intros column k r1 r2 r3 r4 Hs H1 H2 H3 H4 df scores.
    assert (E : accumulated_scores df = [(k, [5; 3; 1])]).
    { unfold accumulated_scores, df. cbn [columns enumerate List.length seq combine fold_left].
      unfold accumulate. rewrite Hs.
      unfold column_values. cbn [rows map]. rewrite H1, H2, H3, H4.
      reflexivity. }
    split; [|split; [|split; [|split]]].
    + rewrite calculate_average_scores_eq, E. reflexivity.
    + reflexivity.
    + reflexivity.
    + reflexivity.
    + rewrite scores_data_eq, E. eexists. split; [reflexivity|].
      cbn [Subject Average_Score Number_of_Responses Response_Rate_pct fst snd].
      repeat split; reflexivity.
Qed.

(** C6 at four concrete respondents and the header "Subject [DBMS]". *)
Lemma C6_witness :
  calculate_average_scores
    (mkDF ["Subject [DBMS]"]
       [ mkRow (Some 0) (Str "II-I") (Str "Male") (Str "CSE") (Str "A") [Str "Excellent"];
         mkRow (Some 1) (Str "II-I") (Str "Female") (Str "CSE") (Str "A") [Str "Good"];
         mkRow (Some 2) (Str "II-I") (Str "Male") (Str "ECE") (Str "B") [NaN];
         mkRow (Some 3) (Str "II-I") (Str "Female") (Str "ECE") (Str "B") [Str "Poor"] ])
  = ([("DBMS", average [5; 3; 1])], [("DBMS", [5; 3; 1])]).
Proof.
  destruct C6_aggregation as (_ & _ & H).
  apply (H "Subject [DBMS]" "DBMS"); reflexivity.
Defined.

(** C1, as stated, fails when two columns fall under one subject: one
    respondent who rates "Subject [DBMS]" and "Subjects [ dbms ]" gives the
    subject DBMS two scores out of one row, so its response rate is 2, and
    the scores counted over all subjects (2) exceed rows times subjects
    (1 * 1). *)
Lemma C1_counterexample :
  let r := mkRow (Some 0) (Str "II-I") (Str "Male") (Str "CSE") (Str "A")
                 [Str "Good"; Str "Good"] in
  let df := mkDF ["Subject [DBMS]"; "Subjects [ dbms ]"] [r] in
  let subject_scores := snd (calculate_average_scores df) in
  let scores := [3; 3] in
  subject_scores = [("DBMS", scores)] /\
  len_df df = 1 /\
  ~ (response_rate (len scores) (len_df df) <= 1)%Q /\
  ~ (total_count subject_scores
     <= len_df df * Z.of_nat (List.length (keys subject_scores))) /\
  exists row,
    scores_data df = Ok [row] /\ Number_of_Responses row = 2 /\
    (Response_Rate_pct row == 200)%Q.
Proof.
  cbv zeta. split; [reflexivity|]. split; [reflexivity|].
  split; [intros H; vm_compute in H; now apply H|].
  split; [intros H; vm_compute in H; now apply H|].
  eexists. split; [reflexivity|]. split; reflexivity.
Qed.

(** C1, amended.  A subject that is reported has at most one score per row
    and column classified under it: its response rate (scores kept over
    rows of the filtered table, which then has a row) lies between 0 and
    the number of its columns, hence in [0, 1] when it has one column; and
    the scores kept over all subjects never exceed the number of rows times
    the number of rating columns. *)
Theorem C1_response_rate_bounds :
  forall (df : DataFrame) (k : string) (scores : list Z),
    dict_get k (snd (calculate_average_scores df)) = Some scores ->
    0 < len_df df /\
    len scores <= len_df df * columns_of_subject df k /\
    (0 <= response_rate (len scores) (len_df df)
       <= inject_Z (columns_of_subject df k))%Q /\
    (columns_of_subject df k = 1 ->
     (0 <= response_rate (len scores) (len_df df) <= 1)%Q) /\
    total_count (snd (calculate_average_scores df))
    <= len_df df * rating_columns df.
Proof.
  intros df k scores. rewrite calculate_average_scores_eq. cbn [snd].
  intros Hget. destruct (reported_has_rows df k scores Hget) as (-> & Hne & Hpos).
  pose proof (len_spec_pooled_scores df k) as Hlen.
  pose proof (len_nonneg (spec_pooled_scores df k)) as Hnn.
  assert (HposQ : (0 < inject_Z (len_df df))%Q).
  { change 0%Q with (inject_Z 0). now rewrite <- Zlt_Qlt. }
  assert (Hrate : (0 <= response_rate (len (spec_pooled_scores df k)) (len_df df)
                     <= inject_Z (columns_of_subject df k))%Q).
  { unfold response_rate. split.
    - apply Qle_shift_div_l; [assumption|]. rewrite Qmult_0_l.
      change 0%Q with (inject_Z 0). now rewrite <- Zle_Qle.
    - apply Qle_shift_div_r; [assumption|].
      rewrite <- inject_Z_mult, <- Zle_Qle. lia. }
  split; [assumption|]. split; [assumption|]. split; [assumption|].
  split; [|apply total_count_accumulated].
  intros E. now rewrite E in Hrate.
Qed.

(** C1 (amended) at four respondents of whom three rate the one column of
    the subject DBMS. *)
Lemma C1_witness :
  let df :=
    mkDF ["Subject [DBMS]"]
      [ mkRow (Some 0) (Str "II-I") (Str "Male") (Str "CSE") (Str "A") [Str "Excellent"];
        mkRow (Some 1) (Str "II-I") (Str "Female") (Str "CSE") (Str "A") [Str "Good"];
        mkRow (Some 2) (Str "II-I") (Str "Male") (Str "ECE") (Str "B") [NaN];
        mkRow (Some 3) (Str "II-I") (Str "Female") (Str "ECE") (Str "B") [Str "Poor"] ] in
  let scores := [5; 3; 1] in
  dict_get "DBMS" (snd (calculate_average_scores df)) = Some scores /\
  (0 <= response_rate (len scores) (len_df df) <= 1)%Q.
Proof.
  intros df scores. split; [reflexivity|].
  destruct (C1_response_rate_bounds df "DBMS" scores eq_refl)
    as (_ & _ & _ & H & _).
  apply H. reflexivity.
Defined.

(** ** [find], [slice] and the brackets of a header *)

Lemma find_range (c : char) (s : string) : -1 <= PyStr.find c s.
Proof.
  induction s as [|x s IH]; simpl; [lia|].
  destruct (UChar.eqb x c); [lia|].
  destruct (Z.ltb_spec (PyStr.find c s) 0); lia.
Qed.

Lemma find_free (c : char) (s : string) :
  PyStr.find c s = -1 <-> free_of c s = true.
Proof.
  induction s as [|x s IH]; simpl; [tauto|].
  pose proof (find_range c s) as Hr.
  destruct (UChar.eqb x c); simpl.
  - split; [lia | discriminate].
  - rewrite <- IH. destruct (Z.ltb_spec (PyStr.find c s) 0); lia.
Qed.

Lemma free_of_app (c : char) (s t : string) :
  free_of c (s ++ t)%str = free_of c s && free_of c t.
Proof.
  induction s as [|x s IH]; simpl; [reflexivity|].
  now rewrite IH, andb_assoc.
Qed.

Lemma find_app_free (c : char) (pre post : string) :
  free_of c pre = true ->
  PyStr.find c (pre ++ String c post)%str = Z.of_nat (UString.length pre).
Proof.
  induction pre as [|x pre IH]; simpl; intros H.
  - now rewrite char_eqb_refl.
  - apply andb_true_iff in H as [Hx Hpre]. apply negb_true_iff in Hx.
    rewrite Hx, IH by assumption.
    destruct (Z.ltb_spec (Z.of_nat (UString.length pre)) 0); lia.
Qed.

Lemma find_split (c : char) (s : string) :
  0 <= PyStr.find c s ->
  exists pre post,
    s = (pre ++ String c post)%str /\ free_of c pre = true /\
    PyStr.find c s = Z.of_nat (UString.length pre).
Proof.
  induction s as [|x s IH]; simpl; [lia|].
  destruct (char_eqb_spec x c) as [->|Hne].
  - intros _. exists EmptyString, s. now repeat split.
  - destruct (Z.ltb_spec (PyStr.find c s) 0) as [Hlt|Hge]; [lia|].
    intros _. destruct (IH Hge) as (pre & post & -> & Hfree & Hlen).
    exists (String x pre), post. simpl.
    apply char_eqb_neq in Hne. rewrite Hne, Hfree. repeat split. lia.
Qed.

(** An occurrence found before the end of a prefix lies in the prefix. *)
Lemma find_in_prefix (c : char) (p q : string) :
  0 <= PyStr.find c (p ++ q)%str < Z.of_nat (UString.length p) ->
  PyStr.find c p = PyStr.find c (p ++ q)%str.
Proof.
  induction p as [|x p IH]; simpl; [lia|].
  destruct (UChar.eqb x c); [reflexivity|].
  pose proof (find_range c (p ++ q)%str) as Hr.
  destruct (Z.ltb_spec (PyStr.find c (p ++ q)%str) 0) as [Hlt|Hge]; [lia|].
  intros H. rewrite IH by lia.
  destruct (Z.ltb_spec (PyStr.find c (p ++ q)%str) 0); lia.
Qed.

Lemma substring_skip (a s : string) (m : nat) :
  substring (UString.length a) m (a ++ s)%str = substring 0 m s.
Proof.
  unfold substring. f_equal.
  induction a as [|x a IH]; simpl; [reflexivity | exact IH].
Qed.

Lemma substring_take (b s : string) :
  substring 0 (UString.length b) (b ++ s)%str = b.
Proof.
  unfold substring. cbn [skip].
  induction b as [|x b IH]; simpl; [reflexivity | now rewrite IH].
Qed.

Lemma length_append (a b : string) :
  UString.length (a ++ b)%str = (UString.length a + UString.length b)%nat.
Proof. induction a as [|x a IH]; simpl; [reflexivity | now rewrite IH]. Qed.

(** The positions of the brackets and the slice between them, for a header
    cut at its first "[" and its first "]". *)
Lemma brackets_of_decomposition (pre raw post : string) :
  free_of "[" pre = true -> free_of "]" pre = true -> free_of "]" raw = true ->
  let column := (pre ++ "[" ++ raw ++ "]" ++ post)%str in
  PyStr.find "[" column = Z.of_nat (UString.length pre) /\
  PyStr.find "]" column = Z.of_nat (UString.length pre) + 1 + Z.of_nat (UString.length raw) /\
  PyStr.slice column (PyStr.find "[" column + 1) (PyStr.find "]" column) = raw.
Proof.
  intros H1 H2 H3 column.
  assert (E1 : PyStr.find "[" column = Z.of_nat (UString.length pre)).
  { unfold column. now apply find_app_free. }
  assert (E2 : PyStr.find "]" column
               = Z.of_nat (UString.length (pre ++ "[" ++ raw)%str)).
  { unfold column.
    replace (pre ++ "[" ++ raw ++ "]" ++ post)%str
      with ((pre ++ "[" ++ raw) ++ String "]" post)%str
      by (rewrite append_assoc; reflexivity).
    apply find_app_free. rewrite free_of_app, H2. simpl. exact H3. }
  rewrite length_append in E2. simpl UString.length in E2.
  split; [exact E1|]. split; [lia|].
  unfold PyStr.slice. rewrite E1, E2.
  replace (Z.to_nat (Z.of_nat (UString.length pre) + 1))
    with (UString.length (pre ++ "[")%str)
    by (rewrite length_append; simpl; lia).
  replace (Z.to_nat (Z.of_nat (UString.length pre + S (UString.length raw))
                     - (Z.of_nat (UString.length pre) + 1)))
    with (UString.length raw) by lia.
  unfold column.
  replace (pre ++ "[" ++ raw ++ "]" ++ post)%str
    with ((pre ++ "[") ++ raw ++ "]" ++ post)%str
    by (rewrite append_assoc; reflexivity).
  now rewrite substring_skip, substring_take.
Qed.

(** A header whose first "]" comes later than the character after its first
    "[" is cut in one way at these two brackets. *)
Lemma decomposition_of_brackets (column : string) :
  PyStr.find "[" column + 1 > 0 ->
  PyStr.find "]" column > PyStr.find "[" column + 1 ->
  exists pre raw post,
    column = (pre ++ "[" ++ raw ++ "]" ++ post)%str /\
    free_of "[" pre = true /\ free_of "]" pre = true /\
    free_of "]" raw = true /\ raw <> EmptyString.
Proof.
  intros Hs He.
  destruct (find_split "]" column) as (p2 & post & Ec & Hfree2 & Hlen2); [lia|].
  assert (Hin : PyStr.find "[" p2 = PyStr.find "[" column).
  { rewrite Ec. apply find_in_prefix. rewrite <- Ec. lia. }
  destruct (find_split "[" p2) as (pre & raw & Ep & Hfree1 & Hlen1); [lia|].
  exists pre, raw, post.
  rewrite Ep, free_of_app in Hfree2. simpl in Hfree2.
  apply andb_true_iff in Hfree2 as [Hf1 Hf2].
  split; [|split; [assumption|split; [assumption|split; [assumption|]]]].
  - rewrite Ec, Ep, append_assoc. reflexivity.
  - intros ->. rewrite Ep, length_append in Hlen2. simpl in Hlen2. lia.
Qed.

Lemma split_nil_blank (s : string) : PyStr.split s = [] <-> blank s = true.
Proof.
  split; [|apply split_blank].
  induction s as [|c s IH]; [reflexivity|].
  simpl blank. destruct (PyStr.isspace c) eqn:Hc.
  - cbn [PyStr.split]. rewrite Hc. exact IH.
  - rewrite split_cons_nonspace by assumption.
    destruct s as [|c' s]; [discriminate|].
    destruct (PyStr.isspace c'); [discriminate|].
    destruct (PyStr.split (String c' s)); discriminate.
Qed.

Lemma truthy_join (ws : list string) :
  Forall word ws -> PyStr.truthy (PyStr.join " " ws) = negb (match ws with [] => true | _ => false end).
Proof.
  intros H. destruct H as [|w ws [Hne _] _]; [reflexivity|].
  destruct w as [|c w]; [congruence|].
  destruct ws; reflexivity.
Qed.

(** The key of a bracketed text is kept iff the text has a character that
    is not whitespace. *)
Lemma normalized_truthy (raw : string) :
  match normalize_subject_name (Some raw) with
  | Some subject_name => PyStr.truthy subject_name
  | None => false
  end = negb (blank raw).
Proof.
  rewrite normalize_words, truthy_join.
  - destruct (PyStr.split raw) as [|w ws] eqn:E; simpl.
    + apply split_nil_blank in E. now rewrite E.
    + destruct (blank raw) eqn:Hb; [|reflexivity].
      apply split_nil_blank in Hb. congruence.
  - apply Forall_forall. intros w Hw. apply in_map_iff in Hw as [v [<- Hv]].
    apply word_upper. revert v Hv. apply Forall_forall, split_words.
Qed.

(** [subject_of_column] on a header cut at its first "[" and first "]". *)
Lemma subject_of_column_decomposed (pre raw post : string) :
  free_of "[" pre = true -> free_of "]" pre = true -> free_of "]" raw = true ->
  let column := (pre ++ "[" ++ raw ++ "]" ++ post)%str in
  subject_of_column column =
  if (PyStr.contains "Subjects [" column || PyStr.contains "Subject [" column)
     && negb (blank raw)
  then normalize_subject_name (Some raw)
  else None.
Proof.
  intros H1 H2 H3 column.
  destruct (brackets_of_decomposition pre raw post H1 H2 H3) as (E1 & E2 & E3).
  fold column in E1, E2, E3.
  unfold subject_of_column.
  destruct (PyStr.contains "Subjects [" column || PyStr.contains "Subject [" column);
    [|reflexivity].
  cbn [andb]. rewrite E3, E1, E2.
  destruct raw as [|c raw'].
  - simpl UString.length. simpl blank. cbn [negb].
    destruct (Z.gtb_spec (Z.of_nat (UString.length pre) + 1) 0); [|reflexivity].
    destruct (Z.gtb_spec (Z.of_nat (UString.length pre) + 1 + Z.of_nat 0)
                (Z.of_nat (UString.length pre) + 1)); [lia | reflexivity].
  - destruct (Z.gtb_spec (Z.of_nat (UString.length pre) + 1) 0); [|lia].
    destruct (Z.gtb_spec
                (Z.of_nat (UString.length pre) + 1
                 + Z.of_nat (UString.length (String c raw')))
                (Z.of_nat (UString.length pre) + 1));
      [|simpl UString.length in *; lia].
    cbn [andb]. pose proof (normalized_truthy (String c raw')) as Ht.
    destruct (normalize_subject_name (Some (String c raw'))) as [name|] eqn:En.
    + rewrite Ht. now destruct (blank (String c raw')).
    + rewrite <- Ht. reflexivity.
Qed.

(** C2, as stated, fails: a header can contain "Subject [" and a "]" and
    still be passed over, because the bracketed text is empty, or blank
    (a space, or a no-break space, U+00A0), or because the first "]" of the
    header comes before its first "[". *)
Lemma C2_counterexample :
  (PyStr.contains "Subject [" "Subject []" = true /\
   PyStr.contains "]" "Subject []" = true /\
   subject_of_column "Subject []" = None) /\
  (PyStr.contains "Subject [" "Subject [ ]" = true /\
   PyStr.contains "]" "Subject [ ]" = true /\
   subject_of_column "Subject [ ]" = None) /\
  (PyStr.contains "Subject [" ("Subject [" ++ String (Chr 160) "]")%str = true /\
   PyStr.contains "]" ("Subject [" ++ String (Chr 160) "]")%str = true /\
   subject_of_column ("Subject [" ++ String (Chr 160) "]")%str = None) /\
  (PyStr.contains "Subject [" "x] Subject [DBMS]" = true /\
   PyStr.contains "]" "x] Subject [DBMS]" = true /\
   subject_of_column "x] Subject [DBMS]" = None).
Proof. repeat split; reflexivity. Qed.

(** C2, amended.  A header is a rating column iff it contains "Subject ["
    or "Subjects [", its first "]" comes after its first "[", and the text
    strictly between these two brackets has a character that is not
    whitespace.  The label taken from a rating column is exactly that text,
    and the subject is its normalization, whatever bracket-free text
    precedes the "[" and whatever text follows the "]". *)
Theorem C2_rating_column :
  forall column : string,
    (subject_of_column column <> None <->
     (PyStr.contains "Subject [" column = true \/
      PyStr.contains "Subjects [" column = true) /\
     exists pre raw post,
       column = (pre ++ "[" ++ raw ++ "]" ++ post)%str /\
       free_of "[" pre = true /\ free_of "]" pre = true /\
       free_of "]" raw = true /\ blank raw = false) /\
    (forall pre raw post,
        column = (pre ++ "[" ++ raw ++ "]" ++ post)%str ->
        free_of "[" pre = true -> free_of "]" pre = true ->
        free_of "]" raw = true ->
        subject_of_column column <> None ->
        PyStr.slice column (PyStr.find "[" column + 1) (PyStr.find "]" column)
        = raw /\
        subject_of_column column = normalize_subject_name (Some raw)).
Proof.
  intros column. split; [split|].
  - intros Hsome.
    assert (Hguard :
              (PyStr.contains "Subjects [" column || PyStr.contains "Subject [" column) = true /\
              PyStr.find "[" column + 1 > 0 /\
              PyStr.find "]" column > PyStr.find "[" column + 1).
    { unfold subject_of_column in Hsome.
      destruct (PyStr.contains "Subjects [" column || PyStr.contains "Subject [" column);
        [|congruence].
      destruct (Z.gtb_spec (PyStr.find "[" column + 1) 0); [|simpl in Hsome; congruence].
      destruct (Z.gtb_spec (PyStr.find "]" column) (PyStr.find "[" column + 1));
        [|simpl in Hsome; congruence].
      repeat split; lia. }
    destruct Hguard as (Hc & Hs & He).
    destruct (decomposition_of_brackets column Hs He)
      as (pre & raw & post & Ec & H1 & H2 & H3 & _).
    split.
    + apply orb_true_iff in Hc. tauto.
    + exists pre, raw, post. repeat split; try assumption.
      pose proof (subject_of_column_decomposed pre raw post H1 H2 H3) as E.
      cbv zeta in E. rewrite <- Ec in E. rewrite E in Hsome.
      destruct (blank raw); [|reflexivity].
      rewrite andb_false_r in Hsome. congruence.
  - intros [Hc (pre & raw & post & Ec & H1 & H2 & H3 & Hb)].
    pose proof (subject_of_column_decomposed pre raw post H1 H2 H3) as E.
    cbv zeta in E. rewrite <- Ec in E. rewrite E, Hb.
    replace (PyStr.contains "Subjects [" column || PyStr.contains "Subject [" column)
      with true by (symmetry; apply orb_true_iff; tauto).
    simpl. discriminate.
  - intros pre raw post Ec H1 H2 H3 Hsome.
    destruct (brackets_of_decomposition pre raw post H1 H2 H3) as (_ & _ & E3).
    rewrite <- Ec in E3. split; [exact E3|].
    pose proof (subject_of_column_decomposed pre raw post H1 H2 H3) as E.
    cbv zeta in E. rewrite <- Ec in E. rewrite E in Hsome |- *.
    destruct ((PyStr.contains "Subjects [" column || PyStr.contains "Subject [" column)
              && negb (blank raw)); [reflexivity | congruence].
Qed.

(** C2 (amended) at a header with text before and after the brackets. *)
Lemma C2_witness :
  PyStr.slice "Rate the Subjects [ os lab ] please"
    (PyStr.find "[" "Rate the Subjects [ os lab ] please" + 1)
    (PyStr.find "]" "Rate the Subjects [ os lab ] please")
  = " os lab " /\
  subject_of_column "Rate the Subjects [ os lab ] please"
  = normalize_subject_name (Some " os lab ").
Proof.
  destruct (C2_rating_column "Rate the Subjects [ os lab ] please") as [_ H].
  apply (H "Rate the Subjects " " os lab " " please").
  - reflexivity.
  - reflexivity.
  - reflexivity.
  - reflexivity.
  - vm_compute. discriminate.
Defined.

(** ** Row filter *)

Lemma cell_eqb_eq (a b : cell) : cell_eqb a b = true <-> a = b.
Proof.
  destruct a as [|s|x], b as [|t|y]; simpl;
    try (split; [discriminate | congruence]).
  - tauto.
  - rewrite string_eqb_eq. split; congruence.
  - rewrite Z.eqb_eq. split; congruence.
Qed.

Lemma isin_In (c : cell) (values : list cell) :
  isin c values = true <-> In c values.
Proof.
  unfold isin. rewrite existsb_exists. split.
  - intros [x [Hin Heq]]. apply cell_eqb_eq in Heq. now subst.
  - intros Hin. exists c. split; [assumption | now apply cell_eqb_eq].
Qed.

Lemma ts_in_range (t : option Z) (lo hi : Z) :
  ts_ge t lo && ts_le t hi = true <->
  exists x, t = Some x /\ lo <= x <= hi.
Proof.
  destruct t as [x|]; simpl.
  - rewrite andb_true_iff, !Z.leb_le. split.
    + intros H. exists x. now split.
    + intros [y [[= <-] H]]. exact H.
  - split; [discriminate | intros [x [H _]]; discriminate].
Qed.

(** The rows that pass the mask of app6.py. *)
Lemma mask_true_iff (cr : Criteria) (r : Row) :
  mask cr r = true <->
  (exists t, Timestamp r = Some t /\ from_bound cr <= t <= to_bound cr) /\
  In (Year_Semester r) (selected_year_semesters cr) /\
  In (Gender r) (selected_genders cr) /\
  In (Branch r) (selected_branches cr) /\
  In (Section_Type r) (selected_section_types cr).
Proof.
  unfold mask. rewrite !andb_true_iff, <- !isin_In.
  rewrite <- ts_in_range, andb_true_iff. tauto.
Qed.

(** The rows that pass the mask of app7.py. *)
Lemma mask_fillna_true_iff (cr : Criteria) (r : Row) :
  mask_fillna cr r = true <->
  (exists t, Timestamp r = Some t /\ from_bound cr <= t <= to_bound cr) /\
  In (fillna (Str "nan") (Year_Semester r)) (selected_year_semesters cr) /\
  In (fillna (Str "nan") (Gender r)) (selected_genders cr) /\
  In (fillna (Str "nan") (Branch r)) (selected_branches cr) /\
  In (fillna (Str "nan") (Section_Type r)) (selected_section_types cr).
Proof.
  unfold mask_fillna. rewrite !andb_true_iff, <- !isin_In.
  rewrite <- ts_in_range, andb_true_iff. tauto.
Qed.

(** The filtered table keeps the headers and holds, in their original
    order, exactly the rows that pass the mask. *)
Lemma filtered_df_rows (df : DataFrame) (cr : Criteria) :
  columns (filtered_df df cr) = columns df /\
  rows (filtered_df df cr) = filter (mask cr) (rows df) /\
  forall r, In r (rows (filtered_df df cr)) <-> In r (rows df) /\ mask cr r = true.
Proof.
  split; [reflexivity|]. split; [reflexivity|].
  intros r. simpl. apply filter_In.
Qed.

(** In app6.py a row with a missing gender passes no selection made of
    values that are not missing. *)
Lemma mask_missing_gender (cr : Criteria) (r : Row) :
  Gender r = NaN -> ~ In NaN (selected_genders cr) -> mask cr r = false.
Proof.
  intros Hg Hsel. apply not_true_is_false. rewrite mask_true_iff, Hg. tauto.
Qed.



(** C5.  With [from] and [to] both 2024-01-01 (app.py..app7.py compute the
    same bounds), a row stamped 2024-01-01T23:59:00 passes and a row stamped
    2024-01-02T00:00:01 does not; but the upper bound is 23:59:59 sharp, so
    a row stamped 2024-01-01T23:59:59.5, which lies on the calendar day of
    [to], does not pass either. *)
Theorem C5_to_date_upper_bound :
  let day := days_from_civil 2024 1 1 in
  let cr := mkCriteria day day [Str "II-I"] [Str "Male"; Str "Female"]
              [Str "CSE"] [Str "A"] in
  let row t := mkRow (Some t) (Str "II-I") (Str "Female") (Str "CSE") (Str "A")
                 [Str "Good"] in
  let t_in := timestamp_of 2024 1 1 23 59 0 0 in
  let t_out := timestamp_of 2024 1 2 0 0 1 0 in
  let t_last := timestamp_of 2024 1 1 23 59 59 500000000 in
  to_bound cr = timestamp_of 2024 1 1 23 59 59 0 /\
  mask cr (row t_in) = true /\ mask_fillna cr (row t_in) = true /\
  mask cr (row t_out) = false /\ mask_fillna cr (row t_out) = false /\
  to_datetime (to_date cr) <= t_last < to_datetime (to_date cr + 1) /\
  mask cr (row t_last) = false /\ mask_fillna cr (row t_last) = false /\
  rows (filtered_df (mkDF ["Subject [DBMS]"] [row t_in; row t_last; row t_out]) cr)
  = [row t_in].
Proof.
  cbv zeta. repeat split; try reflexivity; vm_compute; congruence.
Qed.

(** ** Rounding *)

Lemma round_half_even_near (q : Q) :
  (q - (1 # 2) <= inject_Z (round_half_even q) <= q + (1 # 2))%Q.
Proof.
  unfold round_half_even.
  pose proof (Qfloor_le q) as Hlo. pose proof (Qlt_floor q) as Hhi.
  rewrite inject_Z_plus in Hhi. change (inject_Z 1) with 1%Q in Hhi.
  destruct (Qcompare (q - inject_Z (Qfloor q)) (1 # 2)) eqn:E.
  - apply Qeq_alt in E. destruct (Z.even (Qfloor q));
      rewrite ?inject_Z_plus; change (inject_Z 1) with 1%Q; lra.
  - apply Qlt_alt in E. lra.
  - apply Qgt_alt in E. rewrite inject_Z_plus. change (inject_Z 1) with 1%Q. lra.
Qed.

(** Rounding to an integer does not cross an integer. *)
Lemma round_half_even_ge (q : Q) (k : Z) :
  (inject_Z k <= q)%Q -> k <= round_half_even q.
Proof.
  intros H. destruct (round_half_even_near q) as [Hlo _].
  assert (Hq : (inject_Z k - (1 # 2) <= inject_Z (round_half_even q))%Q) by lra.
  unfold Qle, Qminus, Qplus, Qopp, inject_Z in Hq. simpl in Hq. lia.
Qed.

Lemma round_half_even_le (q : Q) (k : Z) :
  (q <= inject_Z k)%Q -> round_half_even q <= k.
Proof.
  intros H. destruct (round_half_even_near q) as [_ Hhi].
  assert (Hq : (inject_Z (round_half_even q) <= inject_Z k + (1 # 2))%Q) by lra.
  unfold Qle, Qminus, Qplus, Qopp, inject_Z in Hq. simpl in Hq. lia.
Qed.

Lemma pow2_pos (e : Z) : (0 < pow2 e)%Q.
Proof. apply Qpower_0_lt. reflexivity. Qed.

Lemma pow2_add (a b : Z) : (pow2 (a + b) == pow2 a * pow2 b)%Q.
Proof. apply Qpower_plus. discriminate. Qed.

Lemma pow2_le (a b : Z) : a <= b -> (pow2 a <= pow2 b)%Q.
Proof. intros H. apply Qpower_le_compat_l; [assumption | discriminate]. Qed.

Lemma pow2_lt_inv (a b : Z) : (pow2 a < pow2 b)%Q -> a < b.
Proof. intros H. apply (Qpower_lt_compat_l_inv 2); [assumption | reflexivity]. Qed.

Lemma pow2_Z (e : Z) : 0 <= e -> (pow2 e == inject_Z (2 ^ e))%Q.
Proof. intros H. unfold pow2. now rewrite Zpower_Qpower. Qed.

Lemma pow2_opp (e : Z) : (pow2 (- e) * pow2 e == 1)%Q.
Proof.
  rewrite <- pow2_add. replace (- e + e) with 0 by lia. reflexivity.
Qed.

(** The quotient of the binary orders of numerator and denominator is
    within one of the binary order of a positive rational. *)
Lemma log2_bracket (q : Q) :
  (0 < q)%Q ->
  let s := Z.log2 (Qnum q) - Z.log2 (Zpos (Qden q)) in
  (pow2 (s - 1) < q /\ q < pow2 (s + 1))%Q.
Proof.
  intros Hq. destruct q as [n d]. cbn [Qnum Qden].
  assert (Hn : 0 < n). { unfold Qlt in Hq. simpl in Hq. lia. }
  set (a := Z.log2 n). set (b := Z.log2 (Zpos d)).
  destruct (Z.log2_spec n Hn) as [Ha1 Ha2]. fold a in Ha1, Ha2.
  destruct (Z.log2_spec (Zpos d) (Pos2Z.is_pos d)) as [Hb1 Hb2]. fold b in Hb1, Hb2.
  assert (Ha : 0 <= a) by apply Z.log2_nonneg.
  assert (Hb : 0 <= b) by apply Z.log2_nonneg.
  assert (Ea : (pow2 a <= inject_Z n /\ inject_Z n < pow2 (a + 1))%Q).
  { rewrite !pow2_Z by lia. rewrite <- Zle_Qle, <- Zlt_Qlt.
    replace (a + 1) with (Z.succ a) by lia. now split. }
  assert (Eb : (pow2 b <= inject_Z (Zpos d) /\ inject_Z (Zpos d) < pow2 (b + 1))%Q).
  { rewrite !pow2_Z by lia. rewrite <- Zle_Qle, <- Zlt_Qlt.
    replace (b + 1) with (Z.succ b) by lia. now split. }
  assert (Eq : (n # d == inject_Z n / inject_Z (Zpos d))%Q) by apply Qmake_Qdiv.
  assert (Hd : (0 < inject_Z (Zpos d))%Q) by reflexivity.
  cbv zeta. rewrite Eq. split.
  - apply Qlt_shift_div_l; [assumption|].
    apply Qlt_le_trans with (pow2 (a - b - 1) * pow2 (b + 1))%Q.
    + apply Qmult_lt_l; [apply pow2_pos | tauto].
    + rewrite <- pow2_add. replace (a - b - 1 + (b + 1)) with a by lia. tauto.
  - apply Qlt_shift_div_r; [assumption|].
    apply Qlt_le_trans with (pow2 (a - b + 1) * pow2 b)%Q.
    + rewrite <- pow2_add. replace (a - b + 1 + b) with (a + 1) by lia. tauto.
    + apply Qmult_le_l; [apply pow2_pos | tauto].
Qed.

(** The exponent of the last place: a positive [q] lies below
    2^53 units, and at or above 2^52 units unless it is below the normal
    range, where the unit is 2^-1074. *)
Lemma ulp_exponent_spec (q : Q) :
  (0 < q)%Q ->
  let e := ulp_exponent q in
  (q < pow2 (53 + e))%Q /\
  (e = -1074 \/ (pow2 (52 + e) <= q)%Q) /\
  ((pow2 (-1022) <= q)%Q -> (pow2 (52 + e) <= q)%Q).
Proof.
  intros Hq. unfold ulp_exponent.
  destruct (log2_bracket q Hq) as [Hlo Hhi].
  set (s := Z.log2 (Qnum q) - Z.log2 (Zpos (Qden q))) in *.
  set (e0 := if Qle_bool (pow2 s) q then s - 52 else s - 53).
  assert (H0 : (pow2 (52 + e0) <= q /\ q < pow2 (53 + e0))%Q).
  { unfold e0. destruct (Qle_bool (pow2 s) q) eqn:E.
    - apply Qle_bool_iff in E.
      replace (52 + (s - 52)) with s by lia.
      replace (53 + (s - 52)) with (s + 1) by lia. now split.
    - assert (Hlt : (q < pow2 s)%Q).
      { apply Qnot_le_lt. intros H. apply Qle_bool_iff in H. congruence. }
      replace (52 + (s - 53)) with (s - 1) by lia.
      replace (53 + (s - 53)) with s by lia.
      split; [now apply Qlt_le_weak | assumption]. }
  cbv zeta. split; [|split].
  - apply Qlt_le_trans with (pow2 (53 + e0)); [tauto|].
    apply pow2_le. lia.
  - destruct (Z.max_spec e0 (-1074)) as [[Hlt ->]|[Hge ->]]; tauto.
  - intros Hn. destruct (Z.max_spec e0 (-1074)) as [[Hlt ->]|[Hge ->]]; [|tauto].
    exfalso.
    assert (H : (pow2 (-1022) < pow2 (53 + e0))%Q)
      by (apply Qle_lt_trans with q; tauto).
    apply pow2_lt_inv in H. lia.
Qed.

Lemma double_pos (q : Q) :
  (0 < q)%Q ->
  double q = (inject_Z (round_half_even (q / pow2 (ulp_exponent q)))
              * pow2 (ulp_exponent q))%Q.
Proof.
  intros Hq. destruct q as [[|p|p] d]; try reflexivity;
    unfold Qlt in Hq; simpl in Hq; lia.
Qed.

Lemma double_zero (q : Q) : (q == 0)%Q -> double q = 0%Q.
Proof.
  destruct q as [[|p|p] d]; [reflexivity | |]; unfold Qeq; simpl; lia.
Qed.

(** The float nearest to a positive [q] of the normal range is within
    [q * 2^-53] of [q]. *)
Lemma double_error (q : Q) :
  (pow2 (-1022) <= q)%Q ->
  (q - q * (1 # 2 ^ 53) <= double q <= q + q * (1 # 2 ^ 53))%Q.
Proof.
  intros Hn.
  assert (Hq : (0 < q)%Q)
    by (apply Qlt_le_trans with (pow2 (-1022)); [apply pow2_pos | assumption]).
  rewrite (double_pos q Hq).
  destruct (ulp_exponent_spec q Hq) as (_ & _ & H52). specialize (H52 Hn).
  set (e := ulp_exponent q) in *.
  pose proof (pow2_pos e) as HP.
  rewrite (Z.add_comm 52 e), pow2_add in H52.
  destruct (round_half_even_near (q / pow2 e)) as [Hlo Hhi].
  set (m := inject_Z (round_half_even (q / pow2 e))) in *.
  set (P := pow2 e) in *.
  assert (Eq : (q == q / P * P)%Q) by (field; lra).
  assert (H1 : ((q / P - (1 # 2)) * P <= m * P)%Q)
    by (apply Qmult_le_compat_r; lra).
  assert (H2 : (m * P <= (q / P + (1 # 2)) * P)%Q)
    by (apply Qmult_le_compat_r; lra).
  set (r := (q / P)%Q) in *.
  change (pow2 52) with (4503599627370496 # 1)%Q in H52.
  change (1 # 2 ^ 53)%Q with (1 # 9007199254740992)%Q.
  assert (E1 : ((r - (1 # 2)) * P == r * P - (1 # 2) * P)%Q) by ring.
  assert (E2 : ((r + (1 # 2)) * P == r * P + (1 # 2) * P)%Q) by ring.
  rewrite E1 in H1. rewrite E2 in H2. rewrite <- Eq in H1, H2.
  split; lra.
Qed.

(** Rounding to a float does not cross an integer below 2^53. *)
Lemma double_between (q : Q) (lo hi : Z) :
  0 <= lo -> hi < 2 ^ 53 ->
  (inject_Z lo <= q <= inject_Z hi)%Q ->
  (inject_Z lo <= double q <= inject_Z hi)%Q.
Proof.
  intros Hlo0 Hhi53 [Hlo Hhi].
  assert (Hq0 : (0 <= q)%Q).
  { apply Qle_trans with (inject_Z lo); [|assumption].
    change 0%Q with (inject_Z 0). now rewrite <- Zle_Qle. }
  destruct (Qlt_le_dec 0 q) as [Hq|Hq].
  - rewrite (double_pos q Hq).
    destruct (ulp_exponent_spec q Hq) as (_ & He & _).
    set (e := ulp_exponent q) in *.
    assert (He0 : e <= 0).
    { destruct He as [->|He]; [lia|].
      assert (H : (pow2 (52 + e) < pow2 53)%Q).
      { apply Qle_lt_trans with q; [assumption|].
        apply Qle_lt_trans with (inject_Z hi); [assumption|].
        rewrite pow2_Z by lia. now rewrite <- Zlt_Qlt. }
      apply pow2_lt_inv in H. lia. }
    pose proof (pow2_pos e) as HP.
    pose proof (pow2_opp e) as HSP. rewrite (pow2_Z (- e)) in HSP by lia.
    set (S := 2 ^ (- e)) in *. set (P := pow2 e) in *.
    assert (HS : (0 <= inject_Z S)%Q).
    { change 0%Q with (inject_Z 0). rewrite <- Zle_Qle. unfold S. apply Z.pow_nonneg. lia. }
    assert (Eq : (q / P == q * inject_Z S)%Q).
    { rewrite <- (Qmult_1_r (q / P)), <- HSP. field. lra. }
    assert (Hlo' : (inject_Z (lo * S) <= q / P)%Q).
    { rewrite Eq, inject_Z_mult. now apply Qmult_le_compat_r. }
    assert (Hhi' : (q / P <= inject_Z (hi * S))%Q).
    { rewrite Eq, inject_Z_mult. now apply Qmult_le_compat_r. }
    apply round_half_even_ge in Hlo'. apply round_half_even_le in Hhi'.
    set (m := round_half_even (q / P)) in *.
    rewrite Zle_Qle, inject_Z_mult in Hlo', Hhi'.
    assert (H1 : (inject_Z lo * inject_Z S * P <= inject_Z m * P)%Q)
      by (apply Qmult_le_compat_r; lra).
    assert (H2 : (inject_Z m * P <= inject_Z hi * inject_Z S * P)%Q)
      by (apply Qmult_le_compat_r; lra).
    assert (E1 : (inject_Z lo * inject_Z S * P == inject_Z lo * (inject_Z S * P))%Q) by ring.
    assert (E2 : (inject_Z hi * inject_Z S * P == inject_Z hi * (inject_Z S * P))%Q) by ring.
    rewrite E1, HSP, Qmult_1_r in H1. rewrite E2, HSP, Qmult_1_r in H2.
    now split.
  - assert (E : (q == 0)%Q) by lra. rewrite (double_zero q E).
    rewrite E in Hlo, Hhi. now split.
Qed.

(** An integer below 2^53 is a float. *)
Lemma double_Z (z : Z) : 0 <= z < 2 ^ 53 -> (double (inject_Z z) == inject_Z z)%Q.
Proof.
  intros [H0 H53].
  destruct (double_between (inject_Z z) z z H0 H53) as [H1 H2]; [split; apply Qle_refl|].
  now apply Qle_antisym.
Qed.

Lemma double_nonneg (q : Q) : (0 <= q)%Q -> (0 <= double q)%Q.
Proof.
  intros H. destruct (Qlt_le_dec 0 q) as [Hq|Hq].
  - rewrite (double_pos q Hq). apply Qmult_le_0_compat.
    + change 0%Q with (inject_Z 0). rewrite <- Zle_Qle.
      apply round_half_even_ge. apply Qle_shift_div_l; [apply pow2_pos|].
      rewrite Qmult_0_l. assumption.
    + apply Qlt_le_weak, pow2_pos.
  - rewrite double_zero by lra. apply Qle_refl.
Qed.

(** [round x n] is the float nearest to a decimal of [n] places that lies
    at most half a unit of its last place from [x]. *)
Lemma round_decimal (x : Q) (ndigits : nat) :
  let p := inject_Z (10 ^ Z.of_nat ndigits) in
  exists z : Z,
    round x ndigits = double (inject_Z z / p) /\
    (x - (1 # 2) / p <= inject_Z z / p <= x + (1 # 2) / p)%Q.
Proof.
  cbv zeta. exists (round_half_even (x * inject_Z (10 ^ Z.of_nat ndigits))).
  split; [reflexivity|].
  assert (HP : 0 < 10 ^ Z.of_nat ndigits) by (apply Z.pow_pos_nonneg; lia).
  assert (HPQ : (0 < inject_Z (10 ^ Z.of_nat ndigits))%Q).
  { change 0%Q with (inject_Z 0). now rewrite <- Zlt_Qlt. }
  set (p := inject_Z (10 ^ Z.of_nat ndigits)) in *.
  destruct (round_half_even_near (x * p)) as [Hlo Hhi].
  set (z := inject_Z (round_half_even (x * p))) in *.
  split.
  - apply Qle_shift_div_l; [assumption|].
    assert (E : ((x - (1 # 2) / p) * p == x * p - (1 # 2))%Q) by (field; lra).
    now rewrite E.
  - apply Qle_shift_div_r; [assumption|].
    assert (E : ((x + (1 # 2) / p) * p == x * p + (1 # 2))%Q) by (field; lra).
    now rewrite E.
Qed.

(** [round] does not cross an integer. *)
Lemma round_between (x : Q) (ndigits : nat) (lo hi : Z) :
  0 <= lo -> hi < 2 ^ 53 ->
  (inject_Z lo <= x <= inject_Z hi)%Q ->
  (inject_Z lo <= round x ndigits <= inject_Z hi)%Q.
Proof.
  intros Hlo0 Hhi53 [Hlo Hhi]. unfold round.
  assert (HP : 0 < 10 ^ Z.of_nat ndigits) by (apply Z.pow_pos_nonneg; lia).
  set (P := 10 ^ Z.of_nat ndigits) in *.
  assert (HPQ : (0 < inject_Z P)%Q).
  { change 0%Q with (inject_Z 0). now rewrite <- Zlt_Qlt. }
  assert (H1 : (inject_Z (lo * P) <= x * inject_Z P)%Q).
  { rewrite inject_Z_mult. apply Qmult_le_compat_r; [assumption | lra]. }
  assert (H2 : (x * inject_Z P <= inject_Z (hi * P))%Q).
  { rewrite inject_Z_mult. apply Qmult_le_compat_r; [assumption | lra]. }
  apply round_half_even_ge in H1. apply round_half_even_le in H2.
  set (z := round_half_even (x * inject_Z P)) in *.
  apply double_between; [assumption | assumption|].
  rewrite Zle_Qle, inject_Z_mult in H1, H2. split.
  - apply Qle_shift_div_l; assumption.
  - apply Qle_shift_div_r; assumption.
Qed.

Lemma pow2_normal_small : (pow2 (-1022) <= 1 # 2 ^ 60)%Q.
Proof. apply Qle_bool_iff. vm_compute. reflexivity. Qed.

(** The percentage of a count [c] out of [t]: the float nearest to a
    number of tenths that is within 0.05 of [100 * c / t], up to the error
    of the three float operations before the rounding to an integer. *)
Lemma percentage_near (c t : Z) :
  0 < c <= t -> t <= 2 ^ 53 ->
  let exact := (100 * inject_Z c / inject_Z t)%Q in
  let p := np_round (double (double (inject_Z c / inject_Z t) * 100)) 1 in
  let tenths :=
    round_half_even (double (double (double (inject_Z c / inject_Z t) * 100) * 10)) in
    p = double (inject_Z tenths / 10) /\
    0 <= tenths <= 1000 /\
    (exact - (1 # 20) - (1 # 10 ^ 12) <= inject_Z tenths / 10
     <= exact + (1 # 20) + (1 # 10 ^ 12))%Q /\
    (exact - (1 # 20) - (1 # 10 ^ 11) <= p <= exact + (1 # 20) + (1 # 10 ^ 11))%Q /\
    (0 <= p <= 100)%Q.
Proof.
  intros [Hc Hct] Ht. cbv zeta.
  assert (HtQ : (0 < inject_Z t)%Q).
  { change 0%Q with (inject_Z 0). rewrite <- Zlt_Qlt. lia. }
  set (x := (inject_Z c / inject_Z t)%Q).
  assert (Ex : (100 * inject_Z c / inject_Z t == 100 * x)%Q)
    by (unfold x, Qdiv; ring).
  assert (Hx1 : (x <= 1)%Q).
  { apply Qle_shift_div_r; [assumption|]. rewrite Qmult_1_l. now rewrite <- Zle_Qle. }
  assert (Hx0 : ((1 # 2 ^ 53) <= x)%Q).
  { apply Qle_shift_div_l; [assumption|].
    apply Qle_trans with 1%Q.
    - change (2 ^ 53) with 9007199254740992 in Ht.
      change (1 # 2 ^ 53)%Q with (1 # 9007199254740992)%Q.
      unfold Qle, Qmult, inject_Z. cbn [Qnum Qden]. lia.
    - change 1%Q with (inject_Z 1). rewrite <- Zle_Qle. lia. }
  pose proof pow2_normal_small as Hsmall.
  change (1 # 2 ^ 53)%Q with (1 # 9007199254740992)%Q in Hx0.
  change (1 # 2 ^ 60)%Q with (1 # 1152921504606846976)%Q in Hsmall.
  (* the quotient *)
  assert (N1 : (pow2 (-1022) <= x)%Q) by lra.
  pose proof (double_error x N1) as E1.
  change (1 # 2 ^ 53)%Q with (1 # 9007199254740992)%Q in E1.
  assert (B1 : (inject_Z 0 <= double x <= inject_Z 1)%Q).
  { apply double_between; [lia | reflexivity|]. change (inject_Z 0) with 0%Q.
    change (inject_Z 1) with 1%Q. split; lra. }
  change (inject_Z 0) with 0%Q in B1. change (inject_Z 1) with 1%Q in B1.
  set (y1 := double x) in *.
  (* times 100 *)
  assert (N2 : (pow2 (-1022) <= y1 * 100)%Q) by lra.
  pose proof (double_error (y1 * 100) N2) as E2.
  change (1 # 2 ^ 53)%Q with (1 # 9007199254740992)%Q in E2.
  assert (B2 : (inject_Z 0 <= double (y1 * 100) <= inject_Z 100)%Q).
  { apply double_between; [lia | reflexivity|]. change (inject_Z 0) with 0%Q.
    change (inject_Z 100) with 100%Q. split; lra. }
  change (inject_Z 0) with 0%Q in B2. change (inject_Z 100) with 100%Q in B2.
  set (y2 := double (y1 * 100)) in *.
  (* times 10 *)
  unfold np_round. change (inject_Z (10 ^ Z.of_nat 1)) with 10%Q.
  assert (N3 : (pow2 (-1022) <= y2 * 10)%Q) by lra.
  pose proof (double_error (y2 * 10) N3) as E3.
  change (1 # 2 ^ 53)%Q with (1 # 9007199254740992)%Q in E3.
  assert (B3 : (inject_Z 0 <= double (y2 * 10) <= inject_Z 1000)%Q).
  { apply double_between; [lia | reflexivity|]. change (inject_Z 0) with 0%Q.
    change (inject_Z 1000) with 1000%Q. split; lra. }
  set (y3 := double (y2 * 10)) in *.
  (* to an integer *)
  destruct (round_half_even_near y3) as [R1 R2].
  destruct B3 as [B3l B3h].
  pose proof (round_half_even_le y3 1000 B3h) as Z2.
  assert (Z1 : 0 <= round_half_even y3) by (apply round_half_even_ge; assumption).
  change (inject_Z 0) with 0%Q in B3l. change (inject_Z 1000) with 1000%Q in B3h.
  set (z := round_half_even y3) in *.
  split; [reflexivity|].
  change (1 # 10 ^ 12)%Q with (1 # 1000000000000)%Q.
  change (1 # 10 ^ 11)%Q with (1 # 100000000000)%Q.
  rewrite Ex.
  assert (T : (100 * x - (1 # 20) - (1 # 1000000000000) <= inject_Z z / 10
               <= 100 * x + (1 # 20) + (1 # 1000000000000))%Q).
  { assert (Ez : (inject_Z z / 10 == inject_Z z * (1 # 10))%Q) by (unfold Qdiv; reflexivity).
    rewrite Ez. split; lra. }
  split; [lia|]. split; [exact T|]. clear Ex.
  assert (B4 : (inject_Z 0 <= double (inject_Z z / 10) <= inject_Z 100)%Q).
  { apply double_between; [lia | reflexivity|].
    change (inject_Z 0) with 0%Q. change (inject_Z 100) with 100%Q.
    rewrite Zle_Qle in Z1, Z2. change (inject_Z 0) with 0%Q in Z1.
    change (inject_Z 1000) with 1000%Q in Z2.
    assert (Ez : (inject_Z z / 10 == inject_Z z * (1 # 10))%Q) by (unfold Qdiv; reflexivity).
    rewrite Ez. split; lra. }
  change (inject_Z 0) with 0%Q in B4. change (inject_Z 100) with 100%Q in B4.
  split; [|exact B4].
  destruct (Z.eq_dec z 0) as [E0|Hne].
  - rewrite E0 in *. rewrite (double_zero (inject_Z 0 / 10)) by reflexivity.
    assert (E00 : (inject_Z 0 / 10 == 0)%Q) by reflexivity.
    rewrite E00 in T. lra.
  - assert (Hz1 : (1 <= inject_Z z)%Q).
    { change 1%Q with (inject_Z 1). rewrite <- Zle_Qle. lia. }
    assert (Hz2 : (inject_Z z <= 1000)%Q).
    { change 1000%Q with (inject_Z 1000). now rewrite <- Zle_Qle. }
    assert (Ez : (inject_Z z / 10 == inject_Z z * (1 # 10))%Q) by (unfold Qdiv; reflexivity).
    assert (N4 : (pow2 (-1022) <= inject_Z z / 10)%Q) by (rewrite Ez; lra).
    pose proof (double_error (inject_Z z / 10) N4) as E4.
    change (1 # 2 ^ 53)%Q with (1 # 9007199254740992)%Q in E4.
    set (p := double (inject_Z z / 10)) in *.
    rewrite Ez in T, E4. split; lra.
Qed.

(** ** Counting the scores *)

Lemma occurrences_cons (v x : Z) (scores : list Z) :
  occurrences v (x :: scores)
  = occurrences v scores + if x =? v then 1 else 0.
Proof.
  unfold occurrences. simpl.
  destruct (Z.eq_dec x v) as [->|Hne].
  - rewrite Z.eqb_refl. lia.
  - apply Z.eqb_neq in Hne. rewrite Hne. lia.
Qed.

Lemma occurrences_pos (v : Z) (scores : list Z) :
  0 < occurrences v scores <-> In v scores.
Proof.
  unfold occurrences. rewrite (count_occ_In Z.eq_dec). lia.
Qed.

Lemma count_of_count_add (v k : Z) (d : list (Z * Z)) :
  count_of k (count_add v d)
  = count_of k d + if v =? k then 1 else 0.
Proof.
  induction d as [|[k0 c0] d IH]; simpl.
  - destruct (v =? k); lia.
  - destruct (Z.eqb_spec k0 v) as [->|Hne]; simpl.
    + destruct (v =? k); lia.
    + destruct (Z.eqb_spec k0 k) as [->|Hk]; [|exact IH].
      apply Z.eqb_neq in Hne. rewrite Z.eqb_sym in Hne. rewrite Hne. lia.
Qed.

Lemma keys_count_add (v x : Z) (d : list (Z * Z)) :
  In x (map fst (count_add v d)) <-> x = v \/ In x (map fst d).
Proof.
  induction d as [|[k0 c0] d IH]; simpl.
  - intuition congruence.
  - destruct (Z.eqb_spec k0 v) as [->|Hne]; simpl.
    + intuition congruence.
    + rewrite IH. intuition congruence.
Qed.

Lemma NoDup_count_add (v : Z) (d : list (Z * Z)) :
  NoDup (map fst d) -> NoDup (map fst (count_add v d)).
Proof.
  induction d as [|[k0 c0] d IH]; simpl; intros H.
  - constructor; [tauto | constructor].
  - inversion H as [|? ? Hnotin Hnd]; subst.
    destruct (Z.eqb_spec k0 v) as [->|Hne]; simpl.
    + now constructor.
    + constructor; [|now apply IH].
      rewrite keys_count_add. intros [->|Hin]; [congruence | contradiction].
Qed.

Lemma sum_count_add (v : Z) (d : list (Z * Z)) :
  sum (map snd (count_add v d)) = sum (map snd d) + 1.
Proof.
  unfold sum. induction d as [|[k0 c0] d IH]; simpl; [lia|].
  destruct (k0 =? v); simpl; lia.
Qed.

Lemma In_count_of (k c : Z) (d : list (Z * Z)) :
  NoDup (map fst d) -> In (k, c) d -> count_of k d = c.
Proof.
  induction d as [|[k0 c0] d IH]; simpl; [contradiction|].
  intros Hnd [[= -> ->]|Hin].
  - now rewrite Z.eqb_refl.
  - inversion Hnd as [|? ? Hnotin Hnd']; subst.
    destruct (Z.eqb_spec k0 k) as [->|Hne].
    + exfalso. apply Hnotin. change k with (fst (k, c)). now apply in_map.
    + now apply IH.
Qed.

Lemma count_of_absent (k : Z) (d : list (Z * Z)) :
  ~ In k (map fst d) -> count_of k d = 0.
Proof.
  induction d as [|[k0 c0] d IH]; simpl; [reflexivity|].
  intros H. destruct (Z.eqb_spec k0 k) as [->|Hne]; [tauto|].
  apply IH. tauto.
Qed.

(** What the loop of [value_counts] holds after a run over [scores]. *)
Lemma fold_count_add (scores : list Z) :
  forall d,
    NoDup (map fst d) ->
    let d' := fold_left (fun d v => count_add v d) scores d in
    NoDup (map fst d') /\
    (forall k, count_of k d' = count_of k d + occurrences k scores) /\
    (forall k, In k (map fst d') <-> In k (map fst d) \/ In k scores) /\
    sum (map snd d') = sum (map snd d) + len scores.
Proof.
  induction scores as [|v scores IH]; intros d Hnd; cbn [fold_left].
  - cbv zeta. split; [assumption|]. split; [|split].
    + intros k. unfold occurrences. simpl. lia.
    + intros k. simpl. tauto.
    + unfold len. simpl. lia.
  - destruct (IH (count_add v d) (NoDup_count_add v d Hnd)) as (H1 & H2 & H3 & H4).
    cbv zeta. split; [assumption|]. split; [|split].
    + intros k. rewrite H2, count_of_count_add, occurrences_cons. lia.
    + intros k. rewrite H3, keys_count_add. simpl. intuition congruence.
    + rewrite H4, sum_count_add. unfold len. simpl List.length.
      rewrite Nat2Z.inj_succ. lia.
Qed.

(** [value_counts]: one entry per distinct score, with its number of
    occurrences. *)
Lemma value_counts_spec (scores : list Z) :
  NoDup (map fst (value_counts scores)) /\
  (forall k c, In (k, c) (value_counts scores) ->
               c = occurrences k scores /\ In k scores) /\
  (forall k, In k (map fst (value_counts scores)) <-> In k scores) /\
  sum (map snd (value_counts scores)) = len scores.
Proof.
  destruct (fold_count_add scores [] (NoDup_nil _)) as (H1 & H2 & H3 & H4).
  fold (value_counts scores) in H1, H2, H3, H4. cbv zeta in *.
  split; [assumption|]. split; [|split].
  - intros k c Hin. split.
    + rewrite <- (In_count_of k c _ H1 Hin), H2. simpl. lia.
    + assert (Hk : In k (map fst (value_counts scores))).
      { change k with (fst (k, c)). now apply in_map. }
      apply H3 in Hk. simpl in Hk. tauto.
  - intros k. rewrite H3. simpl. tauto.
  - rewrite H4. unfold sum. simpl. lia.
Qed.

(** ** Sorting by a key *)

Lemma insert_by_perm {A : Type} (key : A -> Z) (x : A) (l : list A) :
  Permutation (insert_by key x l) (x :: l).
Proof.
  induction l as [|y l IH]; simpl; [reflexivity|].
  destruct (key x <? key y); [reflexivity|].
  rewrite IH. apply perm_swap.
Qed.

Lemma sort_by_perm {A : Type} (key : A -> Z) (l : list A) :
  Permutation (sort_by key l) l.
Proof.
  induction l as [|x l IH]; simpl; [reflexivity|].
  rewrite insert_by_perm. now constructor.
Qed.

Lemma insert_by_sorted {A : Type} (key : A -> Z) (x : A) (l : list A) :
  StronglySorted (fun a b => key a <= key b) l ->
  StronglySorted (fun a b => key a <= key b) (insert_by key x l).
Proof.
  induction 1 as [|y l Hs IH Hy]; simpl.
  - constructor; constructor.
  - destruct (Z.ltb_spec (key x) (key y)) as [Hlt|Hge].
    + constructor; [now constructor|].
      constructor; [lia|].
      eapply Forall_impl; [|exact Hy]. simpl. intros a Ha. lia.
    + constructor; [assumption|].
      apply (Permutation_Forall (Permutation_sym (insert_by_perm key x l))).
      constructor; assumption.
Qed.

Lemma sort_by_sorted {A : Type} (key : A -> Z) (l : list A) :
  StronglySorted (fun a b => key a <= key b) (sort_by key l).
Proof.
  induction l as [|x l IH]; simpl; [constructor | now apply insert_by_sorted].
Qed.

Lemma sorted_strict {A : Type} (key : A -> Z) (l : list A) :
  NoDup (map key l) ->
  StronglySorted (fun a b => key a <= key b) l ->
  StronglySorted (fun a b => key a < key b) l.
Proof.
  intros Hnd Hs. induction Hs as [|x l Hs IH Hx]; [constructor|].
  simpl in Hnd. inversion Hnd as [|? ? Hnotin Hnd']; subst.
  constructor; [now apply IH|].
  rewrite Forall_forall in *. intros a Ha.
  specialize (Hx a Ha). simpl in Hx.
  assert (key a <> key x).
  { intros E. apply Hnotin. rewrite <- E. now apply in_map. }
  lia.
Qed.

Lemma sort_by_strictly_sorted {A : Type} (key : A -> Z) (l : list A) :
  StronglySorted (fun a b => key a < key b) l -> sort_by key l = l.
Proof.
  induction 1 as [|x l Hs IH Hx]; [reflexivity|].
  simpl. rewrite IH. destruct l as [|y l]; [reflexivity|].
  simpl. inversion Hx as [|? ? Hxy _]; subst.
  apply Z.ltb_lt in Hxy. now rewrite Hxy.
Qed.

Lemma sorted_map {A B : Type} (f : A -> B) (key : B -> Z) (l : list A) :
  StronglySorted (fun a b => key (f a) < key (f b)) l ->
  StronglySorted (fun a b => key a < key b) (map f l).
Proof.
  induction 1 as [|x l Hs IH Hx]; simpl; constructor; [assumption|].
  rewrite Forall_forall in *. intros b Hb.
  apply in_map_iff in Hb as [a [<- Ha]]. now apply Hx.
Qed.

Lemma sum_perm (l l' : list Z) : Permutation l l' -> sum l = sum l'.
Proof. unfold sum. induction 1; simpl; lia. Qed.

Lemma combine_map_r {A B : Type} (f : A -> B) (l : list A) :
  combine l (map f l) = map (fun a => (a, f a)) l.
Proof. induction l as [|a l IH]; simpl; [reflexivity | now rewrite IH]. Qed.

(** [score_dist] of [main]: the distinct scores in ascending order, each
    with its number of occurrences. *)
Lemma sort_index_value_counts (scores : list Z) :
  let score_dist := sort_index (value_counts scores) in
  StronglySorted (fun a b => fst a < fst b) score_dist /\
  (forall k c, In (k, c) score_dist -> c = occurrences k scores /\ In k scores) /\
  (forall k, In k (map fst score_dist) <-> In k scores) /\
  sum (map snd score_dist) = len scores.
Proof.
  destruct (value_counts_spec scores) as (H1 & H2 & H3 & H4).
  pose proof (sort_by_perm fst (value_counts scores)) as Hp.
  cbv zeta. unfold sort_index. split; [|split; [|split]].
  - apply sorted_strict; [|apply sort_by_sorted].
    apply (Permutation_NoDup (Permutation_map fst (Permutation_sym Hp)) H1).
  - intros k c Hin. apply H2. now apply (Permutation_in _ Hp).
  - intros k. rewrite <- H3. split; intros Hin.
    + apply (Permutation_in _ (Permutation_map fst Hp) Hin).
    + apply (Permutation_in _ (Permutation_map fst (Permutation_sym Hp)) Hin).
  - rewrite <- H4. apply sum_perm. now apply Permutation_map.
Qed.

(** ** Score distribution *)

(** [dist_df] row by row: the second sort finds the rows in order. *)
Lemma dist_df_eq (scores : list Z) :
  dist_df scores =
  map (fun kc =>
         mkDistRow (fst kc) (snd kc)
           (np_round (double (double (inject_Z (snd kc) / inject_Z (len scores)) * 100)) 1))
      (sort_index (value_counts scores)).
Proof.
  destruct (sort_index_value_counts scores) as (Hs & _ & _ & Hsum).
  cbv zeta in Hs, Hsum. unfold dist_df. rewrite Hsum.
  rewrite combine_map_r, map_map. cbn [fst snd].
  apply sort_by_strictly_sorted.
  apply (sorted_map
           (fun kc => mkDistRow (fst kc) (snd kc)
                        (np_round (double (double (inject_Z (snd kc) / inject_Z (len scores)) * 100)) 1))
           Score).
  exact Hs.
Qed.

Lemma occurrences_le_len (v : Z) (scores : list Z) :
  occurrences v scores <= len scores.
Proof.
  unfold occurrences, len. apply inj_le, count_occ_bound.
Qed.

(** C7. The distribution of a score list has one row per score that occurs
    and none for a score that does not occur; the rows are in strictly
    ascending order of the score; the count of a row is the number of
    occurrences of its score; and its percentage is 100 * count / total
    rounded to one decimal, in float arithmetic: the float nearest to a
    whole number of tenths, which is 0.05 away from 100 * count / total at
    most, up to 10^-12 for the error of the float operations, when the
    list has at most 2^53 scores (counts are then floats).  The scores
    5, 5, 3, 1 give (1, 1, 25.0), (3, 1, 25.0), (5, 2, 50.0).  A tie is
    broken as the floats fall: 23 scores out of 80 are 28.75 per cent, shown
    as 28.7, and 57 out of 80 are 71.25 per cent, shown as 71.2. *)
Theorem C7_score_distribution :
  forall scores : list Z,
    let d := dist_df scores in
    StronglySorted (fun a b => Score a < Score b) d /\
    (forall v, In v (map Score d) <-> In v scores) /\
    Forall (fun e =>
              Count e = occurrences (Score e) scores /\
              0 < Count e /\
              Percentage e
              = np_round (double (double (inject_Z (Count e)
                                          / inject_Z (len scores)) * 100)) 1 /\
              exists tenths : Z,
                Percentage e = double (inject_Z tenths / 10) /\
                (len scores <= 2 ^ 53 ->
                 (100 * inject_Z (Count e) / inject_Z (len scores)
                  - (1 # 20) - (1 # 10 ^ 12)
                  <= inject_Z tenths / 10
                  <= 100 * inject_Z (Count e) / inject_Z (len scores)
                     + (1 # 20) + (1 # 10 ^ 12))%Q))
           d /\
    (map (fun e => (Score e, Count e)) (dist_df [5; 5; 3; 1])
     = [(1, 1); (3, 1); (5, 2)] /\
     Forall2 (fun e p => (Percentage e == p)%Q) (dist_df [5; 5; 3; 1])
       [25.0; 25.0; 50.0]%Q) /\
    (map (fun e => (Score e, Count e)) (dist_df (repeat 1 23 ++ repeat 5 57))
     = [(1, 23); (5, 57)] /\
     Forall2 (fun e p => Percentage e = double p)
       (dist_df (repeat 1 23 ++ repeat 5 57)) [28.7; 71.2]%Q).
Proof.
  intros scores d. unfold d. rewrite dist_df_eq.
  destruct (sort_index_value_counts scores) as (Hs & Hc & Hk & _).
  cbv zeta in Hs, Hc, Hk.
  split; [|split; [|split; [|split]]].
  - apply (sorted_map _ Score). exact Hs.
  - intros v. rewrite map_map. cbn [Score]. apply Hk.
  - apply Forall_forall. intros e He.
    apply in_map_iff in He as [[k c] [<- Hin]]. cbn [fst snd Score Count Percentage].
    destruct (Hc k c Hin) as [-> Hks].
    pose proof (proj2 (occurrences_pos k scores) Hks) as Hpos.
    pose proof (occurrences_le_len k scores) as Hle.
    split; [reflexivity|]. split; [assumption|].
    split; [reflexivity|].
    exists (round_half_even
              (double (double (double (inject_Z (occurrences k scores)
                                       / inject_Z (len scores)) * 100) * 10))).
    split; [reflexivity|].
    intros Hlen.
    destruct (percentage_near (occurrences k scores) (len scores))
      as (_ & _ & Ht & _); [lia | assumption|].
    exact Ht.
  - split; [reflexivity|].
    repeat constructor; vm_compute; reflexivity.
  - split; [vm_compute; reflexivity|].
    repeat constructor; vm_compute; reflexivity.
Qed.

(** * Further properties of the code *)

(** ** Filters that keep nothing *)

Lemma filter_none {A : Type} (p : A -> bool) (l : list A) :
  (forall x, In x l -> p x = false) -> filter p l = [].
Proof.
  induction l as [|x l IH]; intros H; [reflexivity|].
  simpl. rewrite (H x) by now left. apply IH. intros y Hy. apply H. now right.
Qed.

Lemma dict_all_none {V : Type} (d : dict V) :
  (forall k, dict_get k d = None) -> d = [].
Proof.
  destruct d as [|[k v] d]; [reflexivity|].
  intros H. specialize (H k). simpl in H. now rewrite string_eqb_refl in H.
Qed.

(** A table without rows has no subject: both mappings are empty and the
    response table is empty, with no division by the zero row count. *)
Lemma no_rows_no_subjects (df : DataFrame) :
  rows df = [] ->
  calculate_average_scores df = ([], []) /\ scores_data df = Ok [].
Proof.
  intros Hrows.
  assert (E : accumulated_scores df = []).
  { apply dict_all_none. intros k. rewrite accumulated_scores_get.
    replace (spec_pooled_scores df k) with (@nil Z); [reflexivity|].
    symmetry. apply flat_map_nil. intros [i column] _.
    unfold contribution, column_values. rewrite Hrows. simpl.
    destruct (subject_of_column column) as [k'|]; [|reflexivity].
    now destruct (UString.eqb k' k). }
  split.
  - now rewrite calculate_average_scores_eq, E.
  - now rewrite scores_data_eq, E.
Qed.

Lemma to_bound_before_from_bound (cr : Criteria) :
  to_date cr < from_date cr -> to_bound cr < from_bound cr.
Proof.
  unfold to_bound, from_bound, to_datetime, Timedelta_days, Timedelta_seconds,
    ns_per_day, ns_per_second. lia.
Qed.

(** The dates for which the conversions raise nothing: [from] between
    1677-09-22 and 2262-04-11, [to] between 1677-09-22 and 2262-04-10 (one
    day is added to [to] before the second is taken off).  The two bounds
    are then [from_bound] and [to_bound]. *)
Lemma date_bounds_spec (cr : Criteria) :
  (days_from_civil 1677 9 22 <= from_date cr <= days_from_civil 2262 4 11 /\
   days_from_civil 1677 9 22 <= to_date cr <= days_from_civil 2262 4 10 ->
   date_bounds cr = Some (from_bound cr, to_bound cr)) /\
  (~ (days_from_civil 1677 9 22 <= from_date cr <= days_from_civil 2262 4 11 /\
      days_from_civil 1677 9 22 <= to_date cr <= days_from_civil 2262 4 10) ->
   date_bounds cr = None).
Proof.
  change (days_from_civil 1677 9 22) with (-106751).
  change (days_from_civil 2262 4 11) with 106751.
  change (days_from_civil 2262 4 10) with 106750.
  unfold date_bounds, from_bound, to_bound, checked, to_datetime,
    Timedelta_days, Timedelta_seconds, Timestamp_min, Timestamp_max,
    ns_per_day, ns_per_second.
  change (2 ^ 63) with 9223372036854775808.
  split; intros H.
  - repeat match goal with
           | |- context [if ?b then _ else _] =>
               let E := fresh in
               destruct b eqn:E;
               [| apply andb_false_iff in E; destruct E as [E|E];
                  apply Z.leb_gt in E; lia]
           end.
    reflexivity.
  - repeat match goal with
           | |- context [if ?b then _ else _] =>
               let E := fresh in
               destruct b eqn:E;
               [apply andb_true_iff in E; destruct E as [?E ?E];
                rewrite Z.leb_le in *|reflexivity]
           end.
    exfalso. apply H. lia.
Qed.

Lemma date_bounds_Some (cr : Criteria) (lo hi : Z) :
  date_bounds cr = Some (lo, hi) -> lo = from_bound cr /\ hi = to_bound cr.
Proof.
  unfold date_bounds, checked, from_bound, to_bound.
  repeat match goal with
         | |- context [if ?b then _ else _] => destruct b; [|discriminate]
         end.
  now intros [= <- <-].
Qed.

(** X1 (inverted range).  When the [to] date lies before the [from] date
    and the conversion of the two dates raises nothing, no row passes
    either mask, whatever its time stamp: the filtered table is empty, the
    aggregation returns two empty mappings and the response table is empty.
    The conversion raises exactly when a date lies outside the range of
    pandas time stamps, and then there is no filtered table. *)
Theorem inverted_date_range_keeps_nothing :
  forall (df : DataFrame) (cr : Criteria),
    to_date cr < from_date cr ->
    (forall d,
        main_filtered_df df cr = Some d \/ main_filtered_df_fillna df cr = Some d ->
        rows d = [] /\
        calculate_average_scores d = ([], []) /\
        scores_data d = Ok []) /\
    (main_filtered_df df cr <> None <->
     days_from_civil 1677 9 22 <= to_date cr /\
     from_date cr <= days_from_civil 2262 4 11) /\
    (main_filtered_df_fillna df cr <> None <-> main_filtered_df df cr <> None).
Proof.
  intros df cr Hlt. pose proof (to_bound_before_from_bound cr Hlt) as Hb.
  assert (H1 : rows (filtered_df df cr) = []).
  { simpl. apply filter_none. intros r _. apply not_true_is_false.
    rewrite mask_true_iff. intros [[t [_ Ht]] _]. lia. }
  assert (H2 : rows (filtered_df_fillna df cr) = []).
  { simpl. apply filter_none. intros r _. apply not_true_is_false.
    rewrite mask_fillna_true_iff. intros [[t [_ Ht]] _]. lia. }
  destruct (no_rows_no_subjects _ H1) as [A1 B1].
  destruct (no_rows_no_subjects _ H2) as [A2 B2].
  destruct (date_bounds_spec cr) as [Hin Hout].
  unfold main_filtered_df, main_filtered_df_fillna.
  split; [|split].
  - intros d [Hd|Hd]; destruct (date_bounds cr); try discriminate;
      injection Hd as <-; repeat split; assumption.
  - split.
    + intros Hsome.
      assert (Hr : days_from_civil 1677 9 22 <= from_date cr <= days_from_civil 2262 4 11 /\
                   days_from_civil 1677 9 22 <= to_date cr <= days_from_civil 2262 4 10).
      { apply Decidable.not_not; [unfold Decidable.decidable; lia|].
        intros Hn. apply Hsome. now rewrite (Hout Hn). }
      tauto.
    + intros [Hlo Hhi]. rewrite Hin; [discriminate|].
      change (days_from_civil 1677 9 22) with (-106751) in *.
      change (days_from_civil 2262 4 11) with 106751 in *.
      change (days_from_civil 2262 4 10) with 106750. lia.
  - destruct (date_bounds cr); split; congruence.
Qed.

Lemma inverted_date_range_witness :
  let df := mkDF ["Subject [DBMS]"]
              [mkRow (Some (timestamp_of 2024 1 5 9 0 0 0)) (Str "II-I")
                 (Str "Male") (Str "CSE") (Str "A") [Str "Good"]] in
  let cr := mkCriteria (days_from_civil 2024 1 10) (days_from_civil 2024 1 1)
              [Str "II-I"] [Str "Male"] [Str "CSE"] [Str "A"] in
  main_filtered_df df cr = Some (mkDF ["Subject [DBMS]"] []) /\
  scores_data (mkDF ["Subject [DBMS]"] []) = Ok [].
Proof.
  intros df cr.
  destruct (inverted_date_range_keeps_nothing df cr) as (H & _).
  - vm_compute. reflexivity.
  - split; [reflexivity|].
    apply (H (mkDF ["Subject [DBMS]"] [])). left. reflexivity.
Defined.

(** X2 (empty selection).  When one of the four accepted lists is empty,
    which is how the widgets of app7.py start, no row passes the mask: the
    filtered table is empty and no subject is reported. *)
Theorem empty_selection_keeps_nothing :
  forall (df : DataFrame) (cr : Criteria),
    selected_year_semesters cr = [] \/ selected_genders cr = [] \/
    selected_branches cr = [] \/ selected_section_types cr = [] ->
    rows (filtered_df df cr) = [] /\
    rows (filtered_df_fillna df cr) = [] /\
    calculate_average_scores (filtered_df_fillna df cr) = ([], []) /\
    scores_data (filtered_df_fillna df cr) = Ok [].
Proof.
  intros df cr Hsel.
  assert (H1 : rows (filtered_df df cr) = []).
  { simpl. apply filter_none. intros r _. apply not_true_is_false.
    rewrite mask_true_iff. intros (_ & Hy & Hg & Hb & Hs).
    destruct Hsel as [E|[E|[E|E]]]; rewrite E in *; contradiction. }
  assert (H2 : rows (filtered_df_fillna df cr) = []).
  { simpl. apply filter_none. intros r _. apply not_true_is_false.
    rewrite mask_fillna_true_iff. intros (_ & Hy & Hg & Hb & Hs).
    destruct Hsel as [E|[E|[E|E]]]; rewrite E in *; contradiction. }
  destruct (no_rows_no_subjects _ H2) as [A2 B2].
  repeat split; assumption.
Qed.

Lemma empty_selection_witness :
  let df := mkDF ["Subject [DBMS]"]
              [mkRow (Some (timestamp_of 2024 1 5 9 0 0 0)) (Str "II-I")
                 (Str "Male") (Str "CSE") (Str "A") [Str "Good"]] in
  let cr := mkCriteria (days_from_civil 2024 1 1) (days_from_civil 2024 1 10)
              [] [] [] [] in
  rows (filtered_df_fillna df cr) = [] /\
  scores_data (filtered_df_fillna df cr) = Ok [].
Proof.
  intros df cr.
  destruct (empty_selection_keeps_nothing df cr) as (_ & H2 & _ & H4).
  - left. reflexivity.
  - split; assumption.
Defined.

(** X3 (widening).  Moving [from] earlier, [to] later, or adding accepted
    values never removes a row, as long as the conversion of the wider
    dates still raises nothing: every row of the filtered table is a row of
    the filtered table under the wider criteria, and every row that passes
    a mask passes it under the wider criteria. *)
Theorem widening_criteria_keeps_rows :
  forall (df : DataFrame) (cr cr' : Criteria) (d d' : DataFrame),
    from_date cr' <= from_date cr ->
    to_date cr <= to_date cr' ->
    incl (selected_year_semesters cr) (selected_year_semesters cr') ->
    incl (selected_genders cr) (selected_genders cr') ->
    incl (selected_branches cr) (selected_branches cr') ->
    incl (selected_section_types cr) (selected_section_types cr') ->
    (main_filtered_df df cr = Some d /\ main_filtered_df df cr' = Some d' \/
     main_filtered_df_fillna df cr = Some d /\
     main_filtered_df_fillna df cr' = Some d') ->
    incl (rows d) (rows d') /\
    (forall r, mask cr r = true -> mask cr' r = true) /\
    (forall r, mask_fillna cr r = true -> mask_fillna cr' r = true).
Proof.
  intros df cr cr' d d' Hf Ht Hy Hg Hb Hs Hd.
  assert (Hlo : from_bound cr' <= from_bound cr).
  { unfold from_bound, to_datetime, ns_per_day, ns_per_second. lia. }
  assert (Hhi : to_bound cr <= to_bound cr').
  { unfold to_bound, to_datetime, Timedelta_days, Timedelta_seconds,
      ns_per_day, ns_per_second. lia. }
  assert (Hm : forall r, mask cr r = true -> mask cr' r = true).
  { intros r. rewrite !mask_true_iff. intros ([t [Et Hr]] & H1 & H2 & H3 & H4).
    split; [exists t; split; [assumption | lia]|].
    repeat split; [apply Hy | apply Hg | apply Hb | apply Hs]; assumption. }
  assert (Hm' : forall r, mask_fillna cr r = true -> mask_fillna cr' r = true).
  { intros r. rewrite !mask_fillna_true_iff.
    intros ([t [Et Hr]] & H1 & H2 & H3 & H4).
    split; [exists t; split; [assumption | lia]|].
    repeat split; [apply Hy | apply Hg | apply Hb | apply Hs]; assumption. }
  split; [|split; assumption].
  unfold main_filtered_df, main_filtered_df_fillna in Hd.
  destruct (date_bounds cr); [|destruct Hd as [[? _]|[? _]]; discriminate].
  destruct (date_bounds cr'); [|destruct Hd as [[_ ?]|[_ ?]]; discriminate].
  destruct Hd as [[[= <-] [= <-]]|[[= <-] [= <-]]]; intros r; simpl;
    rewrite !filter_In; intros [Hin Hr]; split; auto.
Qed.

Lemma widening_criteria_witness :
  let r := mkRow (Some (timestamp_of 2024 1 5 9 0 0 0)) (Str "II-I")
             (Str "Male") (Str "CSE") (Str "A") [Str "Good"] in
  let df := mkDF ["Subject [DBMS]"] [r] in
  incl (rows df) (rows df) /\
  mask (mkCriteria (days_from_civil 2024 1 1) (days_from_civil 2024 1 31)
          [Str "II-I"; Str "III-I"] [Str "Male"; Str "Female"]
          [Str "CSE"] [Str "A"; Str "B"]) r = true.
Proof.
  intros r df.
  destruct (widening_criteria_keeps_rows df
           (mkCriteria (days_from_civil 2024 1 5) (days_from_civil 2024 1 5)
              [Str "II-I"] [Str "Male"] [Str "CSE"] [Str "A"])
           (mkCriteria (days_from_civil 2024 1 1) (days_from_civil 2024 1 31)
              [Str "II-I"; Str "III-I"] [Str "Male"; Str "Female"]
              [Str "CSE"] [Str "A"; Str "B"]) df df) as (H1 & H2 & _).
  - vm_compute. congruence.
  - vm_compute. congruence.
  - intros x [<-|[]]. left. reflexivity.
  - intros x [<-|[]]. left. reflexivity.
  - intros x [<-|[]]. left. reflexivity.
  - intros x [<-|[]]. left. reflexivity.
  - left. split; reflexivity.
  - split; [exact H1 | apply H2; reflexivity].
Defined.

(** ** The default dates *)

Lemma fold_min_le (l : list Z) :
  forall a, fold_left Z.min l a <= a /\
            forall x, In x l -> fold_left Z.min l a <= x.
Proof.
  induction l as [|y l IH]; intros a; simpl.
  - split; [lia | contradiction].
  - destruct (IH (Z.min a y)) as [H1 H2]. split; [lia|].
    intros x [<-|Hx]; [lia | now apply H2].
Qed.

Lemma fold_max_ge (l : list Z) :
  forall a, a <= fold_left Z.max l a /\
            forall x, In x l -> x <= fold_left Z.max l a.
Proof.
  induction l as [|y l IH]; intros a; simpl.
  - split; [lia | contradiction].
  - destruct (IH (Z.max a y)) as [H1 H2]. split; [lia|].
    intros x [<-|Hx]; [lia | now apply H2].
Qed.

Lemma series_min_le (l : list Z) (m x : Z) :
  series_min l = Some m -> In x l -> m <= x.
Proof.
  destruct l as [|a l]; [discriminate|]. simpl. intros [= <-].
  destruct (fold_min_le l a) as [H1 H2]. intros [<-|Hx]; [assumption | now apply H2].
Qed.

Lemma series_max_ge (l : list Z) (m x : Z) :
  series_max l = Some m -> In x l -> x <= m.
Proof.
  destruct l as [|a l]; [discriminate|]. simpl. intros [= <-].
  destruct (fold_max_ge l a) as [H1 H2]. intros [<-|Hx]; [assumption | now apply H2].
Qed.

Lemma in_valid_timestamps (df : DataFrame) (r : Row) (t : Z) :
  In r (rows df) -> Timestamp r = Some t -> In t (valid_timestamps df).
Proof.
  intros Hr Ht. unfold valid_timestamps. apply in_flat_map.
  exists r. split; [assumption|]. rewrite Ht. now left.
Qed.

(** X4 (default dates).  With the dates the widgets start from, the day of
    the earliest and of the latest time stamp of the table, and when the
    conversion of these two dates raises nothing, every row passes the
    lower bound, and every row stamped on a whole second passes the upper
    bound; a row that fails it lies in the last second of the latest day.
    A row without time stamp passes no mask.  The conversion does raise
    when the latest time stamp lies on 2262-04-11, the last day that pandas
    can hold. *)
Theorem default_dates_keep_whole_seconds :
  forall (df : DataFrame) (cr : Criteria) (lo hi : Z),
    min_date df = Some lo -> max_date df = Some hi ->
    from_date cr = lo -> to_date cr = hi ->
    (forall bounds, date_bounds cr = Some bounds ->
       forall r t,
        In r (rows df) -> Timestamp r = Some t ->
        ts_ge (Timestamp r) (fst bounds) = true /\
        (t mod ns_per_second = 0 -> ts_le (Timestamp r) (snd bounds) = true) /\
        (ts_le (Timestamp r) (snd bounds) = false ->
         to_datetime hi + Timedelta_days 1 - Timedelta_seconds 1 < t
         < to_datetime hi + Timedelta_days 1)) /\
    (forall r, Timestamp r = None -> mask cr r = false /\ mask_fillna cr r = false) /\
    (hi = days_from_civil 2262 4 11 ->
     main_filtered_df df cr = None /\ main_filtered_df_fillna df cr = None).
Proof.
  intros df cr lo hi Hmin Hmax Hf Ht. split; [|split].
  - intros [blo bhi] Hbounds r t Hr Hts.
    apply date_bounds_Some in Hbounds as [-> ->]. cbn [fst snd].
    pose proof (in_valid_timestamps df r t Hr Hts) as Hin.
    unfold min_date, max_date in Hmin, Hmax.
    destruct (series_min (valid_timestamps df)) as [m|] eqn:Em; [|discriminate].
    destruct (series_max (valid_timestamps df)) as [M|] eqn:EM; [|discriminate].
    injection Hmin as <-. injection Hmax as <-.
    pose proof (series_min_le _ m t Em Hin) as Hm.
    pose proof (series_max_ge _ M t EM Hin) as HM.
    assert (Hd : 0 < ns_per_day) by (unfold ns_per_day, ns_per_second; lia).
    pose proof (Z.mul_div_le m ns_per_day Hd) as Hlo.
    pose proof (Z.mul_succ_div_gt M ns_per_day Hd) as Hhi.
    rewrite Hts. unfold ts_ge, ts_le, from_bound, to_bound, to_datetime,
      Timedelta_days, Timedelta_seconds, date_of in *.
    rewrite Hf, Ht. split; [|split].
    + apply Z.leb_le. lia.
    + intros Hsec. apply Z.leb_le.
      apply Z.div_exact in Hsec; [|unfold ns_per_second; lia].
      unfold ns_per_day, ns_per_second in *. lia.
    + intros Hle. apply Z.leb_gt in Hle.
      unfold ns_per_day, ns_per_second in *. lia.
  - intros r Hnone. unfold mask, mask_fillna. now rewrite Hnone.
  - intros Ehi. destruct (date_bounds_spec cr) as [_ Hout].
    unfold main_filtered_df, main_filtered_df_fillna. rewrite Hout; [now split|].
    rewrite Ht, Ehi.
    change (days_from_civil 2262 4 11) with 106751.
    change (days_from_civil 2262 4 10) with 106750. lia.
Qed.

Lemma default_dates_witness :
  let r1 := mkRow (Some (timestamp_of 2024 1 5 9 0 0 0)) (Str "II-I")
              (Str "Male") (Str "CSE") (Str "A") [Str "Good"] in
  let r2 := mkRow (Some (timestamp_of 2024 1 7 23 59 59 0)) (Str "II-I")
              (Str "Male") (Str "CSE") (Str "A") [Str "Poor"] in
  let df := mkDF ["Subject [DBMS]"] [r1; r2] in
  let cr := mkCriteria (days_from_civil 2024 1 5) (days_from_civil 2024 1 7)
              [Str "II-I"] [Str "Male"] [Str "CSE"] [Str "A"] in
  date_bounds cr = Some (from_bound cr, to_bound cr) /\
  ts_ge (Timestamp r2) (from_bound cr) = true /\
  ts_le (Timestamp r2) (to_bound cr) = true.
Proof.
  intros r1 r2 df cr.
  destruct (default_dates_keep_whole_seconds df cr
              (days_from_civil 2024 1 5) (days_from_civil 2024 1 7)
              eq_refl eq_refl eq_refl eq_refl) as [H _].
  destruct (H (from_bound cr, to_bound cr) eq_refl
              r2 (timestamp_of 2024 1 7 23 59 59 0)) as (H1 & H2 & _).
  - right. left. reflexivity.
  - reflexivity.
  - split; [reflexivity|]. split; [exact H1 | apply H2; reflexivity].
Defined.

(** ** The options of the widgets *)

Lemma cell_eqb_false (a b : cell) : cell_eqb a b = false <-> a <> b.
Proof.
  rewrite <- cell_eqb_eq. destruct (cell_eqb a b); split; congruence.
Qed.

Lemma in_dropna_cells (v : cell) (cells : list cell) :
  In v (dropna_cells cells) <-> In v cells /\ v <> NaN.
Proof.
  unfold dropna_cells. rewrite filter_In.
  destruct v; simpl; split; intros [H1 H2]; split; try assumption;
    try discriminate; try reflexivity; congruence.
Qed.

Lemma in_unique (v : cell) (cells : list cell) :
  In v (unique cells) <-> In v cells.
Proof.
  induction cells as [|c rest IH]; simpl; [tauto|].
  rewrite filter_In, IH, negb_true_iff, cell_eqb_false.
  destruct (cell_eqb c v) eqn:E.
  - apply cell_eqb_eq in E. subst. tauto.
  - apply cell_eqb_false in E. tauto.
Qed.

Lemma NoDup_unique (cells : list cell) : NoDup (unique cells).
Proof.
  induction cells as [|c rest IH]; simpl; [constructor|].
  constructor.
  - rewrite filter_In, negb_true_iff, cell_eqb_false. tauto.
  - now apply NoDup_filter.
Qed.

Lemma insert_cell_perm (x : cell) (l : list cell) :
  Permutation (insert_cell x l) (x :: l).
Proof.
  induction l as [|y l IH]; simpl; [reflexivity|].
  destruct (cell_ltb y x); [|reflexivity].
  rewrite IH. apply perm_swap.
Qed.

Lemma sort_cells_perm (l : list cell) :
  Permutation (fold_right insert_cell [] l) l.
Proof.
  induction l as [|x l IH]; simpl; [reflexivity|].
  rewrite insert_cell_perm. now constructor.
Qed.

Lemma string_ltb_asym (s t : string) :
  UString.ltb s t = true -> UString.ltb t s = false.
Proof.
  unfold UString.ltb. rewrite (string_compare_antisym s t).
  destruct (UString.compare t s); simpl; congruence.
Qed.

Lemma cell_ltb_asym (a b : cell) : cell_ltb a b = true -> cell_ltb b a = false.
Proof.
  destruct a as [|s|x], b as [|t|y]; simpl; try reflexivity; try discriminate.
  - apply string_ltb_asym.
  - intros H. apply Z.ltb_lt in H. apply Z.ltb_ge. lia.
Qed.

Lemma insert_cell_sorted (x : cell) (l : list cell) :
  Sorted cell_le l -> Sorted cell_le (insert_cell x l).
Proof.
  induction 1 as [|y l Hs IH Hy]; simpl.
  - repeat constructor.
  - destruct (cell_ltb y x) eqn:E.
    + constructor; [assumption|].
      destruct l as [|z l]; simpl.
      * constructor. unfold cell_le. now apply cell_ltb_asym.
      * destruct (cell_ltb z x); constructor.
        -- now inversion Hy.
        -- unfold cell_le. now apply cell_ltb_asym.
    + constructor; [now constructor|]. constructor. exact E.
Qed.

Lemma sort_cells_sorted (l : list cell) :
  Sorted cell_le (fold_right insert_cell [] l).
Proof.
  induction l as [|x l IH]; simpl; [constructor | now apply insert_cell_sorted].
Qed.

Lemma sorted_Some (values result : list cell) :
  sorted values = Some result ->
  Permutation values result /\ Sorted cell_le result.
Proof.
  unfold sorted. destruct values as [|x rest].
  - intros [= <-]. split; constructor.
  - destruct (forallb (comparable x) rest); [|discriminate].
    intros [= <-]. split.
    + symmetry. apply (sort_cells_perm (x :: rest)).
    + apply (sort_cells_sorted (x :: rest)).
Qed.

(** Sorting raises exactly on a list that holds text and a number. *)
Lemma sorted_None (values : list cell) :
  ~ In NaN values ->
  (sorted values = None <->
   exists s z, In (Str s) values /\ In (Num z) values).
Proof.
  intros Hnan. unfold sorted. destruct values as [|x rest].
  - split; [discriminate | intros (s & z & [] & _)].
  - destruct (forallb (comparable x) rest) eqn:E.
    + split; [discriminate|]. intros (s & z & Hs & Hz). exfalso.
      rewrite forallb_forall in E.
      destruct Hs as [Ex|Hs], Hz as [Ez|Hz].
      * congruence.
      * subst x. specialize (E _ Hz). discriminate.
      * subst x. specialize (E _ Hs). discriminate.
      * pose proof (E _ Hs) as E1. pose proof (E _ Hz) as E2.
        destruct x; discriminate.
    + split; [intros _ | reflexivity].
      assert (Hex : exists y, In y rest /\ comparable x y = false).
      { clear Hnan. induction rest as [|y rest IH]; [discriminate|].
        simpl in E. destruct (comparable x y) eqn:Ey.
        - destruct (IH E) as [w [Hw Hc]]. exists w. split; [now right | assumption].
        - exists y. split; [now left | assumption]. }
      destruct Hex as [y [Hy Hc]].
      destruct x as [|s|z].
      * exfalso. apply Hnan. now left.
      * destruct y as [|t|z]; try discriminate.
        -- exfalso. apply Hnan. now right.
        -- exists s, z. split; [now left | now right].
      * destruct y as [|t|w]; try discriminate.
        -- exfalso. apply Hnan. now right.
        -- exists t, z. split; [now right | now left].
Qed.

Lemma unique_dropna_no_NaN (column : list cell) :
  ~ In NaN (unique (dropna_cells column)).
Proof. rewrite in_unique, in_dropna_cells. tauto. Qed.

Lemma get_sorted_unique_values_sorted (column : list cell) :
  get_sorted_unique_values column = sorted (unique (dropna_cells column)).
Proof.
  unfold get_sorted_unique_values.
  now destruct (unique (dropna_cells column)).
Qed.

Lemma get_sorted_unique_values_In (column options : list cell) :
  get_sorted_unique_values column = Some options ->
  forall v, In v options <-> In v column /\ v <> NaN.
Proof.
  rewrite get_sorted_unique_values_sorted. intros H v.
  apply sorted_Some in H as [Hp _].
  rewrite <- in_dropna_cells, <- (in_unique v (dropna_cells column)). split.
  - apply (Permutation_in v (Permutation_sym Hp)).
  - apply (Permutation_in v Hp).
Qed.

Lemma get_sorted_unique_values_nan_In (column options : list cell) :
  get_sorted_unique_values_nan column = Some options ->
  forall v, In v options <-> (In v column /\ v <> NaN) \/ v = Str "nan".
Proof.
  unfold get_sorted_unique_values_nan. intros H v.
  apply sorted_Some in H as [Hp _].
  assert (Hiff : In v options <-> In v (unique (dropna_cells column) ++ [Str "nan"])).
  { split; [apply (Permutation_in v (Permutation_sym Hp))
           | apply (Permutation_in v Hp)]. }
  rewrite Hiff, in_app_iff, in_unique, in_dropna_cells. simpl.
  intuition congruence.
Qed.

(** X5 ([get_sorted_unique_values], app4.py..app6.py).  The options of a
    column are its values that are not missing, each once, in ascending
    order; the function raises exactly when the column holds both text and
    a number, and it returns the empty list for a column without values. *)
Theorem get_sorted_unique_values_spec :
  forall column : list cell,
    (forall options,
        get_sorted_unique_values column = Some options ->
        NoDup options /\ Sorted cell_le options /\
        forall v, In v options <-> In v column /\ v <> NaN) /\
    (get_sorted_unique_values column = None <->
     exists s z, In (Str s) column /\ In (Num z) column) /\
    ((forall v, In v column -> v = NaN) ->
     get_sorted_unique_values column = Some []).
Proof.
  intros column.
  assert (E : get_sorted_unique_values column
              = sorted (unique (dropna_cells column))).
  { unfold get_sorted_unique_values.
    now destruct (unique (dropna_cells column)). }
  split; [|split].
  - intros options H. rewrite E in H. apply sorted_Some in H as [Hp Hs].
    split; [|split].
    + apply (Permutation_NoDup Hp), NoDup_unique.
    + assumption.
    + intros v. rewrite <- in_dropna_cells, <- (in_unique v (dropna_cells column)). split.
      * apply (Permutation_in v (Permutation_sym Hp)).
      * apply (Permutation_in v Hp).
  - rewrite E, (sorted_None _ (unique_dropna_no_NaN column)).
    split; intros (s & z & Hs & Hz); exists s, z;
      rewrite !in_unique, !in_dropna_cells in *; intuition discriminate.
  - intros Hall. rewrite E.
    replace (unique (dropna_cells column)) with (@nil cell); [reflexivity|].
    destruct (unique (dropna_cells column)) as [|v l] eqn:Eu; [reflexivity|].
    exfalso. assert (Hin : In v (unique (dropna_cells column)))
      by (rewrite Eu; now left).
    rewrite in_unique, in_dropna_cells in Hin.
    destruct Hin as [Hin Hne]. now apply Hne, Hall.
Qed.

Lemma get_sorted_unique_values_witness :
  get_sorted_unique_values [NaN; NaN] = Some [] /\
  (In (Str "Male") [Str "Female"; Str "Male"] <->
   In (Str "Male") [Str "Male"; NaN; Str "Female"; Str "Male"] /\ Str "Male" <> NaN).
Proof.
  split.
  - apply (get_sorted_unique_values_spec [NaN; NaN]).
    intros v [<-|[<-|[]]]; reflexivity.
  - destruct (get_sorted_unique_values_spec
                [Str "Male"; NaN; Str "Female"; Str "Male"]) as [H _].
    apply (H [Str "Female"; Str "Male"]). reflexivity.
Defined.

(** X6 ([get_sorted_unique_values], app7.py).  With "nan" appended, the
    options are the values that are not missing and "nan", in ascending
    order; the function raises exactly when the column holds a number. *)
Theorem get_sorted_unique_values_nan_spec :
  forall column : list cell,
    (forall options,
        get_sorted_unique_values_nan column = Some options ->
        Sorted cell_le options /\
        forall v, In v options <-> (In v column /\ v <> NaN) \/ v = Str "nan") /\
    (get_sorted_unique_values_nan column = None <->
     exists z, In (Num z) column).
Proof.
  intros column. unfold get_sorted_unique_values_nan.
  assert (Hnan : ~ In NaN (unique (dropna_cells column) ++ [Str "nan"])).
  { rewrite in_app_iff. intros [H|[H|[]]]; [|discriminate].
    now apply (unique_dropna_no_NaN column). }
  split.
  - intros options H. apply sorted_Some in H as [Hp Hs].
    split; [assumption|].
    intros v.
    assert (Hiff : In v options <-> In v (unique (dropna_cells column) ++ [Str "nan"])).
    { split; [apply (Permutation_in v (Permutation_sym Hp))
             | apply (Permutation_in v Hp)]. }
    rewrite Hiff, in_app_iff, in_unique, in_dropna_cells. simpl.
    intuition congruence.
  - rewrite (sorted_None _ Hnan). split.
    + intros (s & z & _ & Hz). exists z.
      rewrite in_app_iff, in_unique, in_dropna_cells in Hz.
      destruct Hz as [[Hz _]|[Hz|[]]]; [assumption | discriminate].
    + intros [z Hz]. exists "nan", z. rewrite !in_app_iff. split.
      * right. now left.
      * left. rewrite in_unique, in_dropna_cells. split; [assumption | discriminate].
Qed.

Lemma get_sorted_unique_values_nan_witness :
  In (Str "nan") [Str "Female"; Str "Male"; Str "nan"] <->
  (In (Str "nan") [Str "Male"; NaN; Str "Female"] /\ Str "nan" <> NaN)
  \/ Str "nan" = Str "nan".
Proof.
  destruct (get_sorted_unique_values_nan_spec [Str "Male"; NaN; Str "Female"])
    as [H _].
  apply (H [Str "Female"; Str "Male"; Str "nan"]). reflexivity.
Defined.

(** ** The filter under the default selection *)

Lemma fillna_not_NaN (c : cell) : c <> NaN -> fillna (Str "nan") c = c.
Proof. destruct c; [congruence | reflexivity | reflexivity]. Qed.

(** X7 (everything selected, app4.py..app6.py).  With every option of the
    four widgets selected, which is how they start, a row of the table
    passes the mask iff its time stamp is in range and none of its four
    categorical cells is missing: a respondent with a missing cell is
    dropped although no filter was touched. *)
Theorem all_options_selected_drops_missing :
  forall (df : DataFrame) (cr : Criteria),
    get_sorted_unique_values (map Year_Semester (rows df))
    = Some (selected_year_semesters cr) ->
    get_sorted_unique_values (map Gender (rows df))
    = Some (selected_genders cr) ->
    get_sorted_unique_values (map Branch (rows df))
    = Some (selected_branches cr) ->
    get_sorted_unique_values (map Section_Type (rows df))
    = Some (selected_section_types cr) ->
    forall r,
      In r (rows df) ->
      (mask cr r = true <->
       (exists t, Timestamp r = Some t /\ from_bound cr <= t <= to_bound cr) /\
       Year_Semester r <> NaN /\ Gender r <> NaN /\
       Branch r <> NaN /\ Section_Type r <> NaN).
Proof.
  intros df cr Hy Hg Hb Hs r Hr.
  pose proof (get_sorted_unique_values_In _ _ Hy) as Iy.
  pose proof (get_sorted_unique_values_In _ _ Hg) as Ig.
  pose proof (get_sorted_unique_values_In _ _ Hb) as Ib.
  pose proof (get_sorted_unique_values_In _ _ Hs) as Is.
  rewrite mask_true_iff, Iy, Ig, Ib, Is.
  pose proof (in_map Year_Semester _ _ Hr).
  pose proof (in_map Gender _ _ Hr).
  pose proof (in_map Branch _ _ Hr).
  pose proof (in_map Section_Type _ _ Hr).
  tauto.
Qed.

Lemma all_options_selected_witness :
  let r1 := mkRow (Some (timestamp_of 2024 1 5 9 0 0 0)) (Str "II-I")
              (Str "Male") (Str "CSE") (Str "A") [Str "Good"] in
  let r2 := mkRow (Some (timestamp_of 2024 1 5 10 0 0 0)) (Str "II-I")
              NaN (Str "CSE") (Str "A") [Str "Poor"] in
  let df := mkDF ["Subject [DBMS]"] [r1; r2] in
  let cr := mkCriteria (days_from_civil 2024 1 5) (days_from_civil 2024 1 5)
              [Str "II-I"] [Str "Male"] [Str "CSE"] [Str "A"] in
  mask cr r2 = false.
Proof.
  intros r1 r2 df cr. apply not_true_is_false. intros H.
  apply (all_options_selected_drops_missing df cr
           eq_refl eq_refl eq_refl eq_refl r2) in H.
  - destruct H as (_ & _ & Hg & _). now apply Hg.
  - right. left. reflexivity.
Defined.

(** X8 (everything selected, app7.py).  With every option selected, "nan"
    included, a row of the table passes the mask of app7.py iff its time
    stamp is in range: no respondent is dropped for a missing cell. *)
Theorem all_options_selected_nan_keeps_missing :
  forall (df : DataFrame) (cr : Criteria),
    get_sorted_unique_values_nan (map Year_Semester (rows df))
    = Some (selected_year_semesters cr) ->
    get_sorted_unique_values_nan (map Gender (rows df))
    = Some (selected_genders cr) ->
    get_sorted_unique_values_nan (map Branch (rows df))
    = Some (selected_branches cr) ->
    get_sorted_unique_values_nan (map Section_Type (rows df))
    = Some (selected_section_types cr) ->
    forall r,
      In r (rows df) ->
      (mask_fillna cr r = true <->
       exists t, Timestamp r = Some t /\ from_bound cr <= t <= to_bound cr).
Proof.
  intros df cr Hy Hg Hb Hs r Hr.
  pose proof (get_sorted_unique_values_nan_In _ _ Hy) as Iy.
  pose proof (get_sorted_unique_values_nan_In _ _ Hg) as Ig.
  pose proof (get_sorted_unique_values_nan_In _ _ Hb) as Ib.
  pose proof (get_sorted_unique_values_nan_In _ _ Hs) as Is.
  rewrite mask_fillna_true_iff, Iy, Ig, Ib, Is.
  assert (Hfill : forall (f : Row -> cell),
             (In (fillna (Str "nan") (f r)) (map f (rows df))
              /\ fillna (Str "nan") (f r) <> NaN)
             \/ fillna (Str "nan") (f r) = Str "nan").
  { intros f. pose proof (in_map f _ _ Hr) as Hin.
    unfold fillna. destruct (f r); simpl.
    - now right.
    - left. split; [assumption | discriminate].
    - left. split; [assumption | discriminate]. }
  pose proof (Hfill Year_Semester). pose proof (Hfill Gender).
  pose proof (Hfill Branch). pose proof (Hfill Section_Type).
  tauto.
Qed.

Lemma all_options_selected_nan_witness :
  let r1 := mkRow (Some (timestamp_of 2024 1 5 9 0 0 0)) (Str "II-I")
              (Str "Male") (Str "CSE") (Str "A") [Str "Good"] in
  let r2 := mkRow (Some (timestamp_of 2024 1 5 10 0 0 0)) (Str "II-I")
              NaN (Str "CSE") (Str "A") [Str "Poor"] in
  let df := mkDF ["Subject [DBMS]"] [r1; r2] in
  let cr := mkCriteria (days_from_civil 2024 1 5) (days_from_civil 2024 1 5)
              [Str "II-I"; Str "nan"] [Str "Male"; Str "nan"]
              [Str "CSE"; Str "nan"] [Str "A"; Str "nan"] in
  mask_fillna cr r2 = true.
Proof.
  intros r1 r2 df cr.
  apply (all_options_selected_nan_keeps_missing df cr
           eq_refl eq_refl eq_refl eq_refl r2).
  - right. left. reflexivity.
  - exists (timestamp_of 2024 1 5 10 0 0 0). split; [reflexivity|].
    vm_compute. split; congruence.
Defined.

(** ** Bounds of the response table *)

Lemma Z_le_of_Q_half (a z : Z) :
  (inject_Z a <= inject_Z z + (1 # 2))%Q -> a <= z.
Proof.
  intros H. destruct (Z_le_gt_dec a z) as [Hle|Hgt]; [assumption|].
  exfalso. assert (Hz : z + 1 <= a) by lia.
  rewrite Zle_Qle, inject_Z_plus in Hz. change (inject_Z 1) with 1%Q in Hz. lra.
Qed.

Lemma response_rate_between (n total c : Z) :
  0 < total -> 0 <= n <= total * c ->
  (0 <= response_rate n total <= inject_Z c)%Q.
Proof.
  intros Hpos [Hn Hc].
  assert (HposQ : (0 < inject_Z total)%Q).
  { change 0%Q with (inject_Z 0). now rewrite <- Zlt_Qlt. }
  unfold response_rate. split.
  - apply Qle_shift_div_l; [assumption|]. rewrite Qmult_0_l.
    change 0%Q with (inject_Z 0). now rewrite <- Zle_Qle.
  - apply Qle_shift_div_r; [assumption|].
    rewrite <- inject_Z_mult, <- Zle_Qle. lia.
Qed.

Lemma round_nonneg (x : Q) (ndigits : nat) :
  (0 <= x)%Q -> (0 <= round x ndigits)%Q.
Proof.
  intros Hx. unfold round. apply double_nonneg.
  assert (HP : 0 < 10 ^ Z.of_nat ndigits) by (apply Z.pow_pos_nonneg; lia).
  assert (HPQ : (0 < inject_Z (10 ^ Z.of_nat ndigits))%Q).
  { change 0%Q with (inject_Z 0). now rewrite <- Zlt_Qlt. }
  apply Qle_shift_div_l; [assumption|]. rewrite Qmult_0_l.
  change 0%Q with (inject_Z 0). rewrite <- Zle_Qle.
  apply round_half_even_ge. change (inject_Z 0) with 0%Q.
  apply Qmult_le_0_compat; [assumption | now apply Qlt_le_weak].
Qed.

(** X9 (response table).  [scores_data] never raises, neither a KeyError
    nor a division by zero, also on a table without rows.  It has one row
    per subject of [subject_scores], in that order and each subject once;
    the rounded average of a row lies in [1, 5], its number of responses is
    the length of the subject's score list, at least 1 and at most the
    number of rows times the number of columns of the subject, and its
    response rate is not negative and at most 100 times that number of
    columns (as long as this bound is a float, below 2^53). *)
Theorem scores_data_rows :
  forall df : DataFrame,
    exists table,
      scores_data df = Ok table /\
      map Subject table = keys (snd (calculate_average_scores df)) /\
      NoDup (map Subject table) /\
      Forall (fun row =>
                (1 <= Average_Score row <= 5)%Q /\
                option_map len
                  (dict_get (Subject row) (snd (calculate_average_scores df)))
                = Some (Number_of_Responses row) /\
                1 <= Number_of_Responses row
                  <= len_df df * columns_of_subject df (Subject row) /\
                (0 <= Response_Rate_pct row)%Q /\
                (100 * columns_of_subject df (Subject row) < 2 ^ 53 ->
                 (Response_Rate_pct row
                  <= inject_Z (100 * columns_of_subject df (Subject row)))%Q))
             table.
Proof.
  intros df. eexists. split; [apply scores_data_eq|].
  rewrite calculate_average_scores_eq. cbn [snd].
  destruct (accumulated_scores_kept df) as [Hnd Hk].
  assert (Hsub : map Subject
                   (map (fun kv =>
                           mkScoreRow (fst kv) (round (double (average (snd kv))) 2) (len (snd kv))
                             (round (double (double (response_rate (len (snd kv)) (len_df df)) * 100)) 1))
                        (accumulated_scores df))
                 = keys (accumulated_scores df)).
  { unfold keys. rewrite map_map. reflexivity. }
  split; [exact Hsub|]. split; [now rewrite Hsub|].
  apply Forall_forall. intros row Hrow.
  apply in_map_iff in Hrow as [[k scores] [<- Hin]].
  cbn [fst snd Subject Average_Score Number_of_Responses Response_Rate_pct].
  rewrite Forall_forall in Hk. destruct (Hk _ Hin) as [Hne Hr]. cbn [snd] in Hne, Hr.
  pose proof (In_dict_get k scores _ Hnd Hin) as Hget.
  destruct (reported_has_rows df k scores Hget) as (Epool & _ & Hpos).
  pose proof (len_spec_pooled_scores df k) as Hlen. rewrite <- Epool in Hlen.
  pose proof (len_pos scores Hne) as Hlp.
  destruct (response_rate_between (len scores) (len_df df)
              (columns_of_subject df k) Hpos) as [R1 R2]; [lia|].
  split; [|split; [|split; [|split]]].
  - apply (round_between _ 2 1 5); [lia | reflexivity|].
    apply (double_between _ 1 5); [lia | reflexivity|].
    now apply average_bounds.
  - now rewrite Hget.
  - lia.
  - apply round_nonneg, double_nonneg.
    apply Qmult_le_0_compat; [now apply double_nonneg | discriminate].
  - intros Hc.
    assert (Hc0 : 0 <= columns_of_subject df k).
    { unfold columns_of_subject. apply Nat2Z.is_nonneg. }
    refine (proj2 (round_between _ 1 0 (100 * columns_of_subject df k) _ _ _));
      [reflexivity | assumption|].
    apply double_between; [reflexivity | assumption|].
    destruct (double_between (response_rate (len scores) (len_df df))
                0 (columns_of_subject df k)) as [D1 D2];
      [reflexivity | lia | now split|].
    rewrite inject_Z_mult. change (inject_Z 0) with 0%Q in *.
    change (inject_Z 100) with 100%Q. split; lra.
Qed.

(** X21 (floats in the response table).  The two rounded columns are
    rounded as Python rounds floats.  37 answers "Poor" and 3 answers "Fair"
    have the mean 1.075, whose float lies below 1.075: the table shows 1.07.
    23 answers in 80 rows are 28.75 per cent, but the float product
    23 / 80 * 100 lies below 28.75: the table shows 28.7. *)
Theorem response_table_rounds_floats :
  let row_of := fun c => mkRow (Some 0) (Str "II-I") (Str "Male") (Str "CSE")
                           (Str "A") [c] in
  let df1 := mkDF ["Subject [DBMS]"]
               (map row_of (repeat (Str "Poor") 37 ++ repeat (Str "Fair") 3)) in
  let df2 := mkDF ["Subject [DBMS]"]
               (map row_of (repeat (Str "Good") 23 ++ repeat NaN 57)) in
  (exists scores row,
      calculate_average_scores df1 = ([("DBMS", average scores)], [("DBMS", scores)]) /\
      (average scores == 1.075)%Q /\
      scores_data df1 = Ok [row] /\
      Average_Score row = double 1.07 /\
      ~ (Average_Score row == double 1.08)%Q /\
      (Response_Rate_pct row == 100)%Q) /\
  (exists scores row,
      calculate_average_scores df2 = ([("DBMS", average scores)], [("DBMS", scores)]) /\
      (response_rate (len scores) (len_df df2) * 100 == 28.75)%Q /\
      scores_data df2 = Ok [row] /\
      (Average_Score row == 3)%Q /\
      Response_Rate_pct row = double 28.7 /\
      ~ (Response_Rate_pct row == double 28.8)%Q).
Proof.
  cbv zeta. split.
  - exists (repeat 1 37 ++ repeat 2 3). eexists.
    split; [vm_compute; reflexivity|]. split; [vm_compute; reflexivity|].
    split; [vm_compute; reflexivity|]. cbn [Average_Score Response_Rate_pct].
    split; [vm_compute; reflexivity|].
    split; [intros H; vm_compute in H; discriminate | vm_compute; reflexivity].
  - exists (repeat 3 23). eexists.
    split; [vm_compute; reflexivity|]. split; [vm_compute; reflexivity|].
    split; [vm_compute; reflexivity|]. cbn [Average_Score Response_Rate_pct].
    split; [vm_compute; reflexivity|].
    split; [vm_compute; reflexivity|].
    intros H; vm_compute in H; discriminate.
Qed.

(** ** The sorted response table *)

Lemma insert_desc_perm (x : ScoreRow) (l : list ScoreRow) :
  Permutation (insert_desc x l) (x :: l).
Proof.
  induction l as [|y l IH]; simpl; [reflexivity|].
  destruct (Qle_bool (Average_Score y) (Average_Score x)); [reflexivity|].
  rewrite IH. apply perm_swap.
Qed.

Lemma sort_values_desc_perm (table : list ScoreRow) :
  Permutation table (sort_values_desc table).
Proof.
  unfold sort_values_desc. induction table as [|x l IH]; simpl; [reflexivity|].
  rewrite insert_desc_perm. now constructor.
Qed.

Lemma insert_desc_sorted (x : ScoreRow) (l : list ScoreRow) :
  StronglySorted (fun a b => (Average_Score b <= Average_Score a)%Q) l ->
  StronglySorted (fun a b => (Average_Score b <= Average_Score a)%Q)
                 (insert_desc x l).
Proof.
  induction 1 as [|y l Hs IH Hy]; simpl.
  - constructor; constructor.
  - destruct (Qle_bool (Average_Score y) (Average_Score x)) eqn:E.
    + apply Qle_bool_iff in E. constructor; [now constructor|].
      constructor; [assumption|].
      eapply Forall_impl; [|exact Hy]. simpl. intros a Ha.
      now apply (Qle_trans _ (Average_Score y)).
    + constructor; [assumption|].
      apply (Permutation_Forall (Permutation_sym (insert_desc_perm x l))).
      constructor; [|assumption].
      destruct (Qlt_le_dec (Average_Score x) (Average_Score y)) as [Hlt|Hle].
      * now apply Qlt_le_weak.
      * apply Qle_bool_iff in Hle. congruence.
Qed.

Lemma sort_values_desc_sorted (table : list ScoreRow) :
  sorted_desc_of table (sort_values_desc table).
Proof.
  split; [apply sort_values_desc_perm|].
  unfold sort_values_desc. induction table as [|x l IH]; simpl;
    [constructor | now apply insert_desc_sorted].
Qed.

(** The rows of the response table are the subjects of the column loop,
    and each has its list of scores. *)
Lemma scores_data_subjects (df : DataFrame) :
  exists table,
    scores_data df = Ok table /\
    map Subject table = keys (accumulated_scores df) /\
    forall row,
      In row table ->
      exists scores,
        dict_get (Subject row) (accumulated_scores df) = Some scores /\
        scores <> [].
Proof.
  eexists. split; [apply scores_data_eq|].
  destruct (accumulated_scores_kept df) as [Hnd Hk].
  split.
  - unfold keys. rewrite map_map. reflexivity.
  - intros row Hrow. apply in_map_iff in Hrow as [[k scores] [<- Hin]].
    cbn [Subject fst]. exists scores.
    split; [now apply In_dict_get|].
    rewrite Forall_forall in Hk. now destruct (Hk _ Hin).
Qed.

(** X10 (sorted table).  [scores_df] never raises and is the response table
    in descending order of the rounded average.  In every such order, the
    subjects are the subjects of [subject_scores], each once, so the loops
    that look up [subject_scores[subject]] for the rows of the table meet no
    missing key and no empty list; and when a subject is reported the table
    has a first row, the subject selected by default, and no row has a
    higher average. *)
Theorem scores_df_sorted :
  forall df : DataFrame,
    exists table,
      scores_data df = Ok table /\
      scores_df df = Ok (sort_values_desc table) /\
      sorted_desc_of table (sort_values_desc table) /\
      forall sorted_table,
        sorted_desc_of table sorted_table ->
        NoDup (map Subject sorted_table) /\
        (forall row,
            In row sorted_table ->
            exists scores,
              dict_get (Subject row) (snd (calculate_average_scores df))
              = Some scores /\ scores <> []) /\
        (fst (calculate_average_scores df) <> [] ->
         exists first rest,
           sorted_table = first :: rest /\
           forall row, In row sorted_table ->
                       (Average_Score row <= Average_Score first)%Q).
Proof.
  intros df. destruct (scores_data_subjects df) as (table & Hok & Hsub & Hrows).
  assert (Hnd : NoDup (map Subject table)).
  { rewrite Hsub. apply accumulated_scores_kept. }
  rewrite calculate_average_scores_eq. cbn [fst snd].
  exists table. split; [assumption|].
  split; [unfold scores_df; now rewrite Hok|].
  split; [apply sort_values_desc_sorted|].
  intros st [Hperm Hsorted]. split; [|split].
  - apply (Permutation_NoDup (Permutation_map Subject Hperm) Hnd).
  - intros row Hrow.
    apply (Permutation_in _ (Permutation_sym Hperm)) in Hrow.
    now apply Hrows.
  - intros Hne.
    destruct st as [|first rest].
    + exfalso. apply Permutation_sym, Permutation_nil in Hperm. subst table.
      destruct (accumulated_scores df); [now apply Hne | discriminate].
    + exists first, rest. split; [reflexivity|].
      inversion Hsorted as [|? ? _ Hall]; subst.
      intros row [<-|Hin]; [apply Qle_refl|].
      rewrite Forall_forall in Hall. now apply Hall.
Qed.

(** ** The distribution of a reported subject *)

Lemma strictly_sorted_length (l : list Z) :
  forall lo hi,
    StronglySorted Z.lt l -> Forall (fun x => lo <= x <= hi) l ->
    lo <= hi + 1 -> Z.of_nat (List.length l) <= hi - lo + 1.
Proof.
  induction l as [|x l IH]; intros lo hi Hs Hb Hlo; simpl List.length; [lia|].
  inversion Hs as [|? ? Hs' Hx]; subst. inversion Hb as [|? ? Hbx Hb']; subst.
  rewrite Nat2Z.inj_succ.
  assert (Hl : Z.of_nat (List.length l) <= hi - (x + 1) + 1).
  { apply IH; [assumption| |lia].
    rewrite Forall_forall in *. intros y Hy.
    specialize (Hx y Hy). specialize (Hb' y Hy). lia. }
  lia.
Qed.

Lemma sorted_map_fst (l : list (Z * Z)) :
  StronglySorted (fun a b => fst a < fst b) l -> StronglySorted Z.lt (map fst l).
Proof.
  induction 1 as [|x l Hs IH Hx]; simpl; constructor; [assumption|].
  rewrite Forall_forall in *. intros y Hy.
  apply in_map_iff in Hy as [a [<- Ha]]. now apply Hx.
Qed.

Lemma qsum_scaled (L : Q) (l : list (Z * Z)) :
  (qsum (map (fun kc => inject_Z (snd kc) / L * 100) l)
   == inject_Z (sum (map snd l)) / L * 100)%Q.
Proof.
  unfold qsum, sum. induction l as [|[k c] l IH]; simpl.
  - unfold Qdiv. ring.
  - rewrite IH, inject_Z_plus. unfold Qdiv. ring.
Qed.

Lemma qsum_near {A : Type} (f g : A -> Q) (eps : Q) (l : list A) :
  (forall a, In a l -> f a - eps <= g a <= f a + eps)%Q ->
  (qsum (map f l) - eps * inject_Z (Z.of_nat (List.length l))
   <= qsum (map g l)
   <= qsum (map f l) + eps * inject_Z (Z.of_nat (List.length l)))%Q.
Proof.
  unfold qsum. induction l as [|a l IH]; intros H.
  - simpl. change (inject_Z 0) with 0%Q. lra.
  - cbn [map fold_right List.length]. rewrite Nat2Z.inj_succ.
    unfold Z.succ. rewrite inject_Z_plus. change (inject_Z 1) with 1%Q.
    destruct (H a (or_introl eq_refl)) as [H1 H2].
    destruct IH as [I1 I2]; [intros b Hb; apply H; now right|].
    split; lra.
Qed.

(** X11 (distribution of a reported subject).  For the score list of every
    subject the aggregation reports, the distribution has between one and
    five rows, all on scores of the scale 1..5; the counts add up to the
    number of responses of the subject; every percentage lies between 0
    and 100, and the percentages add up to 100 within 0.05 per row, up to
    10^-11 per row for the error of the float operations.  Counts are
    taken to be below 2^53, so that they are floats. *)
Theorem distribution_of_reported_subject :
  forall (df : DataFrame) (k : string) (scores : list Z),
    dict_get k (snd (calculate_average_scores df)) = Some scores ->
    len scores <= 2 ^ 53 ->
    let d := dist_df scores in
    (1 <= List.length d <= 5)%nat /\
    Forall (fun e => 1 <= Score e <= 5) d /\
    sum (map Count d) = len scores /\
    Forall (fun e => (0 <= Percentage e <= 100)%Q) d /\
    (100 - ((1 # 20) + (1 # 10 ^ 11)) * inject_Z (Z.of_nat (List.length d))
     <= qsum (map Percentage d)
     <= 100 + ((1 # 20) + (1 # 10 ^ 11)) * inject_Z (Z.of_nat (List.length d)))%Q.
Proof.
  intros df k scores Hget H53 d.
  rewrite calculate_average_scores_eq in Hget. cbn [snd] in Hget.
  destruct (accumulated_scores_kept df) as [_ Hk].
  rewrite Forall_forall in Hk.
  destruct (Hk _ (dict_get_In _ _ _ Hget)) as [Hne Hr]. cbn [snd] in Hne, Hr.
  destruct (sort_index_value_counts scores) as (Hs & Hc & Hkeys & Hsum).
  cbv zeta in Hs, Hc, Hkeys, Hsum.
  set (sd := sort_index (value_counts scores)) in *.
  assert (Ed : d = map (fun kc =>
                          mkDistRow (fst kc) (snd kc)
                            (np_round (double (double (inject_Z (snd kc) / inject_Z (len scores)) * 100)) 1))
                       sd) by apply dist_df_eq.
  assert (Hlen : List.length d = List.length sd) by (rewrite Ed; apply length_map).
  assert (Hrange : Forall (fun x => 1 <= x <= 5) (map fst sd)).
  { apply Forall_forall. intros x Hx. apply Hkeys in Hx.
    rewrite Forall_forall in Hr. now apply Hr. }
  assert (Hnear : forall kc, In kc sd ->
            let exact := (100 * inject_Z (snd kc) / inject_Z (len scores))%Q in
            let p := np_round (double (double (inject_Z (snd kc) / inject_Z (len scores)) * 100)) 1 in
            (exact - (1 # 20) - (1 # 10 ^ 11) <= p <= exact + (1 # 20) + (1 # 10 ^ 11))%Q /\
            (0 <= p <= 100)%Q).
  { intros [k' c] Hin. cbn [snd]. destruct (Hc k' c Hin) as [-> Hks].
    pose proof (proj2 (occurrences_pos k' scores) Hks) as Hpos.
    pose proof (occurrences_le_len k' scores) as Hle.
    destruct (percentage_near (occurrences k' scores) (len scores))
      as (_ & _ & _ & Hp & Hb); [lia | assumption|].
    split; assumption. }
  split; [|split; [|split; [|split]]].
  - rewrite Hlen. split.
    + destruct scores as [|v rest]; [congruence|].
      assert (Hv : In v (map fst sd)) by (apply Hkeys; now left).
      destruct sd; [contradiction | simpl; lia].
    + pose proof (strictly_sorted_length (map fst sd) 1 5
                    (sorted_map_fst sd Hs) Hrange) as H.
      rewrite length_map in H. lia.
  - rewrite Ed. apply Forall_forall. intros e He.
    apply in_map_iff in He as [kc [<- Hin]]. cbn [Score].
    rewrite Forall_forall in Hrange. apply Hrange. now apply in_map.
  - rewrite Ed, map_map. cbn [Count]. exact Hsum.
  - rewrite Ed. apply Forall_forall. intros e He.
    apply in_map_iff in He as [kc [<- Hin]]. cbn [Percentage].
    now destruct (Hnear kc Hin).
  - rewrite Hlen, Ed, map_map. cbn [Percentage].
    pose proof (qsum_near
                  (fun kc : Z * Z => inject_Z (snd kc) / inject_Z (len scores) * 100)%Q
                  (fun kc : Z * Z =>
                     np_round (double (double (inject_Z (snd kc) / inject_Z (len scores)) * 100)) 1)
                  ((1 # 20) + (1 # 10 ^ 11)) sd) as Hq.
    destruct Hq as [N1 N2].
    { intros a Ha. destruct (Hnear a Ha) as [[P1 P2] _].
      assert (E : (100 * inject_Z (snd a) / inject_Z (len scores)
                   == inject_Z (snd a) / inject_Z (len scores) * 100)%Q)
        by (unfold Qdiv; ring).
      rewrite E in P1, P2. split; lra. }
    assert (Ehund : (qsum (map (fun kc : Z * Z =>
                                  inject_Z (snd kc) / inject_Z (len scores) * 100) sd)
                     == 100)%Q).
    { rewrite qsum_scaled, Hsum. field.
      pose proof (len_pos scores Hne) as Hp.
      intros E. unfold Qeq in E. simpl in E. lia. }
    rewrite Ehund in N1, N2. split; assumption.
Qed.

Lemma distribution_of_reported_subject_witness :
  let df :=
    mkDF ["Subject [DBMS]"]
      [ mkRow (Some 0) (Str "II-I") (Str "Male") (Str "CSE") (Str "A") [Str "Excellent"];
        mkRow (Some 1) (Str "II-I") (Str "Female") (Str "CSE") (Str "A") [Str "Good"];
        mkRow (Some 2) (Str "II-I") (Str "Male") (Str "ECE") (Str "B") [Str "Good"] ] in
  let scores := [5; 3; 3] in
  sum (map Count (dist_df scores)) = len scores.
Proof.
  intros df scores.
  destruct (distribution_of_reported_subject df "DBMS" scores eq_refl)
    as (_ & _ & H & _).
  - vm_compute. congruence.
  - exact H.
Defined.

(** ** Filtering before aggregating *)

Lemma valid_scores_of_filter_length (f : Row -> cell) (p : Row -> bool)
  (l : list Row) :
  (List.length (valid_scores_of (map f (filter p l)))
   <= List.length (valid_scores_of (map f l)))%nat.
Proof.
  induction l as [|r l IH]; [apply Nat.le_refl|].
  simpl filter. destruct (p r); cbn [map]; rewrite ?valid_scores_of_cons;
    destruct (convert_rating_to_score (f r)); simpl; lia.
Qed.

Lemma len_contribution_loc (df : DataFrame) (p : Row -> bool) (k : string)
  (ic : nat * string) :
  len (contribution (loc df p) k ic) <= len (contribution df k ic).
Proof.
  unfold contribution.
  destruct (subject_of_column (snd ic)) as [k'|]; [|reflexivity].
  destruct (UString.eqb k' k); [|reflexivity].
  unfold len, column_values, loc. cbn [rows].
  pose proof (valid_scores_of_filter_length
                (fun r => nth (fst ic) (answers r) NaN) p (rows df)).
  lia.
Qed.

Lemma len_spec_pooled_scores_loc (df : DataFrame) (p : Row -> bool) (k : string) :
  len (spec_pooled_scores (loc df p) k) <= len (spec_pooled_scores df k).
Proof.
  unfold spec_pooled_scores. cbn [loc columns].
  induction (enumerate (columns df)) as [|ic l IH]; simpl; [lia|].
  rewrite !len_app. pose proof (len_contribution_loc df p k ic). lia.
Qed.

(** X12 (filtering never adds).  Whatever the mask, a subject reported for
    the filtered table is reported for the whole table too, with at least
    as many scores; the filtered table has the same rating columns. *)
Theorem filtering_never_adds_scores :
  forall (df : DataFrame) (p : Row -> bool) (k : string) (scores : list Z),
    dict_get k (snd (calculate_average_scores (loc df p))) = Some scores ->
    exists all_scores,
      dict_get k (snd (calculate_average_scores df)) = Some all_scores /\
      len scores <= len all_scores /\
      rating_columns (loc df p) = rating_columns df /\
      len_df (loc df p) <= len_df df.
Proof.
  intros df p k scores. rewrite !calculate_average_scores_eq. cbn [snd].
  intros Hget. destruct (reported_has_rows _ k scores Hget) as (-> & Hne & _).
  pose proof (len_spec_pooled_scores_loc df p k) as Hlen.
  pose proof (len_pos _ Hne) as Hpos.
  rewrite accumulated_scores_get.
  destruct (spec_pooled_scores df k) as [|z l] eqn:E.
  - unfold len in Hlen at 2. simpl in Hlen. lia.
  - exists (z :: l). split; [reflexivity|]. split; [assumption|].
    split; [reflexivity|].
    unfold len_df, loc. cbn [rows].
    pose proof (filter_length_le p (rows df)). lia.
Qed.

Lemma filtering_never_adds_scores_witness :
  let df :=
    mkDF ["Subject [DBMS]"]
      [ mkRow (Some 0) (Str "II-I") (Str "Male") (Str "CSE") (Str "A") [Str "Excellent"];
        mkRow (Some 1) (Str "II-I") (Str "Female") (Str "CSE") (Str "A") [Str "Good"] ] in
  let p := fun r => cell_eqb (Gender r) (Str "Female") in
  exists all_scores,
    dict_get "DBMS" (snd (calculate_average_scores df)) = Some all_scores /\
    len [3] <= len all_scores.
Proof.
  intros df p.
  destruct (filtering_never_adds_scores df p "DBMS" [3] eq_refl)
    as (all_scores & H1 & H2 & _).
  exists all_scores. split; assumption.
Defined.

(** ** Subject keys are canonical *)

Lemma upper_join (ws : list string) :
  PyStr.upper (PyStr.join " " ws) = PyStr.join " " (map PyStr.upper ws).
Proof.
  induction ws as [|w ws IH]; [reflexivity|].
  destruct ws as [|w' ws']; [reflexivity|].
  change (PyStr.join " " (w :: w' :: ws'))
    with (w ++ " " ++ PyStr.join " " (w' :: ws'))%str.
  rewrite !upper_app, IH. reflexivity.
Qed.

Lemma upper_words (s : string) : Forall word (map PyStr.upper (PyStr.split s)).
Proof.
  apply Forall_forall. intros w Hw. apply in_map_iff in Hw as [v [<- Hv]].
  apply word_upper. revert v Hv. apply Forall_forall, split_words.
Qed.

(** X13 (canonical keys).  Two labels get the same subject key exactly when
    they have the same words up to letter case.  A key is in upper case and
    is its own words joined by single spaces (so it has no leading,
    trailing or repeated whitespace); it is empty exactly for a label
    without any character that is not whitespace. *)
Theorem subject_key_canonical :
  forall a b : string,
    (normalize_subject_name (Some a) = normalize_subject_name (Some b) <->
     map PyStr.upper (PyStr.split a) = map PyStr.upper (PyStr.split b)) /\
    (forall key,
        normalize_subject_name (Some a) = Some key ->
        PyStr.upper key = key /\
        PyStr.join " " (PyStr.split key) = key /\
        (key = EmptyString <-> blank a = true)).
Proof.
  intros a b. split.
  - rewrite !normalize_words. split.
    + intros [= H].
      rewrite <- (split_join _ (upper_words a)), <- (split_join _ (upper_words b)).
      now rewrite H.
    + now intros ->.
  - intros key. rewrite normalize_words. intros [= <-].
    split; [|split].
    + rewrite upper_join, map_map. f_equal. apply map_ext. intros w. apply upper_idem.
    + now rewrite (split_join _ (upper_words a)).
    + pose proof (truthy_join _ (upper_words a)) as Ht.
      rewrite <- split_nil_blank.
      destruct (PyStr.split a) as [|w ws] eqn:E; simpl in *.
      * tauto.
      * split; [|discriminate]. intros E0. rewrite E0 in Ht. discriminate.
Qed.

(** ** The header tests across the revisions *)

Lemma convert_rating_to_score_get_eq (rating : cell) :
  convert_rating_to_score_get rating = convert_rating_to_score rating.
Proof. now destruct rating. Qed.

Lemma normalize_subject_name_str_words (s : string) :
  normalize_subject_name_str s
  = PyStr.join " " (map PyStr.upper (PyStr.split s)).
Proof.
  unfold normalize_subject_name_str. now rewrite split_upper, split_strip.
Qed.

Lemma contains_char (c : char) (s : string) :
  PyStr.contains (String c EmptyString) s = negb (free_of c s).
Proof.
  induction s as [|x s IH]; [reflexivity|].
  cbn [PyStr.contains PyStr.startswith free_of].
  rewrite IH, (char_eqb_sym c x).
  destruct (UChar.eqb x c); [reflexivity|]. simpl.
  now destruct (free_of c s).
Qed.

(** X14 (app4.py, app5.py, app6.py).  The extra test [']' in column] of
    app4.py changes nothing: app4.py and app5.py treat every header alike,
    and neither raises.  app6.py treats a header as app5.py does, except
    that it passes over a header whose bracketed text is blank, which
    app4.py and app5.py keep as the subject with the empty name. *)
Theorem header_tests_app4_app5_app6 :
  forall column : string,
    classify_app4 column = classify_app5 column /\
    (exists outcome,
        classify_app5 column = Some outcome /\
        subject_of_column column =
        match outcome with
        | Some name => if PyStr.truthy name then Some name else None
        | None => None
        end) /\
    (forall pre raw post,
        column = (pre ++ "[" ++ raw ++ "]" ++ post)%str ->
        free_of "[" pre = true -> free_of "]" pre = true ->
        free_of "]" raw = true ->
        PyStr.contains "Subjects [" column || PyStr.contains "Subject [" column = true ->
        raw <> EmptyString -> blank raw = true ->
        classify_app5 column = Some (Some EmptyString) /\
        subject_of_column column = None).
Proof.
  intros column. split; [|split].
  - unfold classify_app4, classify_app5.
    destruct (PyStr.contains "Subjects [" column || PyStr.contains "Subject [" column);
      [|reflexivity].
    cbn [andb]. rewrite contains_char.
    destruct (free_of "]" column) eqn:Ef; [|reflexivity]. cbn [negb].
    apply find_free in Ef. rewrite Ef.
    destruct (Z.gtb_spec (PyStr.find "[" column + 1) 0); [|reflexivity].
    destruct (Z.gtb_spec (-1) (PyStr.find "[" column + 1)); [lia | reflexivity].
  - unfold classify_app5, subject_of_column, normalize_subject_name,
      normalize_subject_name_str.
    destruct (PyStr.contains "Subjects [" column || PyStr.contains "Subject [" column);
      [|now exists None].
    destruct ((PyStr.find "[" column + 1 >? 0)
              && (PyStr.find "]" column >? PyStr.find "[" column + 1));
      [|now exists None].
    eexists. split; reflexivity.
  - intros pre raw post Ec H1 H2 H3 Hc Hne Hb.
    pose proof (subject_of_column_decomposed pre raw post H1 H2 H3) as E6.
    destruct (brackets_of_decomposition pre raw post H1 H2 H3) as (E1 & E2 & E3).
    cbv zeta in E6, E1, E2, E3. rewrite <- Ec in E6, E1, E2, E3.
    split.
    + unfold classify_app5. rewrite Hc, E3, E1, E2.
      assert (Hl : (0 < UString.length raw)%nat)
        by (destruct raw; [congruence | simpl; lia]).
      destruct (Z.gtb_spec (Z.of_nat (UString.length pre) + 1) 0); [|lia].
      destruct (Z.gtb_spec
                  (Z.of_nat (UString.length pre) + 1
                   + Z.of_nat (UString.length raw))
                  (Z.of_nat (UString.length pre) + 1)); [|lia].
      cbn [andb]. do 2 f_equal. rewrite normalize_subject_name_str_words.
      apply split_nil_blank in Hb. now rewrite Hb.
    + rewrite E6, Hb. now rewrite andb_false_r.
Qed.

Lemma header_tests_witness :
  classify_app5 "Subject [  ]" = Some (Some EmptyString) /\
  subject_of_column "Subject [  ]" = None.
Proof.
  destruct (header_tests_app4_app5_app6 "Subject [  ]") as (_ & _ & H).
  apply (H "Subject " "  " ""); (reflexivity || discriminate).
Defined.

(** ** The loops of the earlier revisions *)

Section RevisionInvariants.

Variable convert : cell -> option Z.
Variable classify : string -> option (option string).
Hypothesis convert_range :
  forall c s, convert c = Some s -> 1 <= s <= 5.

Lemma valid_scores_by_range (cells : list cell) :
  Forall (fun s => 1 <= s <= 5) (valid_scores_by convert cells).
Proof.
  unfold valid_scores_by. induction cells as [|c l IH]; simpl; [constructor|].
  destruct (convert c) eqn:E; [|assumption].
  constructor; [now apply (convert_range c) | assumption].
Qed.

Lemma dict_extend_kept (k : string) (valid : list Z) (acc : dict (list Z)) :
  valid <> [] -> Forall (fun s => 1 <= s <= 5) valid ->
  NoDup (keys acc) -> Forall kept acc ->
  NoDup (keys (dict_extend k valid acc)) /\ Forall kept (dict_extend k valid acc).
Proof.
  intros Hne Hr Hnd Hk. unfold dict_extend.
  destruct (dict_get k acc) as [old|] eqn:Eold.
  - split; [now apply NoDup_keys_dict_set|].
    apply Forall_dict_set; [|assumption].
    apply dict_get_In in Eold.
    rewrite Forall_forall in Hk. destruct (Hk _ Eold) as [_ Hold].
    split; simpl.
    + destruct old; [assumption | discriminate].
    + apply Forall_app. now split.
  - split; [now apply NoDup_keys_dict_set|].
    apply Forall_dict_set; [|assumption].
    split; simpl; assumption.
Qed.

Lemma accumulate_by_kept (df : DataFrame) (acc : dict (list Z))
  (ic : nat * string) :
  NoDup (keys acc) -> Forall kept acc ->
  match accumulate_by convert classify df (Some acc) ic with
  | Some acc' => NoDup (keys acc') /\ Forall kept acc'
  | None => classify (snd ic) = None
  end.
Proof.
  intros Hnd Hk. unfold accumulate_by.
  destruct (classify (snd ic)) as [[name|]|]; [|now split|reflexivity].
  pose proof (valid_scores_by_range (column_values df (fst ic))) as Hr.
  destruct (valid_scores_by convert (column_values df (fst ic))) as [|z l];
    [now split|].
  apply dict_extend_kept; try assumption. discriminate.
Qed.

Lemma fold_accumulate_by_kept (df : DataFrame) (cols : list (nat * string)) :
  forall acc,
    NoDup (keys acc) -> Forall kept acc ->
    match fold_left (accumulate_by convert classify df) cols (Some acc) with
    | Some acc' => NoDup (keys acc') /\ Forall kept acc'
    | None => exists ic, In ic cols /\ classify (snd ic) = None
    end.
Proof.
  induction cols as [|ic cols IH]; intros acc Hnd Hk; [now split|].
  cbn [fold_left].
  pose proof (accumulate_by_kept df acc ic Hnd Hk) as Hstep.
  destruct (accumulate_by convert classify df (Some acc) ic) as [acc'|] eqn:E.
  - destruct Hstep as [H1 H2]. specialize (IH acc' H1 H2).
    destruct (fold_left (accumulate_by convert classify df) cols (Some acc'));
      [assumption|].
    destruct IH as [x [Hx Hc]]. exists x. split; [now right | assumption].
  - assert (Hnone : fold_left (accumulate_by convert classify df) cols None = None).
    { clear. induction cols as [|x cols IH]; [reflexivity | exact IH]. }
    rewrite Hnone. exists ic. split; [now left | assumption].
Qed.

(** The loops of a revision either raise at a header, or return two
    mappings with the same keys, each once, a list that is not empty and
    holds scores of the scale under each key, and its mean as the
    average. *)
Lemma calculate_average_scores_by_spec (df : DataFrame) :
  match calculate_average_scores_by convert classify df with
  | Some (average_scores, subject_scores) =>
      average_scores
      = map (fun kv => (fst kv, average (snd kv))) subject_scores /\
      NoDup (keys subject_scores) /\ Forall kept subject_scores
  | None => exists column, In column (columns df) /\ classify column = None
  end.
Proof.
  unfold calculate_average_scores_by.
  match goal with
  | |- match (match ?t with _ => _ end) with _ => _ end =>
      assert (H : match t with
                  | Some acc' => NoDup (keys acc') /\ Forall kept acc'
                  | None => exists ic, In ic (enumerate (columns df))
                                       /\ classify (snd ic) = None
                  end)
        by exact (fold_accumulate_by_kept df (enumerate (columns df)) []
                    (NoDup_nil _) (Forall_nil _));
      destruct t as [acc|]
  end.
  - destruct H as [Hnd Hk].
    rewrite fold_finish; try assumption; try reflexivity.
    + cbn [app]. now repeat split.
    + intros k _ [].
  - destruct H as [[i column] [Hin Hc]]. exists column. split; [|assumption].
    apply in_enumerate in Hin. now apply nth_error_In in Hin.
Qed.

End RevisionInvariants.

Lemma convert_rating_to_score_get_range (c : cell) (s : Z) :
  convert_rating_to_score_get c = Some s -> 1 <= s <= 5.
Proof.
  rewrite convert_rating_to_score_get_eq. apply convert_rating_to_score_range.
Qed.

(** ** [split], [endswith] and the name of app.py and app3.py *)

Lemma split_on_free (c : char) (s : string) :
  free_of c s = true -> split_on c s = [s].
Proof.
  induction s as [|x s IH]; simpl; [reflexivity|].
  intros H. apply andb_true_iff in H as [Hx Hs]. apply negb_true_iff in Hx.
  now rewrite Hx, IH.
Qed.

Lemma split_on_app (c : char) (pre rest : string) :
  free_of c pre = true ->
  split_on c (pre ++ String c rest)%str = pre :: split_on c rest.
Proof.
  induction pre as [|x pre IH]; simpl; intros H.
  - now rewrite char_eqb_refl.
  - apply andb_true_iff in H as [Hx Hs]. apply negb_true_iff in Hx.
    now rewrite Hx, IH.
Qed.

Lemma split_on_not_nil (c : char) (s : string) : split_on c s <> [].
Proof.
  induction s as [|x s IH]; simpl; [discriminate|].
  destruct (UChar.eqb x c); [discriminate|].
  destruct (split_on c s); [contradiction | discriminate].
Qed.

Lemma startswith_app (p s : string) :
  PyStr.startswith p s = true -> exists rest, s = (p ++ rest)%str.
Proof.
  revert s. induction p as [|a p IH]; intros s; simpl.
  - intros _. now exists s.
  - destruct s as [|b s]; [discriminate|].
    intros H. apply andb_true_iff in H as [Hab Hp].
    apply char_eqb_eq in Hab. subst b.
    destruct (IH s Hp) as [rest ->]. now exists rest.
Qed.

Lemma startswith_prefix (p rest : string) :
  PyStr.startswith p (p ++ rest)%str = true.
Proof.
  induction p as [|a p IH]; simpl; [reflexivity|].
  now rewrite char_eqb_refl, IH.
Qed.

Lemma startswith_contains (p s : string) :
  PyStr.startswith p s = true -> PyStr.contains p s = true.
Proof. intros H. destruct s; simpl in *; now rewrite H. Qed.

Lemma endswith_app (s p : string) : endswith p (s ++ p)%str = true.
Proof.
  unfold endswith. rewrite length_append.
  replace (UString.length s + UString.length p - UString.length p)%nat
    with (UString.length s) by lia.
  apply andb_true_iff. split; [apply Nat.leb_le; lia|].
  apply string_eqb_eq.
  rewrite substring_skip. rewrite <- (substring_take p EmptyString) at 3.
  f_equal. induction p as [|a p IH]; simpl; [reflexivity | now rewrite <- IH].
Qed.

(** After a prefix that ends in the first "[" of the header, the name of
    app.py and app3.py is found. *)
Lemma bracket_name_after_bracket (pre rest : string) :
  free_of "[" pre = true ->
  exists name, bracket_name (pre ++ String "[" rest)%str = Some name.
Proof.
  intros H. unfold bracket_name. rewrite split_on_app by assumption.
  pose proof (split_on_not_nil "[" rest) as Hne.
  destruct (split_on "[" rest) as [|part parts]; [contradiction|].
  cbn [nth_error].
  pose proof (split_on_not_nil "]" part) as Hne'.
  destruct (split_on "]" part) as [|name names]; [contradiction|].
  now exists name.
Qed.

Lemma classify_app3_never_raises (column : string) :
  classify_app3 column <> None.
Proof.
  unfold classify_app3.
  destruct (PyStr.startswith "Subjects [" column) eqn:E1.
  - apply startswith_app in E1 as [rest ->].
    destruct (bracket_name_after_bracket "Subjects " rest eq_refl) as [name Hn].
    change ("Subjects [" ++ rest)%str with ("Subjects " ++ String "[" rest)%str.
    rewrite Hn. destruct (_ && _); discriminate.
  - destruct (PyStr.startswith "Subject [" column) eqn:E2.
    + apply startswith_app in E2 as [rest ->].
      destruct (bracket_name_after_bracket "Subject " rest eq_refl) as [name Hn].
      change ("Subject [" ++ rest)%str with ("Subject " ++ String "[" rest)%str.
      rewrite Hn. destruct (_ && _); discriminate.
    + simpl. discriminate.
Qed.

Lemma well_aggregated_of_kept (subject_scores : dict (list Z)) :
  NoDup (keys subject_scores) -> Forall kept subject_scores ->
  well_aggregated
    (map (fun kv => (fst kv, average (snd kv))) subject_scores, subject_scores).
Proof.
  intros Hnd Hk. unfold well_aggregated. cbn [fst snd].
  split; [reflexivity|]. split; [unfold keys; now rewrite map_map|].
  split; [assumption|]. split; [assumption|].
  apply Forall_forall. intros ka Hin.
  apply in_map_iff in Hin as [kv [<- Hin]]. cbn [snd].
  rewrite Forall_forall in Hk. destruct (Hk kv Hin) as [Hne Hr].
  now apply average_bounds.
Qed.

Lemma classify_app5_never_raises (column : string) :
  classify_app5 column <> None.
Proof.
  unfold classify_app5.
  destruct (_ || _); [|discriminate]. destruct (_ && _); discriminate.
Qed.

Lemma classify_app4_never_raises (column : string) :
  classify_app4 column <> None.
Proof.
  unfold classify_app4.
  destruct (_ && _); [|discriminate]. destruct (_ && _); discriminate.
Qed.

Lemma revision_well_aggregated (classify : string -> option (option string))
  (df : DataFrame) :
  (forall column, classify column <> None) ->
  exists out,
    calculate_average_scores_by convert_rating_to_score_get classify df = Some out /\
    well_aggregated out.
Proof.
  intros Hc.
  pose proof (calculate_average_scores_by_spec convert_rating_to_score_get classify
                convert_rating_to_score_get_range df) as H.
  destruct (calculate_average_scores_by convert_rating_to_score_get classify df)
    as [[average_scores subject_scores]|].
  - destruct H as (-> & Hnd & Hk). eexists. split; [reflexivity|].
    now apply well_aggregated_of_kept.
  - destruct H as [column [_ Hnone]]. now apply Hc in Hnone.
Qed.

(** ** The single loop of app.py *)

Lemma dict_set_map {V W : Type} (f : V -> W) (k : string) (v : V) (d : dict V) :
  dict_set k (f v) (map (fun kv => (fst kv, f (snd kv))) d)
  = map (fun kv => (fst kv, f (snd kv))) (dict_set k v d).
Proof.
  induction d as [|[k0 v0] d IH]; simpl; [reflexivity|].
  destruct (UString.eqb k0 k); simpl; [reflexivity | now rewrite IH].
Qed.

Lemma classify_app_never_raises (column : string) : classify_app column <> None.
Proof.
  unfold classify_app.
  destruct (PyStr.startswith "Subjects [" column) eqn:E1; [|simpl; discriminate].
  apply startswith_app in E1 as [rest ->].
  destruct (bracket_name_after_bracket "Subjects " rest eq_refl) as [name Hn].
  change ("Subjects [" ++ rest)%str with ("Subjects " ++ String "[" rest)%str.
  rewrite Hn. destruct (_ && _); discriminate.
Qed.

(** One turn of the loop of app.py: it does not raise, keeps the two
    mappings in step, and replaces the list of a name by the scores of the
    column when the column has scores. *)
Lemma step_app_spec (df : DataFrame) (S : dict (list Z)) (ic : nat * string) :
  NoDup (keys S) -> Forall kept S ->
  exists S',
    step_app df (Some (map (fun kv => (fst kv, average (snd kv))) S, S)) ic
    = Some (map (fun kv => (fst kv, average (snd kv))) S', S') /\
    NoDup (keys S') /\ Forall kept S' /\
    forall k,
      dict_get k S' =
      match contribution_by convert_rating_to_score_get classify_app df k ic with
      | [] => dict_get k S
      | valid => Some valid
      end.
Proof.
  intros Hnd Hk. unfold step_app, contribution_by.
  pose proof (classify_app_never_raises (snd ic)) as Hc.
  unfold classify_app in *.
  destruct (PyStr.startswith "Subjects [" (snd ic) && endswith "]" (snd ic)).
  - destruct (bracket_name (snd ic)) as [name|]; [|congruence].
    pose proof (valid_scores_by_range convert_rating_to_score_get
                  convert_rating_to_score_get_range
                  (column_values df (fst ic))) as Hr.
    destruct (valid_scores_by convert_rating_to_score_get (column_values df (fst ic)))
      as [|z l] eqn:Ev.
    + exists S. repeat split; try assumption.
      intros k. now destruct (UString.eqb name k).
    + exists (dict_set name (z :: l) S).
      split; [now rewrite (dict_set_map average)|].
      split; [now apply NoDup_keys_dict_set|].
      split.
      * apply Forall_dict_set; [|assumption]. split; [discriminate | assumption].
      * intros k. rewrite dict_get_set. now destruct (UString.eqb name k).
  - exists S. repeat split; assumption.
Qed.

Lemma fold_step_app_spec (df : DataFrame) (cols : list (nat * string)) :
  forall S,
    NoDup (keys S) -> Forall kept S ->
    exists S',
      fold_left (step_app df) cols
        (Some (map (fun kv => (fst kv, average (snd kv))) S, S))
      = Some (map (fun kv => (fst kv, average (snd kv))) S', S') /\
      NoDup (keys S') /\ Forall kept S' /\
      forall k,
        dict_get k S' =
        fold_left
          (fun cur ic =>
             match contribution_by convert_rating_to_score_get classify_app df k ic with
             | [] => cur
             | valid => Some valid
             end)
          cols (dict_get k S).
Proof.
  induction cols as [|ic cols IH]; intros S Hnd Hk.
  - exists S. now repeat split.
  - destruct (step_app_spec df S ic Hnd Hk) as (S1 & E1 & Hnd1 & Hk1 & Hget1).
    destruct (IH S1 Hnd1 Hk1) as (S' & E' & Hnd' & Hk' & Hget').
    exists S'. cbn [fold_left]. rewrite E1.
    split; [assumption|]. split; [assumption|]. split; [assumption|].
    intros k. rewrite Hget', Hget1. reflexivity.
Qed.

(** X15 (no revision raises).  On every table, [calculate_average_scores]
    of app.py, app3.py, app4.py and app5.py returns: the index [1] of
    [column.split('[')] is never out of range under the [startswith] test.
    Each returns two mappings with the same keys, each once, under each key
    a list of scores of the scale that is not empty, and its mean, within
    [1, 5], as the average. *)
Theorem earlier_revisions_well_aggregated :
  forall df : DataFrame,
    (exists out, calculate_average_scores_app df = Some out /\ well_aggregated out) /\
    (exists out, calculate_average_scores_app3 df = Some out /\ well_aggregated out) /\
    (exists out, calculate_average_scores_app4 df = Some out /\ well_aggregated out) /\
    (exists out, calculate_average_scores_app5 df = Some out /\ well_aggregated out).
Proof.
  intros df. split; [|split; [|split]].
  - destruct (fold_step_app_spec df (enumerate (columns df)) []
                (NoDup_nil _) (Forall_nil _)) as (S' & E & Hnd & Hk & _).
    eexists. split; [exact E|]. now apply well_aggregated_of_kept.
  - apply revision_well_aggregated, classify_app3_never_raises.
  - apply revision_well_aggregated, classify_app4_never_raises.
  - apply revision_well_aggregated, classify_app5_never_raises.
Qed.

(** X16 (app.py replaces).  In app.py the scores under a name are those of
    the last column of that name that has scores: an earlier column of the
    same name is replaced, not pooled. *)
Theorem app_keeps_last_column :
  forall (df : DataFrame) (k : string),
    exists average_scores subject_scores,
      calculate_average_scores_app df = Some (average_scores, subject_scores) /\
      dict_get k subject_scores = last_scores df k /\
      dict_get k average_scores = option_map average (last_scores df k).
Proof.
  intros df k.
  destruct (fold_step_app_spec df (enumerate (columns df)) []
              (NoDup_nil _) (Forall_nil _)) as (S' & E & Hnd & Hk & Hget).
  do 2 eexists. split; [exact E|]. split.
  - apply Hget.
  - rewrite (dict_get_map average), Hget. reflexivity.
Qed.

(** ** Pooling in app3.py..app5.py *)

Section RevisionPooling.

Variable convert : cell -> option Z.
Variable classify : string -> option (option string).

Lemma accumulate_by_get (df : DataFrame) (k : string)
  (acc acc' : dict (list Z)) (ic : nat * string) :
  accumulate_by convert classify df (Some acc) ic = Some acc' ->
  dict_get k acc' =
  match dict_get k acc, contribution_by convert classify df k ic with
  | None, [] => None
  | None, l => Some l
  | Some old, l => Some (old ++ l)
  end.
Proof.
  unfold accumulate_by, contribution_by.
  destruct (classify (snd ic)) as [[name|]|]; [| |discriminate].
  - destruct (valid_scores_by convert (column_values df (fst ic))) as [|z l].
    + intros [= <-]. destruct (UString.eqb name k), (dict_get k acc);
        rewrite ?app_nil_r; reflexivity.
    + intros [= <-]. unfold dict_extend.
      destruct (dict_get name acc) as [old|] eqn:Eold;
        rewrite dict_get_set;
        destruct (string_eqb_spec name k) as [->|Hne];
        rewrite ?Eold; try reflexivity;
        destruct (dict_get k acc); rewrite ?app_nil_r; reflexivity.
  - intros [= <-]. destruct (dict_get k acc); rewrite ?app_nil_r; reflexivity.
Qed.

Lemma fold_accumulate_by_None (df : DataFrame) (cols : list (nat * string)) :
  fold_left (accumulate_by convert classify df) cols None = None.
Proof. induction cols as [|x cols IH]; [reflexivity | exact IH]. Qed.

Lemma fold_accumulate_by_get (df : DataFrame) (k : string)
  (cols : list (nat * string)) :
  forall acc acc',
    fold_left (accumulate_by convert classify df) cols (Some acc) = Some acc' ->
    dict_get k acc' =
    match dict_get k acc, flat_map (contribution_by convert classify df k) cols with
    | None, [] => None
    | None, l => Some l
    | Some old, l => Some (old ++ l)
    end.
Proof.
  induction cols as [|ic cols IH]; intros acc acc'.
  - simpl. intros [= <-]. destruct (dict_get k acc); rewrite ?app_nil_r; reflexivity.
  - cbn [fold_left flat_map].
    destruct (accumulate_by convert classify df (Some acc) ic) as [acc1|] eqn:E1.
    + intros H. rewrite (IH acc1 acc' H), (accumulate_by_get df k acc acc1 ic E1).
      destruct (dict_get k acc) as [old|];
        destruct (contribution_by convert classify df k ic) as [|z l];
        destruct (flat_map (contribution_by convert classify df k) cols) as [|z' l'];
        cbn [app]; rewrite ?app_nil_r, <- ?app_assoc; reflexivity.
    + rewrite fold_accumulate_by_None. discriminate.
Qed.

Lemma calculate_average_scores_by_get (df : DataFrame) (k : string)
  (out : dict Q * dict (list Z)) :
  (forall c s, convert c = Some s -> 1 <= s <= 5) ->
  calculate_average_scores_by convert classify df = Some out ->
  dict_get k (snd out) =
  match pooled_scores_by convert classify df k with
  | [] => None
  | pool => Some pool
  end /\
  dict_get k (fst out) =
  match pooled_scores_by convert classify df k with
  | [] => None
  | pool => Some (average pool)
  end.
Proof.
  intros Hrange. unfold calculate_average_scores_by, pooled_scores_by.
  match goal with
  | |- match ?t with _ => _ end = _ -> _ => destruct t as [acc|] eqn:E
  end; [|discriminate].
  intros [= <-].
  pose proof (fold_accumulate_by_kept convert classify Hrange df
                (enumerate (columns df)) [] (NoDup_nil _) (Forall_nil _)) as Hinv.
  pose proof (fold_accumulate_by_get df k (enumerate (columns df)) [] acc E) as Hget.
  cbn [dict_get] in Hget.
  assert (Hk : NoDup (keys acc) /\ Forall kept acc).
  { match type of Hinv with
    | match ?t with _ => _ end =>
        replace t with (Some acc) in Hinv by (symmetry; exact E)
    end. exact Hinv. }
  destruct Hk as [Hnd Hk].
  rewrite fold_finish; try assumption; try reflexivity; [|intros x _ []].
  cbn [app fst snd]. rewrite (dict_get_map average), Hget.
  split; [reflexivity|].
  now destruct (flat_map (contribution_by convert classify df k)
                  (enumerate (columns df))).
Qed.

End RevisionPooling.

(** X17 (pooling).  In app3.py, app4.py and app5.py the scores under a name
    are the scores of all columns of that name, column after column, and a
    name without any score has no entry; the average is the mean of that
    pool. *)
Theorem earlier_revisions_pool :
  forall (df : DataFrame) (k : string)
         (classify : string -> option (option string)),
    In classify [classify_app3; classify_app4; classify_app5] ->
    exists average_scores subject_scores,
      calculate_average_scores_by convert_rating_to_score_get classify df
      = Some (average_scores, subject_scores) /\
      dict_get k subject_scores =
      match pooled_scores_by convert_rating_to_score_get classify df k with
      | [] => None
      | pool => Some pool
      end /\
      dict_get k average_scores =
      match pooled_scores_by convert_rating_to_score_get classify df k with
      | [] => None
      | pool => Some (average pool)
      end.
Proof.
  intros df k classify Hin.
  assert (Hc : forall column, classify column <> None).
  { destruct Hin as [<-|[<-|[<-|[]]]].
    - apply classify_app3_never_raises.
    - apply classify_app4_never_raises.
    - apply classify_app5_never_raises. }
  destruct (revision_well_aggregated classify df Hc) as ([a s] & E & _).
  exists a, s. split; [exact E|].
  apply (calculate_average_scores_by_get convert_rating_to_score_get classify
           df k (a, s) convert_rating_to_score_get_range E).
Qed.

Lemma earlier_revisions_pool_witness :
  let df :=
    mkDF ["Subjects [A]"; "Subjects [A] x]"]
      [ mkRow (Some 0) (Str "II-I") (Str "Male") (Str "CSE") (Str "A")
          [Str "Excellent"; Str "Good"] ] in
  exists average_scores subject_scores,
    calculate_average_scores_app3 df = Some (average_scores, subject_scores) /\
    dict_get "A" subject_scores = Some [5; 3].
Proof.
  intros df.
  destruct (earlier_revisions_pool df "A" classify_app3)
    as (a & s & E & Hs & _).
  - left. reflexivity.
  - exists a, s. split; [exact E | exact Hs].
Defined.

(** ** app4.py, app5.py and app6.py on whole tables *)

Lemma fold_left_ext_in {A B : Type} (f g : A -> B -> A) (l : list B) :
  (forall a x, In x l -> f a x = g a x) ->
  forall a, fold_left f l a = fold_left g l a.
Proof.
  induction l as [|x l IH]; intros H a; [reflexivity|].
  cbn [fold_left]. rewrite (H a x) by now left.
  apply IH. intros b y Hy. apply H. now right.
Qed.

Lemma calculate_average_scores_by_ext
  (convert convert' : cell -> option Z)
  (classify classify' : string -> option (option string)) (df : DataFrame) :
  (forall c, convert c = convert' c) ->
  (forall column, In column (columns df) -> classify column = classify' column) ->
  calculate_average_scores_by convert classify df
  = calculate_average_scores_by convert' classify' df.
Proof.
  intros Hconv Hcl. unfold calculate_average_scores_by.
  rewrite (fold_left_ext_in (accumulate_by convert classify df)
             (accumulate_by convert' classify' df)); [reflexivity|].
  intros acc [i column] Hin. apply in_enumerate, nth_error_In in Hin.
  unfold accumulate_by. cbn [fst snd]. rewrite (Hcl column Hin).
  unfold valid_scores_by. now rewrite (map_ext _ _ Hconv).
Qed.

Lemma classify_app4_app5 (column : string) :
  classify_app4 column = classify_app5 column.
Proof.
  unfold classify_app4, classify_app5.
  destruct (PyStr.contains "Subjects [" column || PyStr.contains "Subject [" column);
    [|reflexivity].
  cbn [andb]. rewrite contains_char.
  destruct (free_of "]" column) eqn:Ef; [|reflexivity]. cbn [negb].
  apply find_free in Ef. rewrite Ef.
  destruct (Z.gtb_spec (PyStr.find "[" column + 1) 0); [|reflexivity].
  destruct (Z.gtb_spec (-1) (PyStr.find "[" column + 1)); [lia | reflexivity].
Qed.

Lemma classify_app5_app6 (column : string) :
  classify_app5 column <> Some (Some EmptyString) ->
  classify_app5 column = Some (subject_of_column column).
Proof.
  unfold classify_app5, subject_of_column, normalize_subject_name,
    normalize_subject_name_str.
  destruct (PyStr.contains "Subjects [" column || PyStr.contains "Subject [" column);
    [|reflexivity].
  destruct ((PyStr.find "[" column + 1 >? 0)
            && (PyStr.find "]" column >? PyStr.find "[" column + 1));
    [|reflexivity].
  intros Hne.
  destruct (PyStr.join " " _) as [|c name]; [congruence | reflexivity].
Qed.

Lemma app6_as_revision (df : DataFrame) :
  calculate_average_scores_by convert_rating_to_score
    (fun column => Some (subject_of_column column)) df
  = Some (calculate_average_scores df).
Proof.
  unfold calculate_average_scores_by, calculate_average_scores, accumulated_scores.
  assert (E : forall cols acc,
             fold_left (accumulate_by convert_rating_to_score
                          (fun column => Some (subject_of_column column)) df)
                       cols (Some acc)
             = Some (fold_left (accumulate df) cols acc)).
  { induction cols as [|[i column] cols IH]; intros acc; [reflexivity|].
    cbn [fold_left]. rewrite <- IH. f_equal.
    unfold accumulate_by, accumulate. cbn [fst snd].
    destruct (subject_of_column column); [|reflexivity].
    change (valid_scores_by convert_rating_to_score (column_values df i))
      with (valid_scores_of (column_values df i)).
    now destruct (valid_scores_of (column_values df i)). }
  now rewrite E.
Qed.

(** X18 (same results).  On every table app4.py and app5.py return the same
    mappings; and when no header of the table has a blank text between its
    brackets, app5.py returns what app6.py returns. *)
Theorem revisions_agree :
  forall df : DataFrame,
    calculate_average_scores_app4 df = calculate_average_scores_app5 df /\
    ((forall column,
         In column (columns df) ->
         classify_app5 column <> Some (Some EmptyString)) ->
     calculate_average_scores_app5 df = Some (calculate_average_scores df)).
Proof.
  intros df. split.
  - apply calculate_average_scores_by_ext; [reflexivity|].
    intros column _. apply classify_app4_app5.
  - intros H. rewrite <- app6_as_revision.
    apply calculate_average_scores_by_ext.
    + apply convert_rating_to_score_get_eq.
    + intros column Hin. now apply classify_app5_app6, H.
Qed.

Lemma revisions_agree_witness :
  let df :=
    mkDF ["Subject [DBMS]"; "Subjects [ dbms ]"; "Name"]
      [ mkRow (Some 0) (Str "II-I") (Str "Male") (Str "CSE") (Str "A")
          [Str "Excellent"; Str "Good"; Str "x"] ] in
  calculate_average_scores_app5 df = Some (calculate_average_scores df).
Proof.
  intros df. apply (revisions_agree df).
  intros column [<-|[<-|[<-|[]]]]; vm_compute; discriminate.
Defined.

(** ** app3.py against app6.py on a well-formed header *)

(** X19 (name and key).  For a header made of "Subject [" or "Subjects [",
    a text without brackets and a final "]", app.py (for "Subjects [") and
    app3.py take that text as the name, unchanged, also when it is empty or
    blank; app6.py takes its normalization as the key, and passes over the
    header when the text is blank. *)
Theorem well_formed_header_name_and_key :
  forall raw : string,
    free_of "[" raw = true -> free_of "]" raw = true ->
    classify_app ("Subjects [" ++ raw ++ "]")%str = Some (Some raw) /\
    classify_app ("Subject [" ++ raw ++ "]")%str = Some None /\
    classify_app3 ("Subjects [" ++ raw ++ "]")%str = Some (Some raw) /\
    classify_app3 ("Subject [" ++ raw ++ "]")%str = Some (Some raw) /\
    subject_of_column ("Subjects [" ++ raw ++ "]")%str
    = (if blank raw then None else normalize_subject_name (Some raw)) /\
    subject_of_column ("Subject [" ++ raw ++ "]")%str
    = (if blank raw then None else normalize_subject_name (Some raw)).
Proof.
  intros raw H1 H2.
  assert (Hname : forall pre,
             free_of "[" pre = true ->
             bracket_name (pre ++ "[" ++ raw ++ "]")%str = Some raw).
  { intros pre Hpre. unfold bracket_name.
    change (pre ++ "[" ++ raw ++ "]")%str
      with (pre ++ String "[" (raw ++ "]"))%str.
    rewrite split_on_app by assumption.
    rewrite (split_on_free "[" (raw ++ "]")%str)
      by (rewrite free_of_app, H1; reflexivity).
    cbn [nth_error].
    rewrite (split_on_app "]" raw EmptyString H2). reflexivity. }
  assert (Hend : forall pre,
             endswith "]" (pre ++ raw ++ "]")%str = true).
  { intros pre. rewrite <- append_assoc. apply endswith_app. }
  assert (Hkey : forall pre,
             free_of "[" pre = true -> free_of "]" pre = true ->
             PyStr.contains "Subjects [" (pre ++ "[" ++ raw ++ "]")
             || PyStr.contains "Subject [" (pre ++ "[" ++ raw ++ "]") = true ->
             subject_of_column (pre ++ "[" ++ raw ++ "]")%str
             = (if blank raw then None else normalize_subject_name (Some raw))).
  { intros pre Hp1 Hp2 Hc.
    pose proof (subject_of_column_decomposed pre raw EmptyString Hp1 Hp2 H2) as E.
    cbv zeta in E. change ("]" ++ "")%str with "]" in E.
    rewrite E, Hc. now destruct (blank raw). }
  split; [|split; [|split; [|split; [|split]]]].
  - unfold classify_app.
    rewrite (startswith_prefix "Subjects [" (raw ++ "]")), (Hend "Subjects [").
    change ("Subjects [" ++ raw ++ "]")%str
      with ("Subjects " ++ "[" ++ raw ++ "]")%str.
    now rewrite (Hname "Subjects " eq_refl).
  - reflexivity.
  - unfold classify_app3.
    rewrite (startswith_prefix "Subjects [" (raw ++ "]")), (Hend "Subjects [").
    change ("Subjects [" ++ raw ++ "]")%str
      with ("Subjects " ++ "[" ++ raw ++ "]")%str.
    now rewrite (Hname "Subjects " eq_refl).
  - unfold classify_app3.
    rewrite (startswith_prefix "Subject [" (raw ++ "]")), (Hend "Subject [").
    rewrite orb_true_r.
    change ("Subject [" ++ raw ++ "]")%str
      with ("Subject " ++ "[" ++ raw ++ "]")%str.
    now rewrite (Hname "Subject " eq_refl).
  - apply (Hkey "Subjects " eq_refl eq_refl).
    change ("Subjects " ++ "[" ++ raw ++ "]")%str
      with ("Subjects [" ++ (raw ++ "]"))%str.
    now rewrite (startswith_contains _ _ (startswith_prefix "Subjects [" (raw ++ "]"))).
  - apply (Hkey "Subject " eq_refl eq_refl).
    change ("Subject " ++ "[" ++ raw ++ "]")%str
      with ("Subject [" ++ (raw ++ "]"))%str.
    rewrite (startswith_contains _ _ (startswith_prefix "Subject [" (raw ++ "]"))).
    apply orb_true_r.
Qed.

Lemma well_formed_header_witness :
  classify_app3 ("Subject [" ++ " dbms " ++ "]")%str = Some (Some " dbms ") /\
  subject_of_column ("Subject [" ++ " dbms " ++ "]")%str
  = (if blank " dbms " then None else normalize_subject_name (Some " dbms ")).
Proof.
  destruct (well_formed_header_name_and_key " dbms " eq_refl eq_refl)
    as (_ & _ & _ & H3 & _ & H6).
  split; [exact H3 | exact H6].
Defined.

(** ** Witnesses and the distribution without the final sort *)

Lemma scores_df_sorted_witness :
  let df :=
    mkDF ["Subject [DBMS]"; "Subject [OS]"]
      [ mkRow (Some 0) (Str "II-I") (Str "Male") (Str "CSE") (Str "A")
          [Str "Fair"; Str "Excellent"] ] in
  exists table first rest,
    scores_data df = Ok table /\
    sort_values_desc table = first :: rest /\
    forall row, In row (sort_values_desc table) ->
                (Average_Score row <= Average_Score first)%Q.
Proof.
  intros df.
  destruct (scores_df_sorted df) as (table & Hok & _ & Hsorted & Hany).
  destruct (Hany (sort_values_desc table) Hsorted) as (_ & _ & Hfirst).
  destruct Hfirst as (first & rest & E & Hmax).
  - vm_compute. discriminate.
  - exists table, first, rest. repeat split; assumption.
Defined.

Lemma subject_key_canonical_witness :
  normalize_subject_name (Some " os   lab ") = normalize_subject_name (Some "OS Lab").
Proof.
  destruct (subject_key_canonical " os   lab " "OS Lab") as [[_ H] _].
  apply H. reflexivity.
Defined.

(** X20 (the final sort is idle).  The rows of the distribution are in
    ascending order of the score before [sort_values('Score')] is applied:
    the table of app7.py's first tab, which leaves that call out, is the
    table of the other revisions. *)
Theorem final_sort_is_idle :
  forall scores : list Z,
    dist_df scores = dist_df_unsorted scores /\
    StronglySorted (fun a b => Score a < Score b) (dist_df_unsorted scores).
Proof.
  intros scores.
  destruct (sort_index_value_counts scores) as (Hs & _ & _ & Hsum).
  cbv zeta in Hs, Hsum.
  assert (Hsorted : StronglySorted (fun a b => Score a < Score b)
                                   (dist_df_unsorted scores)).
  { unfold dist_df_unsorted. rewrite combine_map_r, map_map.
    apply (sorted_map _ Score). exact Hs. }
  split; [|assumption].
  unfold dist_df. fold (dist_df_unsorted scores).
  now apply sort_by_strictly_sorted.
Qed.
